(** * A shallow embedding of the Google Cloud Storage adapter of SFTPGo

    The development follows [internal/vfs/gcsfs.go].  It has three layers:

    - Go strings and the [strings] / [path] functions the adapter calls;
    - the adapter's calls to its collaborators (object store, pipes and
      background tasks, metadata plugin, walk callback) as events of a
      small free monad, so that every run has a trace of calls;
    - the adapter's methods, written over that monad, and the theorems
      about them. *)

From stdpp Require Import base gmap strings list.
From Stdlib Require Import Ascii ZArith Lia.

Local Open Scope string_scope.

(** ** Go strings *)

(** A Go string is a sequence of bytes; [string] is a sequence of [ascii]
    (8-bit) characters. *)

Definition slash : ascii := "/"%char.
Definition dot : ascii := "."%char.

Definition is_slash (c : ascii) : bool := Ascii.eqb c slash.
Definition is_dot (c : ascii) : bool := Ascii.eqb c dot.

Module strings.

(** [strings.HasPrefix(s, prefix)] *)
Fixpoint HasPrefix (s prefix : string) {struct prefix} : bool :=
  match prefix, s with
  | EmptyString, _ => true
  | String _ _, EmptyString => false
  | String a prefix', String b s' => Ascii.eqb a b && HasPrefix s' prefix'
  end.

(** [s[n:]] for [n <= len(s)] *)
Fixpoint drop (n : nat) (s : string) : string :=
  match n, s with
  | O, _ => s
  | S _, EmptyString => EmptyString
  | S n', String _ s' => drop n' s'
  end.

(** [s[:n]] for [n <= len(s)] *)
Fixpoint take (n : nat) (s : string) : string :=
  match n, s with
  | O, _ => EmptyString
  | S _, EmptyString => EmptyString
  | S n', String c s' => String c (take n' s')
  end.

(** [strings.TrimPrefix(s, prefix)] *)
Definition TrimPrefix (s prefix : string) : string :=
  if HasPrefix s prefix then drop (String.length prefix) s else s.

(** [strings.HasSuffix(s, suffix)]:
    [len(s) >= len(suffix) && s[len(s)-len(suffix):] == suffix] *)
Definition HasSuffix (s suffix : string) : bool :=
  (String.length suffix <=? String.length s)%nat
  && String.eqb (drop (String.length s - String.length suffix) s) suffix.

(** [strings.TrimSuffix(s, suffix)] *)
Definition TrimSuffix (s suffix : string) : string :=
  if HasSuffix s suffix
  then take (String.length s - String.length suffix) s
  else s.

End strings.

Module path.

(** [path.IsAbs]: [len(path) > 0 && path[0] == '/'] *)
Definition IsAbs (p : string) : bool :=
  match p with
  | String c _ => is_slash c
  | EmptyString => false
  end.

(** The [..] case of [path.Clean] when it can backtrack:
    [out.w--; for out.w > dotdot && out.index(out.w) != '/' { out.w-- }].
    The argument [w] is the write index already decremented once. *)
Fixpoint backtrack (buf : string) (dotdot : nat) (w : nat) : nat :=
  match w with
  | O => O
  | S w' =>
      if (dotdot <? w)%nat
         && negb (match String.get w buf with
                  | Some c => is_slash c
                  | None => false
                  end)
      then backtrack buf dotdot w'
      else w
  end.

(** Whether [path], read from an element boundary, starts with the
    element [e] (that is, [e] followed by the end or by a slash). *)
Definition at_end_or_slash (p : string) : bool :=
  match p with
  | EmptyString => true
  | String c _ => is_slash c
  end.

(** The main loop of [path.Clean].  [p] is what is left to read
    ([path[r:]]), [out] the bytes written so far ([out.w] is its
    length), [dotdot] the index where [..] must stop.  The inner loop
    that copies a real path element is the mode [inElem = true]; on
    the slash that ends the element it hands over to the outer loop,
    whose slash case skips it. *)
Fixpoint cleanLoop (rooted : bool) (p : string) (inElem : bool)
    (out : string) (dotdot : nat) : string :=
  match p with
  | EmptyString => out
  | String c rest =>
      if inElem then
        if is_slash c then cleanLoop rooted rest false out dotdot
        else cleanLoop rooted rest true (out +:+ String c "") dotdot
      else if is_slash c then
        (* empty path element *)
        cleanLoop rooted rest false out dotdot
      else if is_dot c && at_end_or_slash rest then
        (* . element *)
        cleanLoop rooted rest false out dotdot
      else
        match rest with
        | String c2 rest2 =>
            if is_dot c && is_dot c2 && at_end_or_slash rest2 then
              (* .. element: remove to last / *)
              if (dotdot <? String.length out)%nat then
                let w := backtrack out dotdot (String.length out - 1) in
                cleanLoop rooted rest2 false (strings.take w out) dotdot
              else if negb rooted then
                let out1 :=
                  if (0 <? String.length out)%nat
                  then out +:+ "/" else out in
                let out2 := out1 +:+ ".." in
                cleanLoop rooted rest2 false out2 (String.length out2)
              else cleanLoop rooted rest2 false out dotdot
            else
              (* real path element: add slash if needed, copy it *)
              let out1 :=
                if (rooted && negb (String.length out =? 1)%nat)
                   || (negb rooted && negb (String.length out =? 0)%nat)
                then out +:+ "/" else out in
              cleanLoop rooted rest true (out1 +:+ String c "") dotdot
        | EmptyString =>
            let out1 :=
              if (rooted && negb (String.length out =? 1)%nat)
                 || (negb rooted && negb (String.length out =? 0)%nat)
              then out +:+ "/" else out in
            cleanLoop rooted rest true (out1 +:+ String c "") dotdot
        end
  end.

(** [path.Clean] *)
Definition Clean (p : string) : string :=
  match p with
  | EmptyString => "."
  | String c rest =>
      let rooted := is_slash c in
      let out :=
        if rooted then cleanLoop true rest false "/" 1
        else cleanLoop false p false "" 0 in
      if (String.length out =? 0)%nat then "." else out
  end.

(** The buffer [path.Join] builds: the non-empty elements separated by
    slashes. *)
Fixpoint joinBuf (buf : string) (elem : list string) : string :=
  match elem with
  | [] => buf
  | e :: elem' =>
      if (0 <? String.length buf)%nat || negb (String.eqb e "") then
        joinBuf ((if (0 <? String.length buf)%nat
                  then buf +:+ "/" else buf) +:+ e) elem'
      else joinBuf buf elem'
  end.

(** [path.Join(elem...)] *)
Definition Join (elem : list string) : string :=
  if (foldr (fun e n => String.length e + n)%nat O elem =? 0)%nat then ""
  else Clean (joinBuf "" elem).

(** [path.Ext]: the suffix beginning at the final dot in the final
    slash-separated element, scanning from the end. *)
Fixpoint extFrom (p : string) : option string :=
  match p with
  | EmptyString => None
  | String c rest =>
      match extFrom rest with
      | Some e => Some e
      | None =>
          if existsb is_slash (String.list_ascii_of_string rest) then None
          else if is_dot c then Some p
          else None
      end
  end.

Definition Ext (p : string) : string :=
  match extFrom p with
  | Some e => e
  | None => ""
  end.

(** The part of [path] before its trailing slashes:
    [for len(path) > 0 && path[len(path)-1] == '/' { path = path[0 : len(path)-1] }] *)
Fixpoint stripTrailingSlashes (p : string) : string :=
  match p with
  | EmptyString => EmptyString
  | String c rest =>
      let r := stripTrailingSlashes rest in
      if is_slash c && String.eqb r "" then EmptyString else String c r
  end.

(** The part of [path] after its last slash: [path[lastSlash(path)+1:]],
    the whole of it when there is none. *)
Fixpoint afterLastSlash (p : string) : string :=
  match p with
  | EmptyString => EmptyString
  | String c rest =>
      if existsb is_slash (String.list_ascii_of_string rest)
      then afterLastSlash rest
      else if is_slash c then rest else p
  end.

(** [path.Base]: the last element of the path; a dot for the empty
    path, a slash for a path of slashes only. *)
Definition Base (p : string) : string :=
  if String.eqb p "" then "."
  else
    let q := afterLastSlash (stripTrailingSlashes p) in
    if String.eqb q "" then "/" else q.

End path.

(** ** Data model *)

(** Go's [int] (on 64-bit platforms) and [int64]: an integer in
    [-2^63, 2^63) whose arithmetic wraps around. *)
Definition wrap64 (z : Z) : Z := ((z + 2 ^ 63) mod 2 ^ 64 - 2 ^ 63)%Z.
Definition add64 (a b : Z) : Z := wrap64 (a + b).
Definition mul64 (a b : Z) : Z := wrap64 (a * b).

(** [time.Time]: seconds and nanoseconds relative to the Unix epoch.  The
    zero [Time] is January 1, year 1, 00:00:00 UTC. *)
Record Time := mkTime { unixSec : Z; nanos : Z }.

Definition zeroTime : Time := mkTime (-62135596800) 0.
(** [time.Unix(0, 0)] *)
Definition unixEpoch : Time := mkTime 0 0.
(** [t.IsZero()] *)
Definition IsZero (t : Time) : bool :=
  (unixSec t =? -62135596800)%Z && (nanos t =? 0)%Z.

(** An argument of [fmt.Errorf]. *)
Inductive fmtArg :=
| ArgString (s : string)
| ArgInt (z : Z).

(** The [error] values the adapter tells apart or creates. *)
Inductive error :=
| ErrObjectNotExist                 (* storage.ErrObjectNotExist *)
| ErrBucketNotExist                 (* storage.ErrBucketNotExist *)
| GoogleAPIError (code : Z)         (* *googleapi.Error, with its Code *)
| ErrVfsUnsupported
| Errorf (format : string) (args : list fmtArg)   (* fmt.Errorf *)
| OtherError (msg : string).

(** A Go result [(value, error)] with exactly one side set. *)
Inductive Result (A : Type) :=
| Ok (a : A)
| Err (e : error).
Arguments Ok {A} a.
Arguments Err {A} e.

(** [storage.ObjectAttrs], the fields the adapter reads.  A listing with
    a delimiter also yields synthetic entries that only have [Prefix]. *)
Record ObjectAttrs := mkAttrs {
  Name : string;
  Prefix : string;
  Size : Z;
  Deleted : Time;
  Updated : Time;
  ContentType : string;
  ContentEncoding : string;
  Generation : Z
}.

(** [storage.Conditions], the two fields the adapter sets. *)
Record Conditions := mkConditions {
  GenerationMatch : Z;
  DoesNotExist : bool
}.

(** [storage.Query] *)
Record Query := mkQuery {
  QPrefix : string;
  QDelimiter : string
}.

(** What [iterator.NewPager] delivers through [NextPage]: a finite
    sequence of pages.  Every page but the last comes with a non-empty
    page token; the sequence may end in an error instead. *)
Inductive Pager :=
| LastPage (objects : list ObjectAttrs)
| MorePages (objects : list ObjectAttrs) (next : Pager)
| PageError (err : error).

(** [pager.NextPage(&objects)]: the page and, when the token is not
    empty, the rest of the listing. *)
Definition NextPage (p : Pager) : Result (list ObjectAttrs * option Pager) :=
  match p with
  | LastPage objects => Ok (objects, None)
  | MorePages objects next => Ok (objects, Some next)
  | PageError e => Err e
  end.

(** Modelled from the spec: [FileInfo] and [NewFileInfo] are declared
    outside src/.  §3: "FileInfo: name (relative, protocol-visible),
    isDirectory flag, size in bytes, modification time, symlink flag
    (always false for object backends)".  The name is relative: unless
    the constructor is asked for the full name, it keeps the last
    element of the path it is given. *)
Record FileInfo := mkFileInfo {
  fiName : string;
  fiIsDir : bool;
  fiSize : Z;
  fiModTime : Time
}.

Definition NewFileInfo (name : string) (isDirectory : bool) (sizeInBytes : Z)
    (modTime : Time) (fullName : bool) : FileInfo :=
  mkFileInfo (if fullName then name else path.Base name)
    isDirectory sizeInBytes modTime.

(** The attributes of an object reader ([objectReader.Attrs]). *)
Record Reader := mkReader {
  ReaderContentEncoding : string
}.

(** What [Create] sets on the object writer before the upload starts. *)
Record WriterConfig := mkWriterConfig {
  ChunkSize : option Z;
  ChunkRetryDeadline : option Z;
  WContentType : string;
  WStorageClass : string;
  PredefinedACL : string
}.

(** [GCSFsConfig] and [GCSFs], the fields the methods read. *)
Record GCSFsConfig := mkConfig {
  Bucket : string;
  KeyPrefix : string;
  StorageClass : string;
  ACL : string;
  UploadPartSize : Z;
  UploadPartMaxTime : Z
}.

Record GCSFs := mkGCSFs {
  connectionID : string;
  localTempDir : string;
  mountPath : string;
  config : GCSFsConfig
}.

(** Declarations of package [vfs] and of its helper packages that lie
    outside src/ and that the adapter only passes values through. *)
Record VfsPkg := mkVfsPkg {
  dirMimeType : string;
  (** the package-level rename policy: 0 fails on a non-empty directory,
      1 renames recursively *)
  renameMode : Z;
  ensureAbsPath : string -> string;
  GetTimeAsMsSinceEpoch : Time -> Z;
  GetTimeFromMsecSinceEpoch : Z -> Time;
  (** [mime.TypeByExtension] *)
  TypeByExtension : string -> string
}.

Definition gcsDefaultFieldsSelection : list string :=
  ["Name"; "Size"; "Deleted"; "Updated"; "ContentType"].

Definition defaultGCSPageSize : Z := 5000.

(** ** Calls to collaborators *)

(** One constructor per call that leaves the adapter, indexed by the type
    of its answer.  Deadlines, logging and the metrics sink have no
    influence on what the methods return and are left out. *)
Inductive gcsE : Type -> Type :=
(* object store *)
| SetAttrSelection (fields : list string) : gcsE (option error)
| ObjAttrs (name : string) : gcsE (Result ObjectAttrs)
| ListObjects (q : Query) (pageSize : Z) : gcsE Pager
| CopierRun (src dst : string) (cond : option Conditions)
    (storageClass acl contentType : string) : gcsE (option error)
| ObjDelete (name : string) (cond : option Conditions) : gcsE (option error)
| NewRangeReader (name : string) (offset length : Z) : gcsE (Result Reader)
| ReaderClose : gcsE unit
(* local pipe, cancellation, background tasks *)
| PipeInDir (dir : string) : gcsE (option error)
| PipeReaderClose : gcsE unit
| PipeWriterClose : gcsE unit
| CancelFn : gcsE unit
| GoDownload (name : string) : gcsE unit
| GoUpload (name : string) (cond : option Conditions) (w : WriterConfig)
    : gcsE unit
| UploadClose : gcsE (option error)
(* metadata plugin *)
| HasMetadater : gcsE bool
| SetModificationTime (storageID p : string) (ms : Z) : gcsE (option error)
| RemoveMetadata (storageID p : string) : gcsE (option error)
| GetFolderModTimes (storageID dirname : string)
    : gcsE (gmap string Z * option error)
| OverlayModTime (storageID name : string) : gcsE (option Z)
(* the caller's walk function *)
| WalkFn (p : string) (info : option FileInfo) (err : option error)
    : gcsE (option error).

(** Programs: a result, or a call and what to do with its answer. *)
Inductive prog (A : Type) : Type :=
| Ret (a : A)
| Vis {R : Type} (e : gcsE R) (k : R -> prog A).
Arguments Ret {A} a.
Arguments Vis {A R} e k.

Fixpoint bind {A B : Type} (p : prog A) (f : A -> prog B) : prog B :=
  match p with
  | Ret a => f a
  | Vis e k => Vis e (fun r => bind (k r) f)
  end.

Definition trigger {R : Type} (e : gcsE R) : prog R := Vis e Ret.

Declare Scope prog_scope.
Delimit Scope prog_scope with prog.
Notation "x <- p ;; q" := (bind p (fun x => q))
  (at level 100, p at next level, right associativity) : prog_scope.
Local Open Scope prog_scope.

(** A trace entry: a call together with its answer. *)
Inductive entry : Type :=
| Ev {R : Type} (e : gcsE R) (r : R).

(** An environment answers every call, from a state of its own. *)
Definition handler (W : Type) : Type := forall R : Type, gcsE R -> W -> R * W.

(** Running a program against an environment gives its result, the final
    state of the environment and the calls made, in order. *)
Fixpoint run {W A : Type} (h : handler W) (p : prog A) (w : W)
    : A * W * list entry :=
  match p with
  | Ret a => (a, w, [])
  | Vis e k =>
      let '(r, w1) := h _ e w in
      let '(a, w2, tr) := run h (k r) w1 in
      (a, w2, Ev e r :: tr)
  end.

(** ** The adapter *)

(** [IsNotExist]; [None] is the nil error. *)
Definition IsNotExist (err : option error) : bool :=
  match err with
  | None => false
  | Some ErrObjectNotExist => true
  | Some ErrBucketNotExist => true
  | Some (GoogleAPIError code) => (code =? 404)%Z
  | Some _ => false
  end.

(** [IsPermission]: [http.StatusForbidden] is 403 and
    [http.StatusUnauthorized] is 401. *)
Definition IsPermission (err : option error) : bool :=
  match err with
  | None => false
  | Some (GoogleAPIError code) => (code =? 403)%Z || (code =? 401)%Z
  | Some _ => false
  end.

(** [IsNotSupported] *)
Definition IsNotSupported (err : option error) : bool :=
  match err with
  | None => false
  | Some ErrVfsUnsupported => true
  | Some _ => false
  end.

(** [Symlink], [Readlink], [Chown], [Chmod] and [Truncate] *)
Definition Symlink (source target : string) : option error :=
  Some ErrVfsUnsupported.
Definition Readlink (name : string) : Result string := Err ErrVfsUnsupported.
Definition Chown (name : string) (uid gid : Z) : option error :=
  Some ErrVfsUnsupported.
Definition Chmod (name : string) (mode : Z) : option error :=
  Some ErrVfsUnsupported.
Definition Truncate (name : string) (size : Z) : option error :=
  Some ErrVfsUnsupported.

(** The method [Join] of [GCSFs] *)
Definition Join (elem : list string) : string :=
  strings.TrimPrefix (path.Join elem) "/".

Definition getPrefix (name : string) : string :=
  if negb (String.eqb name "") && negb (String.eqb name ".")
     && negb (String.eqb name "/")
  then
    let prefix := strings.TrimPrefix name "/" in
    if negb (strings.HasSuffix prefix "/") then prefix +:+ "/" else prefix
  else "".

Section Adapter.

Context (pkg : VfsPkg) (fs : GCSFs).

Definition getStorageID : string := "gs://" +:+ Bucket (config fs).

Definition resolve (name prefix contentType : string) : string * bool :=
  let result := strings.TrimPrefix name prefix in
  let isDir := strings.HasSuffix result "/" in
  let result := if isDir then strings.TrimSuffix result "/" else result in
  let isDir :=
    if String.eqb contentType (dirMimeType pkg) then true else isDir in
  (result, isDir).

(** [GetRelativePath] *)
Definition GetRelativePath (name : string) : string :=
  let rel := path.Clean name in
  let rel := if String.eqb rel "." then "" else rel in
  let rel := if negb (path.IsAbs rel) then "/" +:+ rel else rel in
  let rel :=
    if negb (String.eqb (KeyPrefix (config fs)) "") then
      let rel :=
        if negb (strings.HasPrefix rel ("/" +:+ KeyPrefix (config fs)))
        then "/" else rel in
      path.Clean
        ("/" +:+ strings.TrimPrefix rel ("/" +:+ KeyPrefix (config fs)))
    else rel in
  if negb (String.eqb (mountPath fs) "")
  then path.Join [mountPath fs; rel]
  else rel.

(** [ResolvePath]; its error result is always nil. *)
Definition ResolvePath (virtualPath : string) : string :=
  let virtualPath :=
    if negb (String.eqb (mountPath fs) "")
    then strings.TrimPrefix virtualPath (mountPath fs)
    else virtualPath in
  let virtualPath :=
    if negb (path.IsAbs virtualPath)
    then path.Clean ("/" +:+ virtualPath)
    else virtualPath in
  Join [KeyPrefix (config fs); strings.TrimPrefix virtualPath "/"].

(** Modelled from the spec: [updateFileInfoModTime] is declared outside
    src/.  §3 gives a FileInfo the backend's modification time "unless
    overridden by the Metadata Overlay", and §5 makes overlay calls
    best-effort: the overlay can replace the modification time and
    nothing else, and cannot make the operation fail. *)
Definition updateFileInfoModTime (storageID objectPath : string)
    (info : FileInfo) : prog (Result FileInfo) :=
  t <- trigger (OverlayModTime storageID objectPath) ;;
  Ret (Ok match t with
          | Some ms =>
              mkFileInfo (fiName info) (fiIsDir info) (fiSize info)
                (GetTimeFromMsecSinceEpoch pkg ms)
          | None => info
          end).

Definition headObject (name : string) : prog (Result ObjectAttrs) :=
  trigger (ObjAttrs name).

(** The loop of [hasContents] over the first page. *)
Fixpoint hasContentsLoop (prefix : string) (objects : list ObjectAttrs)
    : bool :=
  match objects with
  | [] => false
  | attrs :: objects' =>
      let name := fst (resolve (Name attrs) prefix (ContentType attrs)) in
      (* a dir object with a trailing slash will result in an empty name *)
      if String.eqb name "/" || String.eqb name ""
      then hasContentsLoop prefix objects'
      else true
  end.

Definition hasContents (name : string) : prog (Result bool) :=
  let prefix := getPrefix name in
  let query := mkQuery prefix "" in
  err <- trigger (SetAttrSelection gcsDefaultFieldsSelection) ;;
  match err with
  | Some e => Ret (Err e)
  | None =>
      (* if we have a dir object with a trailing slash it will be
         returned so we set the size to 2 *)
      pager <- trigger (ListObjects query 2) ;;
      match NextPage pager with
      | Err e => Ret (Err e)
      | Ok (objects, _) => Ret (Ok (hasContentsLoop prefix objects))
      end
  end.

Definition getObjectStat (name : string) : prog (Result FileInfo) :=
  r <- headObject name ;;
  match r with
  | Ok attrs =>
      let objSize := Size attrs in
      let objectModTime := Updated attrs in
      let isDir :=
        String.eqb (ContentType attrs) (dirMimeType pkg)
        || strings.HasSuffix (Name attrs) "/" in
      updateFileInfoModTime getStorageID name
        (NewFileInfo name isDir objSize objectModTime false)
  | Err err =>
      if negb (IsNotExist (Some err)) then Ret (Err err)
      else
        (* now check if this is a prefix (virtual directory) *)
        r <- hasContents name ;;
        match r with
        | Err err => Ret (Err err)
        | Ok true =>
            updateFileInfoModTime getStorageID name
              (NewFileInfo name true 0 unixEpoch false)
        | Ok false =>
            (* finally check if this is an object with a trailing / *)
            r <- headObject (name +:+ "/") ;;
            match r with
            | Err err => Ret (Err err)
            | Ok attrs =>
                updateFileInfoModTime getStorageID name
                  (NewFileInfo name true (Size attrs) (Updated attrs) false)
            end
        end
  end.

(** [Stat] *)
Definition Stat (name : string) : prog (Result FileInfo) :=
  if String.eqb name "" || String.eqb name "/" || String.eqb name "."
  then updateFileInfoModTime getStorageID name
         (NewFileInfo name true 0 unixEpoch false)
  else if String.eqb (KeyPrefix (config fs)) (name +:+ "/")
  then updateFileInfoModTime getStorageID name
         (NewFileInfo name true 0 unixEpoch false)
  else getObjectStat name.

(** [Open].  The returned reader end of the pipe and the cancellation
    function are the ones the calls [PipeInDir] and [CancelFn] refer
    to; [GoDownload] starts the task that copies the object into the
    pipe. *)
Definition Open (name : string) (offset : Z) : prog (option error) :=
  err <- trigger (PipeInDir (localTempDir fs)) ;;
  match err with
  | Some e => Ret (Some e)
  | None =>
      r <- trigger (NewRangeReader name offset (-1)) ;;
      err <-
        match r with
        | Ok objectReader =>
            if (0 <? offset)%Z
               && String.eqb (ReaderContentEncoding objectReader) "gzip"
            then
              _ <- trigger ReaderClose ;;
              Ret (Some (Errorf
                "range request is not possible for gzip content encoding, requested offset %v"
                [ArgInt offset]))
            else Ret None
        | Err e => Ret (Some e)
        end ;;
      match err with
      | Some e =>
          _ <- trigger PipeReaderClose ;;
          _ <- trigger PipeWriterClose ;;
          _ <- trigger CancelFn ;;
          Ret (Some e)
      | None =>
          _ <- trigger (GoDownload name) ;;
          Ret None
      end
  end.

(** The precondition [Create] and [copyFileInternal] derive from a
    head of the destination: generation match if it exists, must not
    exist if it is not found, none if the head failed otherwise. *)
Definition preconditionFor (r : Result ObjectAttrs) : option Conditions :=
  match r with
  | Ok attrs => Some (mkConditions (Generation attrs) false)
  | Err statErr =>
      if IsNotExist (Some statErr) then Some (mkConditions 0 true)
      else None
  end.

(** [Create].  [GoUpload] starts the task that copies the pipe into
    the object writer; the returned [PipeWriter] is the one
    [UploadClose] closes. *)
Definition Create (name : string) (flag : Z) : prog (option error) :=
  err <- trigger (PipeInDir (localTempDir fs)) ;;
  match err with
  | Some e => Ret (Some e)
  | None =>
      cond <-
        (if (flag =? -1)%Z then Ret (Some (mkConditions 0 true))
         else
           r <- headObject name ;;
           Ret (preconditionFor r)) ;;
      let chunkSize :=
        if (0 <? UploadPartSize (config fs))%Z
        then Some (mul64 (mul64 (UploadPartSize (config fs)) 1024) 1024)
        else None in
      let chunkRetryDeadline :=
        if (0 <? UploadPartMaxTime (config fs))%Z
        then Some (mul64 (UploadPartMaxTime (config fs)) 1000000000)
        else None in
      let contentType :=
        if (flag =? -1)%Z then dirMimeType pkg
        else TypeByExtension pkg (path.Ext name) in
      _ <- trigger (GoUpload name cond
             (mkWriterConfig chunkSize chunkRetryDeadline contentType
                (StorageClass (config fs)) (ACL (config fs)))) ;;
      Ret None
  end.

Definition mkdirInternal (name : string) : prog (option error) :=
  let name :=
    if negb (strings.HasSuffix name "/") then name +:+ "/" else name in
  err <- Create name (-1) ;;
  match err with
  | Some e => Ret (Some e)
  | None => trigger UploadClose
  end.

(** [Mkdir] *)
Definition Mkdir (name : string) : prog (option error) :=
  r <- Stat name ;;
  let err := match r with Ok _ => None | Err e => Some e end in
  if negb (IsNotExist err) then Ret err
  else mkdirInternal name.

(** [Remove] *)
Definition Remove (name : string) (isDir : bool) : prog (option error) :=
  pre <-
    (if isDir then
       r <- hasContents name ;;
       match r with
       | Err e => Ret (Err e)
       | Ok true =>
           Ret (Err (Errorf "cannot remove non empty directory: %q"
                       [ArgString name]))
       | Ok false =>
           Ret (Ok (if negb (strings.HasSuffix name "/")
                    then name +:+ "/" else name))
       end
     else Ret (Ok name)) ;;
  match pre with
  | Err e => Ret (Some e)
  | Ok name =>
      r <- headObject name ;;
      let cond :=
        match r with
        | Ok attrs => Some (mkConditions (Generation attrs) false)
        | Err _ => None
        end in
      err <- trigger (ObjDelete name cond) ;;
      err <-
        (if isDir && IsNotExist err then
           (* we can have directories without a trailing "/" (created
              using v2.1.0 and before) *)
           trigger (ObjDelete (strings.TrimSuffix name "/") None)
         else Ret err) ;;
      hasMetadater <- trigger HasMetadater ;;
      _ <-
        (if hasMetadater
            && match err with None => true | Some _ => false end
            && negb isDir
         then
           _ <- trigger (RemoveMetadata getStorageID
                           (ensureAbsPath pkg name)) ;;
           Ret tt
         else Ret tt) ;;
      Ret err
  end.

Definition copyFileInternal (source target : string) : prog (option error) :=
  r <- headObject target ;;
  let cond := preconditionFor r in
  let contentType := TypeByExtension pkg (path.Ext source) in
  trigger (CopierRun source target cond
             (StorageClass (config fs)) (ACL (config fs)) contentType).

(** [CopyFile] *)
Definition CopyFile (source target : string) (srcSize : Z)
    : prog (option error) :=
  copyFileInternal source target.

(** The body of the loop of [ReadDir] over the objects of a page.  The
    state is the result so far and the map [prefixes]. *)
Definition readDirObject (prefix : string) (modTimes : gmap string Z)
    (st : list FileInfo * gmap string bool) (attrs : ObjectAttrs)
    : list FileInfo * gmap string bool :=
  let '(result, prefixes) := st in
  if negb (String.eqb (Prefix attrs) "") then
    let name := fst (resolve (Prefix attrs) prefix (ContentType attrs)) in
    if String.eqb name "" then st
    else
      match prefixes !! name with
      | Some _ => st
      | None =>
          ((result ++ [NewFileInfo name true 0 unixEpoch false])%list,
           <[name := true]> prefixes)
      end
  else
    let '(name, isDir) :=
      resolve (Name attrs) prefix (ContentType attrs) in
    if String.eqb name "" then st
    else if negb (IsZero (Deleted attrs)) then st
    else
      (* check if the dir is already included, it will be sent as blob
         prefix if it contains at least one item *)
      match (if isDir then prefixes !! name else None) with
      | Some _ => st
      | None =>
          let prefixes :=
            if isDir then <[name := true]> prefixes else prefixes in
          let modTime :=
            match modTimes !! name with
            | Some t => GetTimeFromMsecSinceEpoch pkg t
            | None => Updated attrs
            end in
          ((result ++ [NewFileInfo name isDir (Size attrs) modTime false])
             %list,
           prefixes)
      end.

(** The loop of [ReadDir] over the pages. *)
Fixpoint readDirPages (prefix : string) (modTimes : gmap string Z)
    (pager : Pager) (st : list FileInfo * gmap string bool)
    : list FileInfo * option error :=
  match pager with
  | PageError err => (fst st, Some err)
  | LastPage objects =>
      (fst (fold_left (readDirObject prefix modTimes) objects st), None)
  | MorePages objects next =>
      readDirPages prefix modTimes next
        (fold_left (readDirObject prefix modTimes) objects st)
  end.

(** [ReadDir] *)
Definition ReadDir (dirname : string)
    : prog (list FileInfo * option error) :=
  (* dirname must be already cleaned *)
  let prefix := getPrefix dirname in
  let query := mkQuery prefix "/" in
  err <- trigger (SetAttrSelection gcsDefaultFieldsSelection) ;;
  match err with
  | Some e => Ret ([], Some e)
  | None =>
      r <- trigger (GetFolderModTimes getStorageID dirname) ;;
      match snd r with
      | Some e => Ret ([], Some e)
      | None =>
          pager <- trigger (ListObjects query defaultGCSPageSize) ;;
          Ret (readDirPages prefix (fst r) pager ([], ∅))
      end
  end.

(** The loop of [renameInternal] over the entries of the source
    directory; [rename] is the recursive call.  [None] only when the
    recursion ran out of fuel. *)
Fixpoint renameEntries
    (rename : string -> string -> FileInfo ->
              prog (option (Z * Z * option error)))
    (source target : string) (entries : list FileInfo)
    (numFiles filesSize : Z) : prog (option (Z * Z * option error)) :=
  match entries with
  | [] => Ret (Some (numFiles, filesSize, None))
  | info :: entries' =>
      let sourceEntry := Join [source; fiName info] in
      let targetEntry := Join [target; fiName info] in
      r <- rename sourceEntry targetEntry info ;;
      match r with
      | None => Ret None
      | Some (_, _, Some err) => Ret (Some (numFiles, filesSize, Some err))
      | Some (files, size, None) =>
          renameEntries rename source target entries'
            (add64 numFiles files) (add64 filesSize size)
      end
  end.

(** The end of [renameInternal]: remove the source; a source that is
    already gone is not an error. *)
Definition removeSource (source : string) (fi : FileInfo)
    (numFiles filesSize : Z) : prog (option (Z * Z * option error)) :=
  err <- Remove source (fiIsDir fi) ;;
  let err := if IsNotExist err then None else err in
  Ret (Some (numFiles, filesSize, err)).

(** [renameInternal].  The recursion follows the directory tree the
    listings report, so it is bounded by [fuel]; the result is [None]
    only when the fuel is used up. *)
Fixpoint renameInternal (fuel : nat) (source target : string)
    (fi : FileInfo) : prog (option (Z * Z * option error)) :=
  match fuel with
  | O => Ret None
  | S fuel' =>
      let numFiles := 0%Z in
      let filesSize := 0%Z in
      if fiIsDir fi then
        check <-
          (if (renameMode pkg =? 0)%Z then
             r <- hasContents source ;;
             match r with
             | Err err => Ret (Some err)
             | Ok true =>
                 Ret (Some (Errorf "cannot rename non empty directory: %q"
                              [ArgString source]))
             | Ok false => Ret None
             end
           else Ret None) ;;
        match check with
        | Some err => Ret (Some (numFiles, filesSize, Some err))
        | None =>
            err <- mkdirInternal target ;;
            match err with
            | Some err => Ret (Some (numFiles, filesSize, Some err))
            | None =>
                if (renameMode pkg =? 1)%Z then
                  r <- ReadDir source ;;
                  match snd r with
                  | Some err => Ret (Some (numFiles, filesSize, Some err))
                  | None =>
                      r <- renameEntries (renameInternal fuel')
                             source target (fst r) numFiles filesSize ;;
                      match r with
                      | None => Ret None
                      | Some (numFiles, filesSize, Some err) =>
                          Ret (Some (numFiles, filesSize, Some err))
                      | Some (numFiles, filesSize, None) =>
                          removeSource source fi numFiles filesSize
                      end
                  end
                else removeSource source fi numFiles filesSize
            end
        end
      else
        err <- copyFileInternal source target ;;
        match err with
        | Some err => Ret (Some (numFiles, filesSize, Some err))
        | None =>
            let numFiles := add64 numFiles 1 in
            let filesSize := add64 filesSize (fiSize fi) in
            hasMetadater <- trigger HasMetadater ;;
            _ <-
              (if hasMetadater then
                 _ <- trigger (SetModificationTime getStorageID
                                 (ensureAbsPath pkg target)
                                 (GetTimeAsMsSinceEpoch pkg (fiModTime fi))) ;;
                 Ret tt
               else Ret tt) ;;
            removeSource source fi numFiles filesSize
        end
  end.

(** [Rename] *)
Definition Rename (fuel : nat) (source target : string)
    : prog (option (Z * Z * option error)) :=
  if String.eqb source target then Ret (Some (-1, -1, None)%Z)
  else
    r <- getObjectStat source ;;
    match r with
    | Err err => Ret (Some (-1, -1, Some err)%Z)
    | Ok fi => renameInternal fuel source target fi
    end.

(** The body of the loop of [GetDirSize] over the objects of a page. *)
Definition dirSizeObject (st : Z * Z) (attrs : ObjectAttrs) : Z * Z :=
  let '(numFiles, size) := st in
  if negb (IsZero (Deleted attrs)) then st
  else
    let isDir :=
      strings.HasSuffix (Name attrs) "/"
      || String.eqb (ContentType attrs) (dirMimeType pkg) in
    if isDir && (Size attrs =? 0)%Z then st
    else (add64 numFiles 1, add64 size (Size attrs)).

Fixpoint dirSizePages (pager : Pager) (st : Z * Z)
    : Z * Z * option error :=
  match pager with
  | PageError err => (st, Some err)
  | LastPage objects => (fold_left dirSizeObject objects st, None)
  | MorePages objects next =>
      dirSizePages next (fold_left dirSizeObject objects st)
  end.

(** [GetDirSize] *)
Definition GetDirSize (dirname : string) : prog (Z * Z * option error) :=
  let prefix := getPrefix dirname in
  let query := mkQuery prefix "" in
  err <- trigger (SetAttrSelection gcsDefaultFieldsSelection) ;;
  match err with
  | Some e => Ret (0, 0, Some e)%Z
  | None =>
      pager <- trigger (ListObjects query defaultGCSPageSize) ;;
      Ret (dirSizePages pager (0, 0)%Z)
  end.

(** The loop of [Walk] over the objects of a page; [Some err] when the
    walk function made it return. *)
Fixpoint walkObjects (prefix : string) (objects : list ObjectAttrs)
    : prog (option error) :=
  match objects with
  | [] => Ret None
  | attrs :: objects' =>
      if negb (IsZero (Deleted attrs)) then walkObjects prefix objects'
      else
        let '(name, isDir) :=
          resolve (Name attrs) prefix (ContentType attrs) in
        if String.eqb name "" then walkObjects prefix objects'
        else
          err <- trigger (WalkFn (Name attrs)
                   (Some (NewFileInfo name isDir (Size attrs)
                            (Updated attrs) false)) None) ;;
          match err with
          | Some e => Ret (Some e)
          | None => walkObjects prefix objects'
          end
  end.

(** The loop of [Walk] over the pages; [Some err] when [Walk] returned
    from inside the loop. *)
Fixpoint walkPages (root prefix : string) (pager : Pager)
    : prog (option error) :=
  match pager with
  | PageError err =>
      _ <- trigger (WalkFn root None (Some err)) ;;
      Ret (Some err)
  | LastPage objects => walkObjects prefix objects
  | MorePages objects next =>
      r <- walkObjects prefix objects ;;
      match r with
      | Some e => Ret (Some e)
      | None => walkPages root prefix next
      end
  end.

(** [Walk]; the walk function is the call [WalkFn]. *)
Definition Walk (root : string) : prog (option error) :=
  let prefix := getPrefix root in
  let query := mkQuery prefix "" in
  err <- trigger (SetAttrSelection gcsDefaultFieldsSelection) ;;
  match err with
  | Some e =>
      _ <- trigger (WalkFn root None (Some e)) ;;
      Ret (Some e)
  | None =>
      pager <- trigger (ListObjects query defaultGCSPageSize) ;;
      r <- walkPages root prefix pager ;;
      match r with
      | Some e => Ret (Some e)
      | None =>
          _ <- trigger (WalkFn root
                 (Some (NewFileInfo root true 0 unixEpoch false)) None) ;;
          Ret None
      end
  end.

(** [Lstat] *)
Definition Lstat (name : string) : prog (Result FileInfo) := Stat name.

(** [Chtimes] *)
Definition Chtimes (name : string) (atime mtime : Time) (isUploading : bool)
    : prog (option error) :=
  hasMetadater <- trigger HasMetadater ;;
  if negb hasMetadater then Ret (Some ErrVfsUnsupported)
  else
    check <-
      (if negb isUploading then
         r <- Stat name ;;
         match r with
         | Err err => Ret (Some err)
         | Ok info =>
             if fiIsDir info then Ret (Some ErrVfsUnsupported) else Ret None
         end
       else Ret None) ;;
    match check with
    | Some err => Ret (Some err)
    | None =>
        trigger (SetModificationTime getStorageID (ensureAbsPath pkg name)
                   (GetTimeAsMsSinceEpoch pkg mtime))
    end.

(** [ScanRootDirContents] *)
Definition ScanRootDirContents : prog (Z * Z * option error) :=
  GetDirSize (KeyPrefix (config fs)).

(** The body of the loop of [getFileNamesInPrefix] over the objects of
    a page. *)
Definition fileNamesObject (prefix : string) (fileNames : gmap string bool)
    (attrs : ObjectAttrs) : gmap string bool :=
  if negb (IsZero (Deleted attrs)) then fileNames
  else if String.eqb (Prefix attrs) "" then
    let '(name, isDir) :=
      resolve (Name attrs) prefix (ContentType attrs) in
    if String.eqb name "" then fileNames
    else if isDir then fileNames
    else <[name := true]> fileNames
  else fileNames.

(** The loop of [getFileNamesInPrefix] over the pages. *)
Fixpoint fileNamesPages (prefix : string) (pager : Pager)
    (fileNames : gmap string bool) : gmap string bool * option error :=
  match pager with
  | PageError err => (fileNames, Some err)
  | LastPage objects =>
      (fold_left (fileNamesObject prefix) objects fileNames, None)
  | MorePages objects next =>
      fileNamesPages prefix next
        (fold_left (fileNamesObject prefix) objects fileNames)
  end.

Definition getFileNamesInPrefix (fsPrefix : string)
    : prog (gmap string bool * option error) :=
  let prefix :=
    if negb (String.eqb fsPrefix "/") then strings.TrimPrefix fsPrefix "/"
    else "" in
  let query := mkQuery prefix "/" in
  err <- trigger (SetAttrSelection gcsDefaultFieldsSelection) ;;
  match err with
  | Some e => Ret (∅, Some e)
  | None =>
      pager <- trigger (ListObjects query defaultGCSPageSize) ;;
      Ret (fileNamesPages prefix pager ∅)
  end.

(** [GetMimeType] *)
Definition GetMimeType (name : string) : prog (Result string) :=
  r <- headObject name ;;
  match r with
  | Err err => Ret (Err err)
  | Ok attrs => Ret (Ok (ContentType attrs))
  end.

End Adapter.

(** ** An in-memory bucket

    A test double for the collaborators, used for the concrete runs: a
    bucket is the list of its objects in key order.  Listings filter by
    prefix and, with a delimiter, roll deeper keys up into prefix
    entries (objects first, then prefixes); writes, copies and deletes
    honour their preconditions. *)
Module MemStore.

Record store := mkStore {
  objects : list ObjectAttrs;
  overlay : bool;
  (** whether the credentials may delete objects *)
  canDelete : bool;
  (** the upload started by [GoUpload] and not yet closed *)
  pending : option (string * option Conditions * WriterConfig);
  nextGeneration : Z
}.

Fixpoint find (name : string) (l : list ObjectAttrs) : option ObjectAttrs :=
  match l with
  | [] => None
  | o :: l' => if String.eqb (Name o) name then Some o else find name l'
  end.

Fixpoint remove (name : string) (l : list ObjectAttrs) : list ObjectAttrs :=
  match l with
  | [] => []
  | o :: l' =>
      if String.eqb (Name o) name then l' else o :: remove name l'
  end.

(** Insert or replace, keeping the key order. *)
Fixpoint put (o : ObjectAttrs) (l : list ObjectAttrs) : list ObjectAttrs :=
  match l with
  | [] => [o]
  | o' :: l' =>
      if String.eqb (Name o') (Name o) then o :: l'
      else if String.ltb (Name o) (Name o') then o :: o' :: l'
      else o' :: put o l'
  end.

(** The part of [rest] up to and including its first slash, if any. *)
Fixpoint upToSlash (rest : string) : option string :=
  match rest with
  | EmptyString => None
  | String c rest' =>
      if is_slash c then Some (String c "")
      else option_map (String c) (upToSlash rest')
  end.

Definition prefixEntry (p : string) : ObjectAttrs :=
  mkAttrs "" p 0 zeroTime zeroTime "" "" 0.

Fixpoint rollUp (prefix : string) (l : list ObjectAttrs) (seen : list string)
    : list ObjectAttrs * list ObjectAttrs :=
  match l with
  | [] => ([], [])
  | o :: l' =>
      match upToSlash (strings.drop (String.length prefix) (Name o)) with
      | None =>
          let '(items, prefixes) := rollUp prefix l' seen in
          (o :: items, prefixes)
      | Some d =>
          let p := prefix +:+ d in
          if existsb (String.eqb p) seen then rollUp prefix l' seen
          else
            let '(items, prefixes) := rollUp prefix l' (p :: seen) in
            (items, prefixEntry p :: prefixes)
      end
  end.

Definition listing (q : Query) (l : list ObjectAttrs) : list ObjectAttrs :=
  let matching :=
    List.filter (fun o => strings.HasPrefix (Name o) (QPrefix q)) l in
  if String.eqb (QDelimiter q) "/" then
    let '(items, prefixes) := rollUp (QPrefix q) matching [] in
    (items ++ prefixes)%list
  else matching.

Fixpoint paginate (fuel : nat) (pageSize : nat) (l : list ObjectAttrs)
    : Pager :=
  match fuel with
  | O => LastPage l
  | S fuel' =>
      if (length l <=? pageSize)%nat then LastPage l
      else MorePages (firstn pageSize l)
             (paginate fuel' pageSize (skipn pageSize l))
  end.

Definition preconditionFailed : error := GoogleAPIError 412.
Definition permissionDenied : error := GoogleAPIError 403.

Definition checkCond (cond : option Conditions) (cur : option ObjectAttrs)
    : bool :=
  match cond, cur with
  | None, _ => true
  | Some c, None => DoesNotExist c
  | Some c, Some o =>
      negb (DoesNotExist c) && (GenerationMatch c =? Generation o)%Z
  end.

Definition write (o : ObjectAttrs) (cond : option Conditions) (s : store)
    : option error * store :=
  if checkCond cond (find (Name o) (objects s)) then
    (None,
     mkStore
       (put (mkAttrs (Name o) "" (Size o) zeroTime (Updated o)
               (ContentType o) (ContentEncoding o) (nextGeneration s))
          (objects s))
       (overlay s) (canDelete s) None (nextGeneration s + 1))
  else (Some preconditionFailed,
        mkStore (objects s) (overlay s) (canDelete s) None
          (nextGeneration s)).

Definition handle : handler store :=
  fun R e s =>
    match e in gcsE R return R * store with
    | SetAttrSelection _ => (None, s)
    | ObjAttrs name =>
        (match find name (objects s) with
         | Some o => Ok o
         | None => Err ErrObjectNotExist
         end, s)
    | ListObjects q pageSize =>
        let l := listing q (objects s) in
        (paginate (length l) (Z.to_nat pageSize) l, s)
    | CopierRun src dst cond storageClass acl contentType =>
        match find src (objects s) with
        | None => (Some ErrObjectNotExist, s)
        | Some o =>
            write (mkAttrs dst "" (Size o) zeroTime (Updated o)
                     (if String.eqb contentType "" then ContentType o
                      else contentType)
                     (ContentEncoding o) 0) cond s
        end
    | ObjDelete name cond =>
        match find name (objects s) with
        | None => (Some ErrObjectNotExist, s)
        | Some o =>
            if negb (canDelete s) then (Some permissionDenied, s)
            else if checkCond cond (Some o) then
              (None, mkStore (remove name (objects s)) (overlay s)
                       (canDelete s) (pending s) (nextGeneration s))
            else (Some preconditionFailed, s)
        end
    | NewRangeReader name offset length =>
        (match find name (objects s) with
         | Some o => Ok (mkReader (ContentEncoding o))
         | None => Err ErrObjectNotExist
         end, s)
    | ReaderClose => (tt, s)
    | PipeInDir _ => (None, s)
    | PipeReaderClose => (tt, s)
    | PipeWriterClose => (tt, s)
    | CancelFn => (tt, s)
    | GoDownload _ => (tt, s)
    | GoUpload name cond w =>
        (tt, mkStore (objects s) (overlay s) (canDelete s)
               (Some (name, cond, w)) (nextGeneration s))
    | UploadClose =>
        match pending s with
        | None => (None, s)
        | Some (name, cond, w) =>
            write (mkAttrs name "" 0 zeroTime unixEpoch (WContentType w)
                     "" 0) cond s
        end
    | HasMetadater => (overlay s, s)
    | SetModificationTime _ _ _ => (None, s)
    | RemoveMetadata _ _ => (None, s)
    | GetFolderModTimes _ _ => ((∅, None), s)
    | OverlayModTime _ _ => (None, s)
    | WalkFn _ _ _ => (None, s)
    end.

End MemStore.

(** ** Concrete runs *)

Definition examplePkg (mode : Z) : VfsPkg :=
  mkVfsPkg "inode/directory" mode
    (fun name => if path.IsAbs name then name else path.Join ["/"; name])
    (fun t => (unixSec t * 1000 + nanos t / 1000000)%Z)
    (fun ms => mkTime (ms / 1000) (ms mod 1000 * 1000000))
    (fun ext => if String.eqb ext ".txt" then "text/plain; charset=utf-8"
                else "").

Definition exampleFs (keyPrefix mount : string) : GCSFs :=
  mkGCSFs "conn" "/tmp" mount (mkConfig "bucket" keyPrefix "" "" 0 0).

Definition plainObject (name : string) (size : Z) : ObjectAttrs :=
  mkAttrs name "" size zeroTime (mkTime 1700000000 0) "text/plain" "" 1.

(** The bucket of the concrete scenario: [a/b.txt] of 10 bytes and
    [a/c/d.txt] of 5 bytes. *)
Definition scenario : MemStore.store :=
  MemStore.mkStore [plainObject "a/b.txt" 10; plainObject "a/c/d.txt" 5]
    false true None 2.

Definition namesOf (s : MemStore.store) : list (string * Z) :=
  map (fun o => (Name o, Size o)) (MemStore.objects s).

(** ** Path elements

    The notions the path theorems are stated with. *)

(** The slash-separated elements of a path; [elements "a//b" = ["a"; ""; "b"]]. *)
Fixpoint elements (s : string) : list string :=
  match s with
  | EmptyString => [""]
  | String c rest =>
      if is_slash c then "" :: elements rest
      else String c (hd "" (elements rest)) :: tl (elements rest)
  end.

Fixpoint noSlash (s : string) : bool :=
  match s with
  | EmptyString => true
  | String c rest => negb (is_slash c) && noSlash rest
  end.

(** An element that [path.Clean] keeps unless a [..] removes it. *)
Definition real (e : string) : bool :=
  negb (String.eqb e "") && negb (String.eqb e ".").

Definition reals (s : string) : list string := List.filter real (elements s).

(** A path without any [..] element. *)
Definition noDotDot (s : string) : bool :=
  forallb (fun e => negb (String.eqb e "..")) (elements s).

(** A file or directory name: not empty, not [.] or [..], no slash. *)
Definition isName (e : string) : bool :=
  negb (String.eqb e "") && negb (String.eqb e ".")
  && negb (String.eqb e "..") && noSlash e.

(** The names joined by slashes. *)
Fixpoint joinSegs (l : list string) : string :=
  match l with
  | [] => ""
  | [e] => e
  | e :: l' => e +:+ String slash (joinSegs l')
  end.

(** How [path.Clean] appends a real element to its output. *)
Definition push (rooted : bool) (out e : string) : string :=
  (if (rooted && negb (String.length out =? 1)%nat)
      || (negb rooted && negb (String.length out =? 0)%nat)
   then out +:+ "/" else out) +:+ e.

(** A key prefix as the configuration validates it: empty, or names
    joined by slashes and a final slash. *)
Definition keyPrefixOf (names : list string) : string :=
  match names with
  | [] => ""
  | _ => joinSegs names +:+ "/"
  end.

(** A mount path as the constructor stores it: empty for the root, or an
    absolute cleaned path. *)
Definition mountPathOf (names : list string) : string :=
  match names with
  | [] => ""
  | _ => "/" +:+ joinSegs names
  end.

(** A virtual path lies under the mount path when it is the mount path
    or continues it with a slash. *)
Definition underMount (mount p : string) : bool :=
  String.eqb mount ""
  || (strings.HasPrefix p mount
      && path.at_end_or_slash (strings.drop (String.length mount) p)).

(** The cleaned absolute form of a virtual path. *)
Definition normalize (p : string) : string := path.Clean ("/" +:+ p).

(** The first step of [GetRelativePath]: the cleaned name, made
    absolute. *)
Definition cleanAbs (name : string) : string :=
  let rel := path.Clean name in
  let rel := if String.eqb rel "." then "" else rel in
  if negb (path.IsAbs rel) then "/" +:+ rel else rel.

(** The root of the backend as its users see it. *)
Definition backendRoot (fs : GCSFs) : string :=
  if String.eqb (mountPath fs) "" then "/" else mountPath fs.

(** What [path.Clean] does with the elements of a path, read from left
    to right: an empty element and a dot are skipped, a name is put on
    the stack, and [..] takes the last name off the stack.  With an
    empty stack, [..] is dropped in a rooted path; in a relative path it
    would be kept in front, which is the case this function gives up
    on: the path climbs above where it starts. *)
Fixpoint walk (rooted : bool) (stack es : list string)
    : option (list string) :=
  match es with
  | [] => Some stack
  | e :: es' =>
      if negb (real e) then walk rooted stack es'
      else if String.eqb e ".." then
        match stack with
        | [] => if rooted then walk rooted [] es' else None
        | _ => walk rooted (removelast stack) es'
        end
      else walk rooted (stack ++ [e]) es'
  end.

(** The output buffer of [path.Clean] that holds the elements of a
    stack, and the index its [..] case stops at. *)
Definition render (rooted : bool) (stack : list string) : string :=
  (if rooted then "/" else "") +:+ joinSegs stack.

Definition floor (rooted : bool) : nat := if rooted then 1%nat else 0%nat.

(** An element as the output buffer holds it: not empty, no slash. *)
Definition plain (e : string) : Prop := e <> "" /\ noSlash e = true.

(** What [ResolvePath] is left with once it has taken the mount path
    off a virtual path. *)
Definition afterMount (fs : GCSFs) (p : string) : string :=
  if negb (String.eqb (mountPath fs) "")
  then strings.TrimPrefix p (mountPath fs)
  else p.

(** A rooted path one of whose [..] elements has no name before it to
    take away: it climbs above the root. *)
Definition climbsAboveRoot (q : string) : bool :=
  path.IsAbs q
  && match walk false [] (elements q) with
     | Some _ => false
     | None => true
     end.

(** Calls that change the bucket: starting or completing an upload,
    copying and deleting. *)
Definition isMutation (x : entry) : bool :=
  match x with
  | Ev (CopierRun _ _ _ _ _ _) _ => true
  | Ev (ObjDelete _ _) _ => true
  | Ev (GoUpload _ _ _) _ => true
  | Ev UploadClose _ => true
  | Ev _ _ => false
  end.

(** ** Reading traces *)



(** The number of copies that succeeded. *)
Fixpoint copiesDone (tr : list entry) : nat :=
  match tr with
  | [] => O
  | Ev (CopierRun _ _ _ _ _ _) None :: tr' => S (copiesDone tr')
  | _ :: tr' => copiesDone tr'
  end.

(** ** Notions the theorems are stated with *)

Definition notDotDot (e : string) : bool := negb (String.eqb e "..").

Section Notions.

Context {W : Type} (h : handler W) (pkg : VfsPkg).

Definition readOnly (tr : list entry) : Prop :=
  Forall (fun x => isMutation x = false) tr.

Definition nonEmptyDirectory (source : string) : error :=
  Errorf "cannot rename non empty directory: %q" [ArgString source].

(** An entry of a listing under [prefix] that is not the placeholder of
    the directory itself: its name relative to the prefix, without one
    trailing slash, is neither empty nor a slash. *)
Definition realEntry (prefix : string) (attrs : ObjectAttrs) : Prop :=
  (resolve pkg (Name attrs) prefix (ContentType attrs)).1 <> ""
  /\ (resolve pkg (Name attrs) prefix (ContentType attrs)).1 <> "/".

(** The objects of the pages a pager delivers before it ends or fails,
    and the error it ends in, if any. *)
Fixpoint delivered (pager : Pager) : list ObjectAttrs :=
  match pager with
  | LastPage objects => objects
  | MorePages objects next => (objects ++ delivered next)%list
  | PageError _ => []
  end.

Fixpoint pagerError (pager : Pager) : option error :=
  match pager with
  | LastPage _ => None
  | MorePages _ next => pagerError next
  | PageError err => Some err
  end.

(** An object is tombstoned when its [Deleted] time is set. *)
Definition tombstoned (attrs : ObjectAttrs) : bool :=
  negb (IsZero (Deleted attrs)).

(** A zero-length directory marker: key ending in a slash or directory
    content type, and size 0. *)
Definition emptyDirMarker (attrs : ObjectAttrs) : bool :=
  (strings.HasSuffix (Name attrs) "/"
   || String.eqb (ContentType attrs) (dirMimeType pkg))
  && (Size attrs =? 0)%Z.

Definition counted (attrs : ObjectAttrs) : bool :=
  negb (tombstoned attrs) && negb (emptyDirMarker attrs).

Definition sumSizes (l : list ObjectAttrs) : Z :=
  fold_right (fun attrs z => (Size attrs + z)%Z) 0%Z l.

Definition dirNames (result : list FileInfo) : list string :=
  map fiName (List.filter fiIsDir result).

(** The invariant of the loops of [ReadDir]: the directory entries
    emitted so far have distinct names, all recorded in [prefixes]. *)
Definition readDirInv (st : list FileInfo * gmap string bool) : Prop :=
  NoDup (dirNames st.1)
  /\ forall name, In name (dirNames st.1) -> is_Some (st.2 !! name).







(** The precondition [Remove] derives from its head of the object. *)
Definition deleteConditionFor (r : Result ObjectAttrs) : option Conditions :=
  match r with
  | Ok attrs => Some (mkConditions (Generation attrs) false)
  | Err _ => None
  end.

(** Calls to the metadata plugin. *)
Definition isMetadataCall (x : entry) : bool :=
  match x with
  | Ev HasMetadater _ => true
  | Ev (RemoveMetadata _ _) _ => true
  | _ => false
  end.

(** The children of a directory renamed one after the other, each once
    and into the target, until all are done or one fails: the outcome
    of every child that was started, the state reached and the calls
    made. *)
Inductive ChildrenRenamed
    (rename : string -> string -> FileInfo ->
              prog (option (Z * Z * option error)))
    (source target : string)
  : list FileInfo -> W -> list (Z * Z * option error) -> W ->
    list entry -> Prop :=
| children_done (w : W) :
    ChildrenRenamed rename source target [] w [] w []
| children_next (info : FileInfo) (entries : list FileInfo)
    (w w1 w2 : W) (files size : Z) (tr1 tr2 : list entry)
    (outs : list (Z * Z * option error)) :
    run h (rename (Join [source; fiName info]) (Join [target; fiName info])
             info) w
    = (Some (files, size, None), w1, tr1) ->
    ChildrenRenamed rename source target entries w1 outs w2 tr2 ->
    ChildrenRenamed rename source target (info :: entries) w
      ((files, size, None) :: outs) w2 (tr1 ++ tr2)
| children_failed (info : FileInfo) (entries : list FileInfo)
    (w w1 : W) (files size : Z) (err : error) (tr1 : list entry) :
    run h (rename (Join [source; fiName info]) (Join [target; fiName info])
             info) w
    = (Some (files, size, Some err), w1, tr1) ->
    ChildrenRenamed rename source target (info :: entries) w
      [(files, size, Some err)] w1 tr1.

(** The counters after the children: the counts of the children that
    succeeded, added up in Go's arithmetic. *)
Fixpoint addUp (outs : list (Z * Z * option error)) (acc : Z * Z) : Z * Z :=
  match outs with
  | [] => acc
  | (files, size, None) :: outs' =>
      addUp outs' (add64 acc.1 files, add64 acc.2 size)
  | (_, _, Some _) :: _ => acc
  end.

Fixpoint firstError (outs : list (Z * Z * option error)) : option error :=
  match outs with
  | [] => None
  | (_, _, None) :: outs' => firstError outs'
  | (_, _, Some err) :: _ => Some err
  end.

Definition names (l : list string) : Prop :=
  Forall (fun e => isName e = true) l.

(** The backend key of a path: the names of the key prefix followed by
    those of the path, joined; when there are none, the empty string
    or a dot. *)
Definition keyFor (l : list string) (key : string) : Prop :=
  match l with
  | [] => key = "" \/ key = "."
  | _ => key = joinSegs l
  end.

(** A successful result counts the copies of its trace, on top of what
    had been counted before. *)
Definition countsCopies (before : Z)
    (x : option (Z * Z * option error) * W * list entry) : Prop :=
  match x.1.1 with
  | Some (numFiles, _, None) =>
      numFiles = wrap64 (before + Z.of_nat (copiesDone x.2))
  | _ => True
  end.

(** A program that returns whatever another one returns when that one
    does not run out of fuel. *)
Definition sameOrMore {A : Type} (p q : prog (option A)) : Prop :=
  forall w r w' tr, run h p w = (Some r, w', tr) -> run h q w = (Some r, w', tr).

(** A result of [renameInternal] whose counters are zero if no copy has
    succeeded. *)
Definition noProgress
    (x : option (Z * Z * option error) * W * list entry) : Prop :=
  match x.1.1 with
  | Some (numFiles, filesSize, _) =>
      copiesDone x.2 = O -> (numFiles, filesSize) = (0, 0)%Z
  | None => True
  end.

End Notions.

(** ** Concrete buckets and environments *)

Definition fsPlain : GCSFs := exampleFs "" "".
Definition fsMounted : GCSFs := exampleFs "pfx/" "/v".

Definition gzipStore : MemStore.store :=
  MemStore.mkStore
    [mkAttrs "app.gz" "" 100 zeroTime (mkTime 1700000000 0)
       "application/octet-stream" "gzip" 1]
    false true None 2.

(** A bucket in which the object [a/x] exists next to objects under
    [a/x/]. *)
Definition fileAndDirStore : MemStore.store :=
  MemStore.mkStore [plainObject "a/x" 3; plainObject "a/x/y" 1]
    false true None 2.

(** Credentials that may create but not delete objects. *)
Definition noDeleteStore : MemStore.store :=
  MemStore.mkStore [plainObject "a/f" 5] false false None 2.


(** A bucket in which the first two keys under [d/] are [d//] and
    [d///], before the file [d/x]. *)
Definition slashKeysStore : MemStore.store :=
  MemStore.mkStore
    [plainObject "d//" 1; plainObject "d///" 1; plainObject "d/x" 1]
    false true None 2.



(** An environment whose listings ignore the delimiter, and one whose
    listings deliver every entry twice. *)
Definition ignoresDelimiter : handler MemStore.store :=
  fun R e s =>
    match e in gcsE R return R * MemStore.store with
    | ListObjects q pageSize =>
        MemStore.handle _ (ListObjects (mkQuery (QPrefix q) "") pageSize) s
    | e' => MemStore.handle _ e' s
    end.

Definition listsTwice : handler MemStore.store :=
  fun R e s =>
    match e in gcsE R return R * MemStore.store with
    | ListObjects q _ =>
        let l := MemStore.listing q (MemStore.objects s) in
        (LastPage (l ++ l), s)
    | e' => MemStore.handle _ e' s
    end.

(** A bucket with two files of the same name in two directories. *)
Definition twoLevelsStore : MemStore.store :=
  MemStore.mkStore [plainObject "a/x/z" 1; plainObject "a/y/z" 2]
    false true None 2.


(** The steps of the recursive rename of [a/c] to [a/cc] in the bucket
    of the concrete scenario: the marker, the listing, the only child,
    the removal of the source. *)
Definition dirAC : FileInfo := mkFileInfo "a/c" true 0 unixEpoch.
Definition childD : FileInfo :=
  mkFileInfo "d.txt" false 5 (mkTime 1700000000 0).
Definition stepMkdir :=
  Eval vm_compute in
    run MemStore.handle (mkdirInternal (examplePkg 1) fsPlain "a/cc") scenario.
Definition stepReadDir :=
  Eval vm_compute in
    run MemStore.handle (ReadDir (examplePkg 1) fsPlain "a/c") stepMkdir.1.2.
Definition stepChild :=
  Eval vm_compute in
    run MemStore.handle
      (renameInternal (examplePkg 1) fsPlain 1 "a/c/d.txt" "a/cc/d.txt" childD)
      stepReadDir.1.2.
Definition stepRemove :=
  Eval vm_compute in
    run MemStore.handle (Remove (examplePkg 1) fsPlain "a/c" true)
      stepChild.1.2.

(** ** Notions for the properties of the remaining methods *)

(** The key of the marker object of a directory: the name with one
    trailing slash. *)
Definition markerKey (name : string) : string :=
  if strings.HasSuffix name "/" then name else name +:+ "/".

(** The query prefix [getFileNamesInPrefix] derives from its argument. *)
Definition fileNamesPrefix (fsPrefix : string) : string :=
  if String.eqb fsPrefix "/" then "" else strings.TrimPrefix fsPrefix "/".

Section ListingNotions.

Context (pkg : VfsPkg).

(** What [ReadDir] reports for an entry of a listing under [prefix]: a
    directory for a synthetic prefix entry, and for an object its
    resolved name and kind, its size, and its modification time unless
    the metadata overlay has one for the name. *)
Definition entryOf (prefix : string) (modTimes : gmap string Z)
    (attrs : ObjectAttrs) : FileInfo :=
  if negb (String.eqb (Prefix attrs) "") then
    NewFileInfo (resolve pkg (Prefix attrs) prefix (ContentType attrs)).1
      true 0 unixEpoch false
  else
    let name := (resolve pkg (Name attrs) prefix (ContentType attrs)).1 in
    NewFileInfo name
      (resolve pkg (Name attrs) prefix (ContentType attrs)).2 (Size attrs)
      match modTimes !! name with
      | Some t => GetTimeFromMsecSinceEpoch pkg t
      | None => Updated attrs
      end false.

(** The entries of a listing [ReadDir] can report: a synthetic prefix
    entry, or a live object, whose name relative to the prefix is not
    empty. *)
Definition listed (prefix : string) (attrs : ObjectAttrs) : bool :=
  if negb (String.eqb (Prefix attrs) "") then
    negb (String.eqb
            (resolve pkg (Prefix attrs) prefix (ContentType attrs)).1 "")
  else
    negb (String.eqb
            (resolve pkg (Name attrs) prefix (ContentType attrs)).1 "")
    && IsZero (Deleted attrs).

(** The entries of a listing that are files: live objects (not
    synthetic prefix entries) that resolve to a non-empty name and not
    to a directory. *)
Definition listedFile (prefix : string) (attrs : ObjectAttrs) : bool :=
  IsZero (Deleted attrs)
  && String.eqb (Prefix attrs) ""
  && negb (String.eqb
             (resolve pkg (Name attrs) prefix (ContentType attrs)).1 "")
  && negb (resolve pkg (Name attrs) prefix (ContentType attrs)).2.

Definition fileEntries (result : list FileInfo) : list FileInfo :=
  List.filter (fun fi => negb (fiIsDir fi)) result.

(** The name of an entry of a listing relative to [prefix], without
    one trailing slash: of its [Prefix] for a synthetic prefix entry,
    of its [Name] for an object. *)
Definition relativeName (prefix : string) (attrs : ObjectAttrs) : string :=
  (resolve pkg
     (if negb (String.eqb (Prefix attrs) "") then Prefix attrs
      else Name attrs) prefix (ContentType attrs)).1.

(** An entry as a listing with the delimiter [/] delivers it: one level
    below the prefix, so that its relative name has no slash. *)
Definition oneLevel (prefix : string) (attrs : ObjectAttrs) : Prop :=
  listed prefix attrs = true -> noSlash (relativeName prefix attrs) = true.

(** A listing that delivers every live file object once: the keys of
    its file entries start with the prefix and are pairwise
    distinct. *)
Definition filesOnce (prefix : string) (objects : list ObjectAttrs) : Prop :=
  Forall (fun attrs => listedFile prefix attrs = true ->
                       strings.HasPrefix (Name attrs) prefix = true) objects
  /\ NoDup (map Name (List.filter (listedFile prefix) objects)).


End ListingNotions.

(** ** More concrete buckets *)

(** The bucket of the concrete scenario, with a metadata plugin. *)
Definition overlayStore : MemStore.store :=
  MemStore.mkStore [plainObject "a/b.txt" 10; plainObject "a/c/d.txt" 5]
    true true None 2.

(** A bucket that holds one empty directory, whose marker was written
    without the trailing slash. *)
Definition legacyMarkerStore : MemStore.store :=
  MemStore.mkStore
    [mkAttrs "d" "" 0 zeroTime (mkTime 1700000000 0) "inode/directory" "" 1]
    false true None 2.

(** A bucket that holds one empty directory, as [mkdirInternal] writes
    its marker. *)
Definition markerStore : MemStore.store :=
  MemStore.mkStore
    [mkAttrs "d/" "" 0 zeroTime (mkTime 1700000000 0) "inode/directory" "" 1]
    false true None 2.

(** A backend confined to the keys under [a/]. *)
Definition fsUnderA : GCSFs := exampleFs "a/" "".


(** * Theorems *)

(** ** Examples *)

Example Clean_ex1 : path.Clean "a//b/./c/../d/" = "a/b/d". Proof. reflexivity. Qed.
Example Clean_ex2 : path.Clean "/../a" = "/a". Proof. reflexivity. Qed.
Example Clean_ex3 : path.Clean "../../a/.." = "../..". Proof. reflexivity. Qed.
Example Clean_ex4 : path.Clean "//" = "/". Proof. reflexivity. Qed.
Example Clean_ex5 : path.Clean "a/.." = ".". Proof. reflexivity. Qed.
Example Clean_ex6 : path.Clean "/a/b/../../../c" = "/c". Proof. reflexivity. Qed.
Example Clean_ex7 : path.Clean "abc/def/../../.." = "..". Proof. reflexivity. Qed.
Example Clean_ex8 : path.Clean "a/..b/.c/..." = "a/..b/.c/...". Proof. reflexivity. Qed.
Example Join_ex1 : path.Join ["pfx/"; "a"] = "pfx/a". Proof. reflexivity. Qed.
Example Join_ex2 : path.Join [""; ""] = "". Proof. reflexivity. Qed.
Example Join_ex3 : path.Join ["/v"; "/a"] = "/v/a". Proof. reflexivity. Qed.
Example Ext_ex1 : path.Ext "a.b/c.tar.gz" = ".gz". Proof. reflexivity. Qed.
Example Ext_ex2 : path.Ext "a.b/c" = "". Proof. reflexivity. Qed.
Example Base_ex1 : path.Base "a/b.txt" = "b.txt". Proof. reflexivity. Qed.
Example Base_ex2 : path.Base "a/c//" = "c". Proof. reflexivity. Qed.
Example Base_ex3 : path.Base "" = ".". Proof. reflexivity. Qed.
Example Base_ex4 : path.Base "///" = "/". Proof. reflexivity. Qed.
Example Base_ex5 : path.Base "d.txt" = "d.txt". Proof. reflexivity. Qed.
Example HasSuffix_ex : strings.HasSuffix "a/b/" "/" = true. Proof. reflexivity. Qed.
Example TrimSuffix_ex : strings.TrimSuffix "a/b/" "/" = "a/b". Proof. reflexivity. Qed.

Example scenario_ReadDir :
  (run MemStore.handle (ReadDir (examplePkg 1) (exampleFs "" "") "a")
     scenario).1.1
  = ([mkFileInfo "b.txt" false 10 (mkTime 1700000000 0);
      mkFileInfo "c" true 0 unixEpoch], None).
Proof. vm_compute. reflexivity. Qed.

Example scenario_GetDirSize :
  (run MemStore.handle (GetDirSize (examplePkg 1) "a") scenario).1.1
  = (2, 15, None)%Z.
Proof. vm_compute. reflexivity. Qed.

Example scenario_Rename :
  let '(r, s, _) :=
    run MemStore.handle
      (Rename (examplePkg 1) (exampleFs "" "") 3 "a/c" "a/cc") scenario in
  r = Some (1, 5, None)%Z
  /\ namesOf s = [("a/b.txt", 10); ("a/cc/", 0); ("a/cc/d.txt", 5)]%Z.
Proof. vm_compute. split; reflexivity. Qed.

(** ** Running programs *)

(** The methods are unfolded one at a time in the proofs. *)
Arguments hasContents : simpl never.
Arguments getObjectStat : simpl never.
Arguments updateFileInfoModTime : simpl never.
Arguments mkdirInternal : simpl never.
Arguments Create : simpl never.
Arguments Remove : simpl never.
Arguments copyFileInternal : simpl never.
Arguments ReadDir : simpl never.
Arguments removeSource : simpl never.
Arguments wrap64 : simpl never.
Arguments add64 : simpl never.
Arguments IsNotExist : simpl never.

Section Run.

Context {W : Type} (h : handler W).

Lemma run_bind {A B : Type} (p : prog A) (f : A -> prog B) (w : W) :
  run h (bind p f) w =
  let '(a, w1, tr1) := run h p w in
  let '(b, w2, tr2) := run h (f a) w1 in
  (b, w2, (tr1 ++ tr2)%list).
Proof.
  revert w. induction p as [a | R e k IH]; intros w; simpl.
  - destruct (run h (f a) w) as [[b w2] tr2]. reflexivity.
  - destruct (h R e w) as [r w1]. rewrite IH.
    destruct (run h (k r) w1) as [[a w2] tr1].
    destruct (run h (f a) w2) as [[b w3] tr2]. reflexivity.
Qed.

Lemma run_trigger {R : Type} (e : gcsE R) (w : W) :
  run h (trigger e) w = ((h R e w).1, (h R e w).2, [Ev e (h R e w).1]).
Proof. simpl. destruct (h R e w). reflexivity. Qed.

End Run.

(** ** Theorems *)

Section Theorems.

Context {W : Type} (h : handler W) (pkg : VfsPkg) (fs : GCSFs).

(** *** Open *)

(** C7.  When the pipe has been created and the range reader reports the
    content encoding gzip, [Open] with a positive offset returns an
    error; the calls it makes are exactly: create the pipe, open the
    reader, close the reader, close both pipe ends, cancel.  The
    download task is never started. *)
Theorem Open_gzip_offset_fails (name : string) (offset : Z)
    (w w1 w2 : W) (objectReader : Reader) :
  (0 < offset)%Z ->
  h _ (PipeInDir (localTempDir fs)) w = (None, w1) ->
  h _ (NewRangeReader name offset (-1)) w1 = (Ok objectReader, w2) ->
  ReaderContentEncoding objectReader = "gzip" ->
  exists (err : error) (w' : W) (tr : list entry),
    run h (Open fs name offset) w = (Some err, w', tr)
    /\ tr = [Ev (PipeInDir (localTempDir fs)) None;
             Ev (NewRangeReader name offset (-1)) (Ok objectReader);
             Ev ReaderClose tt; Ev PipeReaderClose tt;
             Ev PipeWriterClose tt; Ev CancelFn tt]
    /\ (forall n r, In (Ev (GoDownload n) r) tr -> False).
Proof.
  intros Hoff Hpipe Hreader Hgzip.
  unfold Open. simpl. rewrite Hpipe. simpl. rewrite Hreader. simpl.
  rewrite Hgzip.
  replace (0 <? offset)%Z with true by (symmetry; apply Z.ltb_lt; exact Hoff).
  simpl.
  destruct (h _ ReaderClose w2) as [[] w3].
  destruct (h _ PipeReaderClose w3) as [[] w4].
  destruct (h _ PipeWriterClose w4) as [[] w5].
  destruct (h _ CancelFn w5) as [[] w6].
  eexists _, w6, _. split; [reflexivity |]. split; [reflexivity |].
  intros n r Hin. simpl in Hin.
  repeat (destruct Hin as [Hin | Hin]; [discriminate Hin |]).
  exact Hin.
Qed.

(** *** Traces of the read-only helpers *)

Ltac answer :=
  match goal with
  | |- context [h ?R ?e ?w] =>
      let r := fresh "r" in
      let w' := fresh "w" in
      let E := fresh "E" in
      destruct (h R e w) as [r w'] eqn:E; simpl
  end.

Ltac split_match :=
  match goal with
  | |- context [match ?x with _ => _ end] =>
      lazymatch x with
      | context [run] => fail
      | context [h] => fail
      | _ => destruct x eqn:?; simpl
      end
  end.

Lemma readOnly_app (tr1 tr2 : list entry) :
  readOnly tr1 -> readOnly tr2 -> readOnly (tr1 ++ tr2).
Proof. unfold readOnly. intros H1 H2. apply Forall_app. split; assumption. Qed.

Lemma hasContents_readOnly (name : string) (w : W) :
  readOnly (run h (hasContents pkg name) w).2.
Proof.
  unfold hasContents, readOnly. simpl. answer.
  destruct r as [e |]; simpl.
  - repeat constructor.
  - answer. destruct (NextPage r) as [[objects tok] | e]; simpl;
      repeat constructor.
Qed.

Lemma updateFileInfoModTime_readOnly (sid name : string) (info : FileInfo)
    (w : W) :
  readOnly (run h (updateFileInfoModTime pkg sid name info) w).2.
Proof. unfold updateFileInfoModTime, readOnly. simpl. answer. repeat constructor. Qed.

Lemma getObjectStat_readOnly (name : string) (w : W) :
  readOnly (run h (getObjectStat pkg fs name) w).2.
Proof.
  unfold getObjectStat, headObject, hasContents, updateFileInfoModTime,
    readOnly.
  simpl. repeat (first [answer | split_match]); repeat constructor.
Qed.

(** *** Rename *)

Lemma renameInternal_nonempty (fuel : nat) (source target : string)
    (fi : FileInfo) (w w1 : W) (tr1 : list entry) :
  renameMode pkg = 0%Z ->
  fiIsDir fi = true ->
  run h (hasContents pkg source) w = (Ok true, w1, tr1) ->
  run h (renameInternal pkg fs (S fuel) source target fi) w
  = (Some (0, 0, Some (nonEmptyDirectory source))%Z, w1, tr1).
Proof.
  intros Hmode Hdir Hc. cbn. rewrite Hdir, Hmode. cbn.
  rewrite !run_bind, Hc. cbn. rewrite !app_nil_r. reflexivity.
Qed.

(** C3.  In fail-on-non-empty mode, for a directory source whose
    bounded listing reports contents, [renameInternal] returns the
    non-empty-directory error with the counters at zero, and the only
    calls made are the read-only ones of the non-emptiness check.  So
    does [Rename], whose stat of the source is read-only too, for a
    target other than the source: no marker is created and nothing is
    copied or deleted. *)
Theorem Rename_nonempty_directory_fails (fuel : nat)
    (source target : string) (fi : FileInfo) (w0 w1 : W)
    (tr1 : list entry) :
  renameMode pkg = 0%Z ->
  fiIsDir fi = true ->
  run h (hasContents pkg source) w0 = (Ok true, w1, tr1) ->
  run h (renameInternal pkg fs (S fuel) source target fi) w0
  = (Some (0, 0, Some (nonEmptyDirectory source))%Z, w1, tr1)
  /\ readOnly tr1
  /\ (forall w tr0,
        source <> target ->
        run h (getObjectStat pkg fs source) w = (Ok fi, w0, tr0) ->
        run h (Rename pkg fs (S fuel) source target) w
        = (Some (0, 0, Some (nonEmptyDirectory source))%Z, w1,
           (tr0 ++ tr1)%list)
        /\ readOnly (tr0 ++ tr1)).
Proof.
  intros Hmode Hdir Hc.
  pose proof (renameInternal_nonempty fuel source target fi w0 w1 tr1
                Hmode Hdir Hc) as Hri.
  assert (Hro : readOnly tr1).
  { pose proof (hasContents_readOnly source w0) as H1.
    rewrite Hc in H1. exact H1. }
  split; [exact Hri |]. split; [exact Hro |].
  intros w tr0 Hne Hstat. split.
  - unfold Rename.
    destruct (String.eqb_spec source target) as [Heq | _];
      [contradiction |].
    rewrite run_bind, Hstat. cbv zeta iota beta.
    rewrite Hri. reflexivity.
  - apply readOnly_app; [| exact Hro].
    pose proof (getObjectStat_readOnly source w) as H1.
    rewrite Hstat in H1. exact H1.
Qed.

(** *** Stat *)

Lemma hasContentsLoop_true (prefix : string) (objects : list ObjectAttrs) :
  hasContentsLoop pkg prefix objects = true
  <-> exists attrs, In attrs objects /\ realEntry pkg prefix attrs.
Proof.
  unfold realEntry.
  induction objects as [| a objects IH]; cbn [hasContentsLoop In].
  - split; [discriminate | intros (attrs & [] & _)].
  - destruct (String.eqb_spec
                (resolve pkg (Name a) prefix (ContentType a)).1 "/")
      as [H1 | H1]; cbn [orb].
    + rewrite IH. split.
      * intros (attrs & Hin & Hr). exists attrs. auto.
      * intros (attrs & [-> | Hin] & Hr); [tauto | eauto].
    + destruct (String.eqb_spec
                  (resolve pkg (Name a) prefix (ContentType a)).1 "")
        as [H2 | H2].
      * rewrite IH. split.
        -- intros (attrs & Hin & Hr). exists attrs. auto.
        -- intros (attrs & [-> | Hin] & Hr); [tauto | eauto].
      * split; [| reflexivity]. intros _. exists a. auto.
Qed.

Lemma updateFileInfoModTime_run (sid name : string) (info : FileInfo)
    (w : W) :
  exists fi w' tr,
    run h (updateFileInfoModTime pkg sid name info) w = (Ok fi, w', tr)
    /\ fiName fi = fiName info /\ fiIsDir fi = fiIsDir info
    /\ fiSize fi = fiSize info.
Proof.
  unfold updateFileInfoModTime. simpl.
  destruct (h _ (OverlayModTime sid name) w) as [t w'].
  eexists _, _, _. split; [reflexivity |]. destruct t; auto.
Qed.

(** C2 as amended.  When the head of [name] answers not-found and the
    first page of the bounded listing (at most two entries under the
    prefix [name/]) has an entry other than a placeholder of the
    directory itself, that is, one whose name relative to the prefix,
    without one trailing slash, is neither empty nor a slash, [Stat]
    succeeds with a directory of size 0. *)
Theorem Stat_virtual_directory (name : string) (err : error)
    (w w1 w2 w3 : W) (pager : Pager) (objects : list ObjectAttrs)
    (next : option Pager) (attrs : ObjectAttrs) :
  h _ (ObjAttrs name) w = (Err err, w1) ->
  IsNotExist (Some err) = true ->
  h _ (SetAttrSelection gcsDefaultFieldsSelection) w1 = (None, w2) ->
  h _ (ListObjects (mkQuery (getPrefix name) "") 2) w2 = (pager, w3) ->
  NextPage pager = Ok (objects, next) ->
  In attrs objects ->
  realEntry pkg (getPrefix name) attrs ->
  exists fi w' tr,
    run h (Stat pkg fs name) w = (Ok fi, w', tr)
    /\ fiIsDir fi = true /\ fiSize fi = 0%Z.
Proof.
  intros Hhead Hnot Hsel Hlist Hpage Hin Hreal.
  assert (Hloop : hasContentsLoop pkg (getPrefix name) objects = true)
    by (apply hasContentsLoop_true; eauto).
  unfold Stat.
  destruct (String.eqb name "" || String.eqb name "/" || String.eqb name ".");
    [| destruct (String.eqb (KeyPrefix (config fs)) (name +:+ "/"))].
  1, 2: destruct (updateFileInfoModTime_run (getStorageID fs) name
                    (NewFileInfo name true 0 unixEpoch false) w)
          as (fi & w' & tr & Hrun & Hn & Hd & Hs);
        exists fi, w', tr; auto.
  unfold getObjectStat, headObject. cbn. rewrite Hhead. cbn.
  rewrite Hnot. cbn.
  unfold hasContents. cbn. rewrite Hsel. cbn. rewrite Hlist. cbn.
  rewrite Hpage. cbn. rewrite Hloop. cbn.
  destruct (updateFileInfoModTime_run (getStorageID fs) name
              (NewFileInfo name true 0 unixEpoch false) w3)
    as (fi & w' & tr & Hrun & Hn & Hd & Hs).
  rewrite Hrun. eexists _, _, _. split; [reflexivity | auto].
Qed.


(** *** GetDirSize *)

Lemma wrap64_add_l (a b : Z) : wrap64 (wrap64 a + b) = wrap64 (a + b).
Proof.
  unfold wrap64. f_equal.
  replace ((a + 2 ^ 63) mod 2 ^ 64 - 2 ^ 63 + b + 2 ^ 63)%Z
    with ((a + 2 ^ 63) mod 2 ^ 64 + b)%Z by lia.
  rewrite Zplus_mod_idemp_l. f_equal. lia.
Qed.

Lemma wrap64_small (z : Z) :
  (- 2 ^ 63 <= z < 2 ^ 63)%Z -> wrap64 z = z.
Proof.
  intros Hz. unfold wrap64. rewrite Z.mod_small; lia.
Qed.

Lemma dirSizeObject_skip (st : Z * Z) (attrs : ObjectAttrs) :
  counted pkg attrs = false -> dirSizeObject pkg st attrs = st.
Proof.
  unfold counted, tombstoned, emptyDirMarker, dirSizeObject.
  destruct st as [n s]. destruct (IsZero (Deleted attrs)); simpl;
    [| reflexivity].
  intros H. apply negb_false_iff in H. rewrite H. reflexivity.
Qed.

Lemma dirSizeObject_count (n s : Z) (attrs : ObjectAttrs) :
  counted pkg attrs = true ->
  dirSizeObject pkg (n, s) attrs = (add64 n 1, add64 s (Size attrs)).
Proof.
  unfold counted, tombstoned, emptyDirMarker, dirSizeObject.
  destruct (IsZero (Deleted attrs)); simpl; [| discriminate].
  intros H. apply negb_true_iff in H. rewrite H. reflexivity.
Qed.

Lemma dirSize_fold (objects : list ObjectAttrs) (n s : Z) :
  fold_left (dirSizeObject pkg) objects (wrap64 n, wrap64 s)
  = (wrap64 (n + Z.of_nat (length (List.filter (counted pkg) objects))),
     wrap64 (s + sumSizes (List.filter (counted pkg) objects))).
Proof.
  revert n s. induction objects as [| a objects IH]; intros n s.
  - simpl. rewrite !Z.add_0_r. reflexivity.
  - cbn [fold_left List.filter]. destruct (counted pkg a) eqn:Hc.
    + rewrite (dirSizeObject_count _ _ _ Hc). unfold add64.
      rewrite !wrap64_add_l, IH. cbn [length sumSizes fold_right].
      f_equal; f_equal; unfold sumSizes; lia.
    + rewrite (dirSizeObject_skip _ _ Hc). apply IH.
Qed.

Lemma dirSizePages_spec (pager : Pager) (n s : Z) :
  dirSizePages pkg pager (wrap64 n, wrap64 s)
  = (wrap64 (n + Z.of_nat (length (List.filter (counted pkg) (delivered pager)))),
     wrap64 (s + sumSizes (List.filter (counted pkg) (delivered pager))),
     pagerError pager).
Proof.
  revert n s. induction pager as [objects | objects next IH | err];
    intros n s; cbn [dirSizePages delivered pagerError].
  - rewrite dirSize_fold. reflexivity.
  - rewrite dirSize_fold, IH. rewrite List.filter_app, length_app.
    f_equal. f_equal; f_equal.
    + lia.
    + unfold sumSizes. rewrite fold_right_app.
      induction (List.filter (counted pkg) objects) as [| x l IHl]; simpl; lia.
  - simpl. rewrite !Z.add_0_r. reflexivity.
Qed.

(** C8.  In the loop of [GetDirSize] a tombstoned entry and a
    zero-length directory marker leave both counters as they are, and
    every other entry adds 1 to the file count and its size to the byte
    count (in Go's 64-bit arithmetic); so, once the attribute selection
    is accepted, the result is the number and the total size of the
    counted entries of the pages delivered, with the listing error if
    the listing ended in one. *)
Theorem GetDirSize_counts (dirname : string) (w w1 w2 : W) (pager : Pager) :
  h _ (SetAttrSelection gcsDefaultFieldsSelection) w = (None, w1) ->
  h _ (ListObjects (mkQuery (getPrefix dirname) "") defaultGCSPageSize) w1
    = (pager, w2) ->
  (forall st attrs,
      tombstoned attrs = true \/ emptyDirMarker pkg attrs = true ->
      dirSizeObject pkg st attrs = st)
  /\ (forall n s attrs,
        tombstoned attrs = false -> emptyDirMarker pkg attrs = false ->
        dirSizeObject pkg (n, s) attrs = (add64 n 1, add64 s (Size attrs)))
  /\ (run h (GetDirSize pkg dirname) w).1.1
     = (wrap64 (Z.of_nat (length (List.filter (counted pkg) (delivered pager)))),
        wrap64 (sumSizes (List.filter (counted pkg) (delivered pager))),
        pagerError pager).
Proof.
  intros Hsel Hlist. split; [| split].
  - intros st attrs H. apply dirSizeObject_skip. unfold counted.
    destruct H as [-> | ->]; [reflexivity | apply andb_false_r].
  - intros n s attrs Ht He. apply dirSizeObject_count. unfold counted.
    rewrite Ht, He. reflexivity.
  - unfold GetDirSize. cbn. rewrite Hsel. cbn. rewrite Hlist. cbn.
    change (0%Z, 0%Z) with (wrap64 0, wrap64 0).
    rewrite dirSizePages_spec. reflexivity.
Qed.


(** *** ReadDir *)

Lemma stripTrailingSlashes_plain (n : string) :
  noSlash n = true -> path.stripTrailingSlashes n = n.
Proof.
  induction n as [| c n IH]; [reflexivity |].
  cbn [noSlash path.stripTrailingSlashes].
  intros [Hc Hn]%andb_true_iff. rewrite (IH Hn).
  apply negb_true_iff in Hc. rewrite Hc. reflexivity.
Qed.

Lemma noSlash_existsb (n : string) :
  noSlash n = true ->
  existsb is_slash (String.list_ascii_of_string n) = false.
Proof.
  induction n as [| c n IH]; [reflexivity |].
  cbn [noSlash String.list_ascii_of_string existsb].
  intros [Hc Hn]%andb_true_iff. apply negb_true_iff in Hc.
  rewrite Hc, (IH Hn). reflexivity.
Qed.

Lemma afterLastSlash_plain (n : string) :
  noSlash n = true -> path.afterLastSlash n = n.
Proof.
  destruct n as [| c n]; [reflexivity |].
  cbn [noSlash path.afterLastSlash].
  intros [Hc Hn]%andb_true_iff. apply negb_true_iff in Hc.
  rewrite (noSlash_existsb n Hn), Hc. reflexivity.
Qed.

Lemma Base_plain (n : string) :
  noSlash n = true -> String.eqb n "" = false -> path.Base n = n.
Proof.
  intros Hn He. unfold path.Base.
  rewrite He, (stripTrailingSlashes_plain n Hn), (afterLastSlash_plain n Hn), He.
  reflexivity.
Qed.

Lemma Base_not_empty (p : string) : path.Base p <> "".
Proof.
  unfold path.Base. destruct (String.eqb p ""); [discriminate |].
  destruct (String.eqb_spec
              (path.afterLastSlash (path.stripTrailingSlashes p)) "")
    as [_ | Hne]; [discriminate | exact Hne].
Qed.

Lemma dirNames_snoc (result : list FileInfo) (fi : FileInfo) :
  dirNames (result ++ [fi])
  = (dirNames result ++ (if fiIsDir fi then [fiName fi] else []))%list.
Proof.
  unfold dirNames. rewrite List.filter_app, map_app. simpl.
  destruct (fiIsDir fi); reflexivity.
Qed.

Lemma readDirInv_add_dir (result : list FileInfo)
    (prefixes : gmap string bool) (fi : FileInfo) :
  readDirInv (result, prefixes) ->
  fiIsDir fi = true ->
  prefixes !! fiName fi = None ->
  readDirInv ((result ++ [fi])%list, <[fiName fi := true]> prefixes).
Proof.
  intros [Hnd Hdom] Hdir Hfresh. unfold readDirInv. simpl in *.
  rewrite dirNames_snoc, Hdir. split.
  - apply NoDup_app. split; [exact Hnd |]. split; [| apply NoDup_singleton].
    intros name Hin Hin2. apply list_elem_of_singleton in Hin2. subst name.
    apply list_elem_of_In in Hin. destruct (Hdom _ Hin) as [b Hb].
    congruence.
  - intros name Hin. apply in_app_or in Hin. destruct Hin as [Hin | Hin].
    + destruct (decide (fiName fi = name)) as [-> | Hne].
      * rewrite lookup_insert_eq. eauto.
      * rewrite lookup_insert_ne by exact Hne. auto.
    + destruct Hin as [<- | []]. rewrite lookup_insert_eq. eauto.
Qed.

Lemma readDirInv_add_file (result : list FileInfo)
    (prefixes : gmap string bool) (fi : FileInfo) :
  readDirInv (result, prefixes) ->
  fiIsDir fi = false ->
  readDirInv ((result ++ [fi])%list, prefixes).
Proof.
  intros [Hnd Hdom] Hdir. unfold readDirInv. simpl in *.
  rewrite dirNames_snoc, Hdir, app_nil_r. auto.
Qed.

Lemma readDirObject_inv (prefix : string) (modTimes : gmap string Z)
    (st : list FileInfo * gmap string bool) (attrs : ObjectAttrs) :
  oneLevel pkg prefix attrs ->
  readDirInv st -> readDirInv (readDirObject pkg prefix modTimes st attrs).
Proof.
  intros Hone Hinv. destruct st as [result prefixes].
  unfold oneLevel, listed, relativeName in Hone. unfold readDirObject.
  destruct (negb (String.eqb (Prefix attrs) "")).
  - set (name := (resolve pkg (Prefix attrs) prefix (ContentType attrs)).1)
      in *.
    destruct (String.eqb name "") eqn:Hn; [exact Hinv |].
    destruct (prefixes !! name) eqn:Hl; [exact Hinv |].
    unfold NewFileInfo. rewrite (Base_plain name (Hone eq_refl) Hn).
    apply (readDirInv_add_dir result prefixes
             (mkFileInfo name true 0 unixEpoch) Hinv eq_refl Hl).
  - destruct (resolve pkg (Name attrs) prefix (ContentType attrs))
      as [name isDir]. cbn [fst] in Hone.
    destruct (String.eqb name "") eqn:Hn; [exact Hinv |].
    destruct (IsZero (Deleted attrs)); cbn [negb]; [| exact Hinv].
    unfold NewFileInfo. rewrite (Base_plain name (Hone eq_refl) Hn).
    destruct isDir.
    + destruct (prefixes !! name) eqn:Hl; [exact Hinv |].
      apply (readDirInv_add_dir result prefixes
               (mkFileInfo name true _ _) Hinv eq_refl Hl).
    + apply (readDirInv_add_file result prefixes
               (mkFileInfo name false _ _) Hinv eq_refl).
Qed.

Lemma readDirPages_inv (prefix : string) (modTimes : gmap string Z)
    (pager : Pager) (st : list FileInfo * gmap string bool) :
  Forall (oneLevel pkg prefix) (delivered pager) ->
  readDirInv st ->
  NoDup (dirNames (readDirPages pkg prefix modTimes pager st).1).
Proof.
  assert (Hfold : forall objects st0,
            Forall (oneLevel pkg prefix) objects ->
            readDirInv st0 ->
            readDirInv (fold_left (readDirObject pkg prefix modTimes)
                          objects st0)).
  { induction objects as [| a objects IH]; intros st0 Hall H0; simpl;
      [exact H0 |].
    apply IH; [exact (Forall_inv_tail Hall) |].
    apply readDirObject_inv; [exact (Forall_inv Hall) | exact H0]. }
  revert st. induction pager as [objects | objects next IH | err];
    intros st Hall Hinv; cbn [readDirPages delivered] in *.
  - apply Hfold; assumption.
  - apply Forall_app in Hall as [H1 H2]. apply IH; [exact H2 |].
    apply Hfold; assumption.
  - apply Hinv.
Qed.

Lemma fileEntries_app (a b : list FileInfo) :
  fileEntries (a ++ b) = (fileEntries a ++ fileEntries b)%list.
Proof. unfold fileEntries. apply List.filter_app. Qed.

Lemma readDirObject_files (prefix : string) (modTimes : gmap string Z)
    (st : list FileInfo * gmap string bool) (attrs : ObjectAttrs) :
  fileEntries (readDirObject pkg prefix modTimes st attrs).1
  = (fileEntries st.1
     ++ if listedFile pkg prefix attrs
        then [entryOf pkg prefix modTimes attrs] else [])%list.
Proof.
  destruct st as [result prefixes].
  unfold readDirObject, listedFile, entryOf. cbn [fst].
  destruct (String.eqb (Prefix attrs) "") eqn:Hp; cbn [negb].
  - destruct (resolve pkg (Name attrs) prefix (ContentType attrs))
      as [name isDir]. cbn [fst snd].
    rewrite andb_true_r.
    destruct (String.eqb name "");
      [rewrite andb_false_r; cbn; rewrite app_nil_r; reflexivity |].
    destruct (IsZero (Deleted attrs)); cbn [negb andb];
      [| rewrite app_nil_r; reflexivity].
    destruct isDir; cbn [negb].
    + destruct (prefixes !! name); cbn [fst];
        [rewrite app_nil_r; reflexivity |].
      rewrite fileEntries_app. reflexivity.
    + cbn [fst]. rewrite fileEntries_app. reflexivity.
  - rewrite andb_false_r. cbn [andb].
    destruct (String.eqb
                (resolve pkg (Prefix attrs) prefix (ContentType attrs)).1 "");
      [rewrite app_nil_r; reflexivity |].
    destruct (prefixes !! _); cbn [fst]; [rewrite app_nil_r; reflexivity |].
    rewrite fileEntries_app. reflexivity.
Qed.

Lemma readDir_fold_files (prefix : string) (modTimes : gmap string Z)
    (objects : list ObjectAttrs) :
  forall st,
    fileEntries (fold_left (readDirObject pkg prefix modTimes) objects st).1
    = (fileEntries st.1
       ++ map (entryOf pkg prefix modTimes)
            (List.filter (listedFile pkg prefix) objects))%list.
Proof.
  induction objects as [| a objects IH]; intros st; cbn [fold_left].
  - cbn. rewrite app_nil_r. reflexivity.
  - rewrite IH, readDirObject_files, <- app_assoc. f_equal.
    cbn [List.filter]. destruct (listedFile pkg prefix a); reflexivity.
Qed.

Lemma readDir_pages_files (prefix : string) (modTimes : gmap string Z)
    (pager : Pager) :
  forall st,
    fileEntries (readDirPages pkg prefix modTimes pager st).1
    = (fileEntries st.1
       ++ map (entryOf pkg prefix modTimes)
            (List.filter (listedFile pkg prefix) (delivered pager)))%list.
Proof.
  induction pager as [objects | objects next IH | err]; intros st;
    cbn [readDirPages delivered fst].
  - apply readDir_fold_files.
  - rewrite IH, readDir_fold_files, <- app_assoc, List.filter_app, map_app.
    reflexivity.
  - cbn. rewrite app_nil_r. reflexivity.
Qed.


(** *** Walk *)









(** *** renameInternal on a regular file *)

(** C4.  For a source that is not a directory, [renameInternal] first
    heads the target and copies source to target under the
    precondition that head gives (generation match when the target
    exists, must-not-exist when it is not found).  If the copy fails
    nothing else is called and the counters stay at zero.  If it
    succeeds the counters are 1 and the source size, the modification
    time is set on the target when the plugin has a metadater (the
    answer is ignored), and then the source is deleted; a not-found
    answer of that delete becomes a nil error. *)
Theorem renameInternal_file (fuel : nat) (source target : string)
    (fi : FileInfo) (w : W) :
  fiIsDir fi = false ->
  (forall attrs,
      preconditionFor (Ok attrs)
      = Some (mkConditions (Generation attrs) false))
  /\ (forall e, IsNotExist (Some e) = true ->
        preconditionFor (Err e) = Some (mkConditions 0 true))
  /\ exists (r : Result ObjectAttrs) (copyErr : option error)
       (res : Z * Z * option error) (w' : W) (tr : list entry),
       run h (renameInternal pkg fs (S fuel) source target fi) w
       = (Some res, w', tr)
       /\ let copy :=
            [Ev (ObjAttrs target) r;
             Ev (CopierRun source target (preconditionFor r)
                   (StorageClass (config fs)) (ACL (config fs))
                   (TypeByExtension pkg (path.Ext source))) copyErr] in
          match copyErr with
          | Some e => res = (0, 0, Some e)%Z /\ tr = copy
          | None =>
              exists (b : bool) (setErr : option error)
                (r2 : Result ObjectAttrs) (delErr : option error)
                (trMeta : list entry),
                res = (1%Z, wrap64 (fiSize fi),
                       if IsNotExist delErr then None else delErr)
                /\ tr = (copy
                         ++ Ev HasMetadater b
                         :: (if b then
                               [Ev (SetModificationTime (getStorageID fs)
                                      (ensureAbsPath pkg target)
                                      (GetTimeAsMsSinceEpoch pkg
                                         (fiModTime fi))) setErr]
                             else [])
                         ++ Ev (ObjAttrs source) r2
                         :: Ev (ObjDelete source (deleteConditionFor r2))
                              delErr
                         :: trMeta)%list
                /\ forallb isMetadataCall trMeta = true
          end.
Proof.
  intros Hdir. split; [reflexivity |].
  split; [intros e He; unfold preconditionFor; rewrite He; reflexivity |].
  cbn [renameInternal]. rewrite Hdir.
  unfold copyFileInternal, headObject. cbn [bind trigger run].
  destruct (h _ (ObjAttrs target) w) as [r w1].
  destruct (h _ (CopierRun source target (preconditionFor r) _ _ _) w1)
    as [copyErr w2] eqn:Hcopy.
  exists r, copyErr.
  destruct copyErr as [e |]; cbn [bind run].
  - eexists _, _, _. split; [reflexivity |]. split; reflexivity.
  - destruct (h _ HasMetadater w2) as [b w3] eqn:Hmeta.
    assert (Hrm : forall w4,
      exists r2 delErr trMeta w',
        run h (removeSource pkg fs source fi (add64 0 1)
                 (add64 0 (fiSize fi))) w4
        = (Some (1%Z, wrap64 (fiSize fi),
                 if IsNotExist delErr then None else delErr), w',
           Ev (ObjAttrs source) r2
           :: Ev (ObjDelete source (deleteConditionFor r2)) delErr
           :: trMeta)
        /\ forallb isMetadataCall trMeta = true).
    { intros w4. unfold removeSource, Remove, headObject. rewrite Hdir.
      cbn [bind trigger run negb andb].
      destruct (h _ (ObjAttrs source) w4) as [r2 w5].
      change (match r2 with
              | Ok attrs => Some (mkConditions (Generation attrs) false)
              | Err _ => None
              end) with (deleteConditionFor r2).
      destruct (h _ (ObjDelete source (deleteConditionFor r2)) w5)
        as [delErr w6].
      destruct (h _ HasMetadater w6) as [b2 w7].
      exists r2, delErr.
      destruct (b2 && match delErr with Some _ => false | None => true end
                && true) eqn:Hrm; cbn [bind trigger run].
      - destruct (h _ (RemoveMetadata _ _) w7) as [rmErr w8].
        eexists _, _. split; reflexivity.
      - eexists _, _. split; reflexivity. }
    destruct b; cbn [bind trigger run].
    + destruct (h _ (SetModificationTime _ _ _) w3) as [setErr w4].
      destruct (Hrm w4) as (r2 & delErr & trMeta & w' & -> & Hmd).
      eexists _, _, _. split; [reflexivity |].
      exists true, setErr, r2, delErr, trMeta.
      split; [reflexivity |]. split; [reflexivity | exact Hmd].
    + destruct (Hrm w3) as (r2 & delErr & trMeta & w' & -> & Hmd).
      eexists _, _, _. split; [reflexivity |].
      exists false, None, r2, delErr, trMeta.
      split; [reflexivity |]. split; [reflexivity | exact Hmd].
Qed.


(** *** renameInternal on a directory, recursive mode *)

Lemma renameEntries_run rename source target entries w outs w' tr :
  ChildrenRenamed h rename source target entries w outs w' tr ->
  forall numFiles filesSize,
    run h (renameEntries rename source target entries numFiles filesSize) w
    = (Some ((addUp outs (numFiles, filesSize)).1,
             (addUp outs (numFiles, filesSize)).2, firstError outs),
       w', tr).
Proof.
  induction 1 as [w | info entries w w1 w2 files size tr1 tr2 outs Hrun _ IH
                    | info entries w w1 files size err tr1 Hrun];
    intros numFiles filesSize.
  - reflexivity.
  - cbn [renameEntries]. rewrite run_bind, Hrun. cbv zeta iota beta.
    rewrite IH. reflexivity.
  - cbn [renameEntries]. rewrite run_bind, Hrun. cbn. rewrite app_nil_r.
    reflexivity.
Qed.

(** Unless a child runs out of fuel, the loop does rename the children
    in that way. *)
Lemma renameEntries_total rename source target entries w numFiles filesSize :
  (run h (renameEntries rename source target entries numFiles filesSize) w)
    .1.1 = None
  \/ exists outs w' tr,
       ChildrenRenamed h rename source target entries w outs w' tr.
Proof.
  revert w numFiles filesSize.
  induction entries as [| info entries IH]; intros w numFiles filesSize.
  - right. exists [], w, []. constructor.
  - cbn [renameEntries]. rewrite run_bind.
    destruct (run h (rename _ _ info) w) as [[[[[files size] err] |] w1] tr1]
      eqn:Hrun.
    + destruct err as [err |].
      * right. eexists _, _, _. eapply children_failed. exact Hrun.
      * cbv zeta iota beta.
        destruct (IH w1 (add64 numFiles files) (add64 filesSize size))
          as [Hnone | (outs & w' & tr & Hc)].
        -- left. destruct (run h (renameEntries _ _ _ _ _ _) w1)
             as [[a w2] tr2]. cbn in *. exact Hnone.
        -- right. eexists _, _, _. eapply children_next; eassumption.
    + left. reflexivity.
Qed.

Lemma renameInternal_recursive_run (fuel : nat) (source target : string)
    (fi : FileInfo) (w w1 w2 w3 : W) (trM trR trC : list entry)
    (entries : list FileInfo) (outs : list (Z * Z * option error)) :
  renameMode pkg = 1%Z ->
  fiIsDir fi = true ->
  run h (mkdirInternal pkg fs target) w = (None, w1, trM) ->
  run h (ReadDir pkg fs source) w1 = ((entries, None), w2, trR) ->
  ChildrenRenamed h (renameInternal pkg fs fuel) source target entries w2
    outs w3 trC ->
  match firstError outs with
  | Some err =>
      run h (renameInternal pkg fs (S fuel) source target fi) w
      = (Some ((addUp outs (0, 0)%Z).1, (addUp outs (0, 0)%Z).2, Some err),
         w3, (trM ++ trR ++ trC)%list)
  | None =>
      forall rmErr w4 trD,
        run h (Remove pkg fs source true) w3 = (rmErr, w4, trD) ->
        run h (renameInternal pkg fs (S fuel) source target fi) w
        = (Some ((addUp outs (0, 0)%Z).1, (addUp outs (0, 0)%Z).2,
                 if IsNotExist rmErr then None else rmErr),
           w4, (trM ++ trR ++ trC ++ trD)%list)
  end.
Proof.
  intros Hmode Hdir Hmk Hrd Hch.
  pose proof (renameEntries_run _ _ _ _ _ _ _ _ Hch 0%Z 0%Z) as Hloop.
  assert (Hstart :
    run h (renameInternal pkg fs (S fuel) source target fi) w
    = let '(r, w3', trC') :=
        run h (renameEntries (renameInternal pkg fs fuel) source target
                 entries 0 0) w2 in
      let '(b, w4, tr4) :=
        run h (match r with
               | None => Ret None
               | Some (n, s, Some err) => Ret (Some (n, s, Some err))
               | Some (n, s, None) => removeSource pkg fs source fi n s
               end) w3' in
      (b, w4, (trM ++ trR ++ trC' ++ tr4)%list)).
  { cbn [renameInternal]. rewrite Hdir, Hmode. cbn [Z.eqb Pos.eqb bind].
    rewrite run_bind, Hmk. cbv zeta iota beta.
    rewrite run_bind, Hrd. cbv zeta iota beta. cbn [snd fst].
    rewrite run_bind. cbn [app].
    destruct (run h (renameEntries _ _ _ _ _ _) w2) as [[r w3'] trC'].
    destruct (run h _ w3') as [[b w4] tr4]. reflexivity. }
  rewrite Hstart, Hloop. clear Hstart Hloop.
  destruct (firstError outs) as [err |].
  - cbn. rewrite app_nil_r. reflexivity.
  - intros rmErr w4 trD Hrm. unfold removeSource.
    rewrite run_bind, Hdir, Hrm. cbn. rewrite app_nil_r. reflexivity.
Qed.


(** *** Paths: elements and their cleaning *)

Lemma append_cons (c : ascii) (s t : string) :
  String c s +:+ t = String c (s +:+ t).
Proof. reflexivity. Qed.

Lemma append_nil_l (s : string) : "" +:+ s = s.
Proof. reflexivity. Qed.

Lemma append_nil_r (s : string) : s +:+ "" = s.
Proof.
  induction s as [| c s IH]; [reflexivity |].
  rewrite append_cons, IH. reflexivity.
Qed.

Lemma append_assoc (a b c : string) : (a +:+ b) +:+ c = a +:+ (b +:+ c).
Proof.
  induction a as [| x a IH]; [reflexivity |].
  rewrite !append_cons, IH. reflexivity.
Qed.

Lemma length_append (a b : string) :
  String.length (a +:+ b) = (String.length a + String.length b)%nat.
Proof.
  induction a as [| x a IH]; [reflexivity |].
  rewrite append_cons. simpl. rewrite IH. reflexivity.
Qed.

Lemma HasPrefix_append (p s : string) : strings.HasPrefix (p +:+ s) p = true.
Proof.
  induction p as [| c p IH]; [reflexivity |].
  rewrite append_cons. simpl. rewrite Ascii.eqb_refl. exact IH.
Qed.

Lemma drop_append (p s : string) : strings.drop (String.length p) (p +:+ s) = s.
Proof.
  induction p as [| c p IH]; [reflexivity |].
  rewrite append_cons. simpl. exact IH.
Qed.

Lemma TrimPrefix_append (p s : string) : strings.TrimPrefix (p +:+ s) p = s.
Proof. unfold strings.TrimPrefix. rewrite HasPrefix_append. apply drop_append. Qed.

Lemma HasPrefix_longer (s p : string) :
  (String.length s < String.length p)%nat -> strings.HasPrefix s p = false.
Proof.
  revert s. induction p as [| c p IH]; intros s Hlen; simpl in *; [lia |].
  destruct s as [| d s]; [reflexivity |].
  simpl in Hlen. rewrite IH by lia. apply andb_false_r.
Qed.

Lemma elements_not_nil (s : string) : elements s <> [].
Proof. destruct s as [| c s]; simpl; [| destruct (is_slash c)]; discriminate. Qed.

Lemma elements_cons (s : string) :
  elements s = hd "" (elements s) :: tl (elements s).
Proof.
  pose proof (elements_not_nil s) as H.
  destruct (elements s); [contradiction | reflexivity].
Qed.

Lemma elements_append_slash (a b : string) :
  elements (a +:+ String slash b) = (elements a ++ elements b)%list.
Proof.
  induction a as [| c a IH]; [reflexivity |].
  rewrite append_cons. simpl.
  destruct (is_slash c); rewrite IH; [reflexivity |].
  rewrite (elements_cons a). reflexivity.
Qed.

Lemma elements_noSlash (e : string) : noSlash e = true -> elements e = [e].
Proof.
  induction e as [| c e IH]; simpl; [reflexivity |].
  intros H. apply andb_true_iff in H. destruct H as [Hc He].
  apply negb_true_iff in Hc. rewrite Hc, (IH He). reflexivity.
Qed.

Lemma elements_have_noSlash (s : string) :
  Forall (fun e => noSlash e = true) (elements s).
Proof.
  induction s as [| c s IH]; simpl.
  - repeat constructor.
  - destruct (is_slash c) eqn:Hc.
    + constructor; [reflexivity | exact IH].
    + rewrite (elements_cons s) in IH. inversion IH as [| e l He Hl]; subst.
      constructor; [| exact Hl]. simpl. rewrite Hc, He. reflexivity.
Qed.

Lemma isName_real (e : string) : isName e = true -> real e = true.
Proof.
  unfold isName, real. intros H.
  repeat (apply andb_true_iff in H; destruct H as [H ?]).
  rewrite H. assumption.
Qed.

Lemma isName_noSlash (e : string) : isName e = true -> noSlash e = true.
Proof.
  unfold isName. intros H.
  repeat (apply andb_true_iff in H; destruct H as [H ?]). assumption.
Qed.

Lemma isName_notDotDot (e : string) :
  isName e = true -> negb (String.eqb e "..") = true.
Proof.
  unfold isName. intros H.
  repeat (apply andb_true_iff in H; destruct H as [H ?]). assumption.
Qed.

Lemma filter_real_names (l : list string) :
  Forall (fun e => isName e = true) l -> List.filter real l = l.
Proof.
  induction 1 as [| e l He _ IH]; simpl; [reflexivity |].
  rewrite (isName_real e He), IH. reflexivity.
Qed.

Lemma elements_joinSegs (l : list string) :
  Forall (fun e => isName e = true) l -> l <> [] ->
  elements (joinSegs l) = l.
Proof.
  induction 1 as [| e l He Hl IH]; intros Hne; [contradiction |].
  destruct l as [| e' l'].
  - simpl. apply elements_noSlash, isName_noSlash, He.
  - change (joinSegs (e :: e' :: l'))
      with (e +:+ String slash (joinSegs (e' :: l'))).
    rewrite elements_append_slash, IH by discriminate.
    rewrite (elements_noSlash e (isName_noSlash e He)). reflexivity.
Qed.

Lemma reals_joinSegs (l : list string) :
  Forall (fun e => isName e = true) l -> reals (joinSegs l) = l.
Proof.
  intros H. unfold reals. destruct l as [| e l]; [reflexivity |].
  rewrite elements_joinSegs by (assumption || discriminate).
  apply filter_real_names, H.
Qed.

Lemma noDotDot_joinSegs (l : list string) :
  Forall (fun e => isName e = true) l -> noDotDot (joinSegs l) = true.
Proof.
  intros H. unfold noDotDot. destruct l as [| e l]; [reflexivity |].
  rewrite elements_joinSegs by (assumption || discriminate).
  apply forallb_forall. intros x Hx.
  rewrite Forall_forall in H. apply isName_notDotDot, H.
  apply list_elem_of_In. exact Hx.
Qed.

Lemma reals_append_slash (a b : string) :
  reals (a +:+ String slash b) = (reals a ++ reals b)%list.
Proof. unfold reals. rewrite elements_append_slash. apply List.filter_app. Qed.

Lemma noDotDot_append_slash (a b : string) :
  noDotDot (a +:+ String slash b) = noDotDot a && noDotDot b.
Proof. unfold noDotDot. rewrite elements_append_slash. apply forallb_app. Qed.

Lemma reals_slash (s : string) : reals (String slash s) = reals s.
Proof. reflexivity. Qed.

Lemma noDotDot_slash (s : string) : noDotDot (String slash s) = noDotDot s.
Proof. reflexivity. Qed.


Lemma is_slash_eq (c : ascii) : is_slash c = true -> c = slash.
Proof. apply Ascii.eqb_eq. Qed.

Lemma is_dot_eq (c : ascii) : is_dot c = true -> c = dot.
Proof. apply Ascii.eqb_eq. Qed.

Lemma at_end_hd (s : string) :
  path.at_end_or_slash s = true -> hd "" (elements s) = "".
Proof. destruct s as [| c s]; simpl; [reflexivity |]. intros ->. reflexivity. Qed.

Lemma not_at_end_hd (s : string) :
  path.at_end_or_slash s = false -> hd "" (elements s) <> "".
Proof.
  destruct s as [| c s]; simpl; [discriminate |]. intros ->. discriminate.
Qed.

Lemma real_element (c : ascii) (e : string) :
  is_slash c = false ->
  (is_dot c = true -> e <> "") ->
  real (String c e) = true.
Proof.
  intros Hs Hd. unfold real. simpl.
  destruct (is_dot c) eqn:Hdot.
  - apply is_dot_eq in Hdot. subst c.
    destruct e; [exfalso; exact (Hd eq_refl eq_refl) | reflexivity].
  - unfold is_dot, dot in Hdot. rewrite Hdot. reflexivity.
Qed.

Lemma cleanLoop_elements (rooted : bool) (p : string) :
  forall out d,
    (forallb notDotDot (elements p) = true ->
     path.cleanLoop rooted p false out d
     = fold_left (push rooted) (List.filter real (elements p)) out)
    /\ (forallb notDotDot (tl (elements p)) = true ->
        path.cleanLoop rooted p true out d
        = fold_left (push rooted) (List.filter real (tl (elements p)))
            (out +:+ hd "" (elements p))).
Proof.
  induction p as [| c rest IH]; intros out d.
  { split; intros _; simpl; [reflexivity | rewrite append_nil_r; reflexivity]. }
  split; intros Hnd.
  - (* at an element boundary *)
    cbn [path.cleanLoop]. cbn [elements] in *.
    destruct (is_slash c) eqn:Hs.
    { cbn [forallb List.filter] in *. apply andb_true_iff in Hnd.
      change (real "") with false. cbv iota. apply IH, Hnd. }
    cbn [forallb List.filter] in *. apply andb_true_iff in Hnd.
    destruct Hnd as [Hhd Htl].
    destruct (is_dot c && path.at_end_or_slash rest) eqn:Hdot.
    { (* the element [.] *)
      apply andb_true_iff in Hdot. destruct Hdot as [Hc Hend].
      apply is_dot_eq in Hc. subst c. rewrite (at_end_hd rest Hend).
      change (real (String dot "")) with false. cbv iota.
      destruct (IH out d) as [IH1 _]. rewrite IH1.
      - rewrite (elements_cons rest), (at_end_hd rest Hend). reflexivity.
      - rewrite (elements_cons rest), (at_end_hd rest Hend). exact Htl. }
    assert (Hreal : real (String c (hd "" (elements rest))) = true).
    { apply real_element; [exact Hs |]. intros Hc. rewrite Hc in Hdot.
      apply not_at_end_hd. exact Hdot. }
    assert (Hpush : forall out1,
              path.cleanLoop rooted rest true (out1 +:+ String c "") d
              = fold_left (push rooted)
                  (List.filter real (tl (elements rest)))
                  (out1 +:+ String c (hd "" (elements rest)))).
    { intros out1. destruct (IH (out1 +:+ String c "") d) as [_ IH2].
      rewrite (IH2 Htl), append_assoc. reflexivity. }
    rewrite Hreal. cbn [fold_left]. unfold push at 2.
    destruct rest as [| c2 rest2]; [apply Hpush |].
    destruct (is_dot c && is_dot c2 && path.at_end_or_slash rest2) eqn:Hdd;
      [| apply Hpush].
    (* the element [..] is excluded *)
    exfalso. apply andb_true_iff in Hdd. destruct Hdd as [Hdd Hend].
    apply andb_true_iff in Hdd. destruct Hdd as [Hc Hc2].
    apply is_dot_eq in Hc, Hc2. subst c c2.
    cbn [elements] in Hhd. change (is_slash dot) with false in Hhd.
    cbv iota in Hhd. cbn [hd] in Hhd. rewrite (at_end_hd rest2 Hend) in Hhd.
    discriminate Hhd.
  - (* inside an element *)
    cbn [path.cleanLoop]. cbn [elements] in *.
    destruct (is_slash c) eqn:Hs; cbn [hd tl] in *.
    + rewrite append_nil_r. apply IH, Hnd.
    + destruct (IH (out +:+ String c "") d) as [_ IH2].
      rewrite (IH2 Hnd), append_assoc. reflexivity.
Qed.

Lemma joinSegs_cons (e : string) (l : list string) :
  l <> [] -> joinSegs (e :: l) = e +:+ String slash (joinSegs l).
Proof. destruct l; [contradiction | reflexivity]. Qed.

Lemma joinSegs_app (a b : list string) :
  a <> [] -> b <> [] ->
  joinSegs (a ++ b) = joinSegs a +:+ String slash (joinSegs b).
Proof.
  intros Ha Hb. induction a as [| e a IH]; [contradiction |].
  destruct a as [| e' a'].
  - simpl. apply joinSegs_cons, Hb.
  - change ((e :: e' :: a') ++ b)%list with (e :: ((e' :: a') ++ b))%list.
    rewrite joinSegs_cons by discriminate.
    rewrite IH by discriminate.
    rewrite (joinSegs_cons e (e' :: a')) by discriminate.
    rewrite append_assoc, append_cons. reflexivity.
Qed.

Lemma real_length (e : string) : real e = true -> (0 < String.length e)%nat.
Proof. destruct e; [discriminate | simpl; lia]. Qed.

Lemma joinSegs_length (l : list string) :
  Forall (fun e => real e = true) l -> l <> [] ->
  (0 < String.length (joinSegs l))%nat.
Proof.
  intros H Hne. destruct H as [| e l He Hl]; [contradiction |].
  destruct l as [| e' l'].
  - simpl. apply real_length, He.
  - rewrite joinSegs_cons by discriminate. rewrite length_append.
    pose proof (real_length e He). lia.
Qed.

Lemma fold_push_rooted (l acc : list string) :
  Forall (fun e => real e = true) l ->
  Forall (fun e => real e = true) acc ->
  fold_left (push true) l ("/" +:+ joinSegs acc)
  = "/" +:+ joinSegs (acc ++ l).
Proof.
  intros Hl. revert acc. induction Hl as [| e l He _ IH]; intros acc Hacc.
  - rewrite app_nil_r. reflexivity.
  - cbn [fold_left].
    replace (push true ("/" +:+ joinSegs acc) e)
      with ("/" +:+ joinSegs (acc ++ [e])).
    + rewrite IH by (apply Forall_app; split; [assumption | repeat constructor; assumption]).
      rewrite <- app_assoc. reflexivity.
    + unfold push. cbn [andb negb orb]. rewrite orb_false_r.
      destruct acc as [| a acc'].
      * reflexivity.
      * pose proof (joinSegs_length (a :: acc') Hacc ltac:(discriminate)) as Hlen.
        rewrite length_append. cbn [String.length].
        destruct (Nat.eqb_spec (1 + String.length (joinSegs (a :: acc'))) 1)
          as [Heq | _]; [lia |].
        cbn [negb]. rewrite joinSegs_app by discriminate.
        rewrite !append_assoc. reflexivity.
Qed.

Lemma fold_push_relative (l acc : list string) :
  Forall (fun e => real e = true) l ->
  Forall (fun e => real e = true) acc ->
  fold_left (push false) l (joinSegs acc) = joinSegs (acc ++ l).
Proof.
  intros Hl. revert acc. induction Hl as [| e l He _ IH]; intros acc Hacc.
  - rewrite app_nil_r. reflexivity.
  - cbn [fold_left].
    replace (push false (joinSegs acc) e) with (joinSegs (acc ++ [e])).
    + rewrite IH by (apply Forall_app; split; [assumption | repeat constructor; assumption]).
      rewrite <- app_assoc. reflexivity.
    + unfold push. cbn [andb negb orb].
      destruct acc as [| a acc'].
      * reflexivity.
      * pose proof (joinSegs_length (a :: acc') Hacc ltac:(discriminate)) as Hlen.
        destruct (Nat.eqb_spec (String.length (joinSegs (a :: acc'))) 0)
          as [Heq | _]; [lia |].
        cbn [negb]. rewrite joinSegs_app by discriminate.
        rewrite !append_assoc. reflexivity.
Qed.

Lemma reals_real (s : string) : Forall (fun e => real e = true) (reals s).
Proof.
  unfold reals. apply Forall_forall. intros e He.
  apply list_elem_of_In, filter_In in He. apply He.
Qed.

(** [path.Clean] on a path without [..] elements: the real elements
    joined by single slashes, behind a slash if the path is rooted;
    [.] if nothing is left of a relative path. *)
Lemma Clean_noDotDot (p : string) :
  noDotDot p = true ->
  path.Clean p
  = if path.IsAbs p then "/" +:+ joinSegs (reals p)
    else match reals p with
         | [] => "."
         | _ => joinSegs (reals p)
         end.
Proof.
  intros Hnd. destruct p as [| c rest]; [reflexivity |].
  unfold path.Clean, path.IsAbs. destruct (is_slash c) eqn:Hs.
  - apply is_slash_eq in Hs. subst c.
    destruct (cleanLoop_elements true rest "/" 1%nat) as [H1 _].
    rewrite (H1 Hnd). fold (reals rest).
    change (fold_left (push true) (reals rest) "/")
      with (fold_left (push true) (reals rest) ("/" +:+ joinSegs [])).
    rewrite (fold_push_rooted _ [] (reals_real rest) (Forall_nil_2 _)).
    reflexivity.
  - destruct (cleanLoop_elements false (String c rest) "" 0%nat) as [H1 _].
    rewrite (H1 Hnd). fold (reals (String c rest)).
    change (fold_left (push false) (reals (String c rest)) "")
      with (fold_left (push false) (reals (String c rest)) (joinSegs [])).
    rewrite !(fold_push_relative _ [] (reals_real (String c rest))
                (Forall_nil_2 _)).
    cbn [app].
    destruct (reals (String c rest)) as [| e l] eqn:Hr; [reflexivity |].
    pose proof (reals_real (String c rest)) as Hreal. rewrite Hr in Hreal.
    pose proof (joinSegs_length (e :: l) Hreal ltac:(discriminate)) as Hlen.
    destruct (Nat.eqb_spec (String.length (joinSegs (e :: l))) 0);
      [lia | reflexivity].
Qed.


Lemma names_real (l : list string) :
  names l -> Forall (fun e => real e = true) l.
Proof. intros H. eapply Forall_impl; [exact H | exact isName_real]. Qed.

Lemma names_app (a b : list string) : names a -> names b -> names (a ++ b).
Proof. intros Ha Hb. apply Forall_app. split; assumption. Qed.

Lemma slash_append (x : string) : "/" +:+ x = String slash x.
Proof. reflexivity. Qed.

Lemma joinSegs_not_abs (l : list string) :
  names l -> path.IsAbs (joinSegs l) = false.
Proof.
  intros H. destruct H as [| e l He Hl]; [reflexivity |].
  assert (Hc : path.IsAbs e = false).
  { pose proof (isName_noSlash e He) as Hn. destruct e as [| c e]; [reflexivity |].
    simpl in *. apply andb_true_iff in Hn. destruct Hn as [Hn _].
    apply negb_true_iff in Hn. exact Hn. }
  destruct l as [| e' l']; [exact Hc |].
  rewrite joinSegs_cons by discriminate.
  pose proof (isName_real e He) as Hr. destruct e as [| c e]; [discriminate |].
  rewrite append_cons. exact Hc.
Qed.

Lemma joinSegs_not_empty (l : list string) :
  names l -> l <> [] -> String.eqb (joinSegs l) "" = false.
Proof.
  intros H Hne. pose proof (joinSegs_length l (names_real l H) Hne) as Hlen.
  destruct (joinSegs l); [simpl in Hlen; lia | reflexivity].
Qed.

Lemma joinSegs_not_dot (l : list string) :
  names l -> l <> [] -> String.eqb (joinSegs l) "." = false.
Proof.
  intros H Hne. destruct (String.eqb_spec (joinSegs l) ".") as [Heq | _];
    [| reflexivity].
  pose proof (reals_joinSegs l H) as Hr. rewrite Heq in Hr.
  exfalso. apply Hne. rewrite <- Hr. reflexivity.
Qed.

Lemma Clean_names_abs (l : list string) :
  names l ->
  path.Clean (String slash (joinSegs l)) = String slash (joinSegs l).
Proof.
  intros H. rewrite Clean_noDotDot.
  - cbn [path.IsAbs]. change (is_slash slash) with true. cbv iota.
    rewrite reals_slash, reals_joinSegs by exact H. reflexivity.
  - rewrite noDotDot_slash. apply noDotDot_joinSegs, H.
Qed.

Lemma Clean_names_rel (l : list string) :
  names l -> l <> [] -> path.Clean (joinSegs l) = joinSegs l.
Proof.
  intros H Hne. rewrite Clean_noDotDot by (apply noDotDot_joinSegs, H).
  rewrite joinSegs_not_abs, reals_joinSegs by exact H.
  destruct l; [contradiction | reflexivity].
Qed.

Lemma TrimPrefix_slash_abs (s : string) :
  strings.TrimPrefix (String slash s) "/" = s.
Proof. apply (TrimPrefix_append "/" s). Qed.

Lemma TrimPrefix_slash_rel (s : string) :
  path.IsAbs s = false -> strings.TrimPrefix s "/" = s.
Proof.
  intros H. unfold strings.TrimPrefix. destruct s as [| c s]; [reflexivity |].
  cbn [strings.HasPrefix]. cbn [path.IsAbs] in H. unfold is_slash, slash in H.
  rewrite Ascii.eqb_sym, H. reflexivity.
Qed.

(** [path.Join] of two elements. *)
Lemma Join_pair (a b : string) :
  path.Join [a; b]
  = if String.eqb a "" then (if String.eqb b "" then "" else path.Clean b)
    else path.Clean (a +:+ String slash b).
Proof.
  unfold path.Join. cbn [foldr path.joinBuf String.length].
  destruct a as [| c a].
  - cbn. destruct b as [| d b]; reflexivity.
  - cbn [String.length Nat.add Nat.eqb Nat.ltb Nat.leb orb String.eqb negb].
    rewrite append_nil_l.
    cbn [String.length Nat.ltb Nat.leb orb].
    rewrite append_assoc. reflexivity.
Qed.

Section WellFormed.

Context (kp ms : list string).
Hypothesis kp_names : names kp.
Hypothesis ms_names : names ms.
Hypothesis keyPrefix_wf : KeyPrefix (config fs) = keyPrefixOf kp.
Hypothesis mountPath_wf : mountPath fs = mountPathOf ms.

Lemma GetRelativePath_key (rs : list string) (key : string) :
  names rs ->
  keyFor (kp ++ rs) key ->
  GetRelativePath fs key = String slash (joinSegs (ms ++ rs)).
Proof.
  intros Hrs Hkey. unfold GetRelativePath.
  (* the cleaned key, made absolute *)
  assert (Hrel :
    (let rel := path.Clean key in
     let rel := if String.eqb rel "." then "" else rel in
     if negb (path.IsAbs rel) then "/" +:+ rel else rel)
    = String slash (joinSegs (kp ++ rs))).
  { unfold keyFor in Hkey.
    destruct (kp ++ rs)%list as [| e l] eqn:HL.
    - destruct Hkey as [-> | ->]; reflexivity.
    - subst key.
      assert (Hn : names (e :: l))
        by (rewrite <- HL; apply names_app; assumption).
      cbv zeta. rewrite Clean_names_rel by (exact Hn || discriminate).
      rewrite joinSegs_not_dot by (exact Hn || discriminate).
      rewrite joinSegs_not_abs by exact Hn. reflexivity. }
  cbv zeta in Hrel |- *. rewrite Hrel. clear Hrel.
  (* the key prefix is taken off *)
  assert (Hpre :
    (if negb (String.eqb (KeyPrefix (config fs)) "") then
       path.Clean
         ("/" +:+ strings.TrimPrefix
            (if negb (strings.HasPrefix
                        (String slash (joinSegs (kp ++ rs)))
                        ("/" +:+ KeyPrefix (config fs)))
             then "/" else String slash (joinSegs (kp ++ rs)))
            ("/" +:+ KeyPrefix (config fs)))
     else String slash (joinSegs (kp ++ rs)))
    = String slash (joinSegs rs)).
  { rewrite keyPrefix_wf. destruct kp as [| k kp'] eqn:Hkp; [reflexivity |].
    unfold keyPrefixOf.
    assert (Hk : String.eqb (joinSegs (k :: kp') +:+ "/") "" = false).
    { pose proof (joinSegs_not_empty (k :: kp') kp_names ltac:(discriminate)).
      destruct (joinSegs (k :: kp')); [discriminate | reflexivity]. }
    rewrite Hk. cbn [negb].
    destruct rs as [| r rs'].
    - rewrite app_nil_r.
      rewrite (HasPrefix_longer (String slash (joinSegs (k :: kp'))))
        by (rewrite slash_append; cbn [String.length];
            rewrite length_append; simpl; lia).
      cbn [negb].
      unfold strings.TrimPrefix.
      rewrite (HasPrefix_longer "/")
        by (rewrite slash_append; cbn [String.length];
            rewrite length_append; simpl; lia).
      reflexivity.
    - rewrite joinSegs_app by discriminate.
      replace (String slash (joinSegs (k :: kp')
                             +:+ String slash (joinSegs (r :: rs'))))
        with (("/" +:+ joinSegs (k :: kp') +:+ "/") +:+ joinSegs (r :: rs')).
      2:{ rewrite slash_append, append_cons, append_assoc. reflexivity. }
      rewrite HasPrefix_append. cbn [negb]. rewrite TrimPrefix_append.
      rewrite slash_append. apply Clean_names_abs, Hrs. }
  rewrite Hpre. clear Hpre.
  (* the mount path is put in front *)
  rewrite mountPath_wf. destruct ms as [| m ms'] eqn:Hms; [reflexivity |].
  unfold mountPathOf. rewrite slash_append. cbn [String.eqb Ascii.eqb negb].
  change (String.eqb (String slash (joinSegs (m :: ms'))) "") with false.
  cbn [negb]. rewrite Join_pair.
  change (String.eqb (String slash (joinSegs (m :: ms'))) "") with false.
  cbv iota. rewrite append_cons.
  rewrite Clean_noDotDot.
  - cbn [path.IsAbs]. change (is_slash slash) with true. cbv iota.
    rewrite reals_slash, reals_append_slash, reals_slash.
    rewrite !reals_joinSegs by assumption. reflexivity.
  - rewrite noDotDot_slash, noDotDot_append_slash, noDotDot_slash.
    rewrite !noDotDot_joinSegs by assumption. reflexivity.
Qed.

End WellFormed.


Lemma reals_names (s : string) : noDotDot s = true -> names (reals s).
Proof.
  intros Hnd. unfold names, reals. apply Forall_forall. intros e He.
  apply list_elem_of_In, filter_In in He. destruct He as [Hin Hreal].
  unfold noDotDot in Hnd. rewrite forallb_forall in Hnd.
  pose proof (Hnd e Hin) as Hdd.
  pose proof (elements_have_noSlash s) as Hns.
  rewrite Forall_forall in Hns. specialize (Hns e).
  unfold isName, real in *. apply andb_true_iff in Hreal.
  destruct Hreal as [H1 H2]. rewrite H1, H2, Hdd, Hns; [reflexivity |].
  apply list_elem_of_In. exact Hin.
Qed.

Lemma HasPrefix_split (s p : string) :
  strings.HasPrefix s p = true ->
  s = p +:+ strings.drop (String.length p) s.
Proof.
  revert s. induction p as [| c p IH]; intros s H; [reflexivity |].
  destruct s as [| d s]; [discriminate |].
  cbn [strings.HasPrefix] in H. apply andb_true_iff in H. destruct H as [Hc Hp].
  apply Ascii.eqb_eq in Hc. subst d. rewrite append_cons. cbn.
  f_equal. apply IH, Hp.
Qed.

Lemma IsAbs_append (a b : string) :
  String.eqb a "" = false -> path.IsAbs (a +:+ b) = path.IsAbs a.
Proof. destruct a; [discriminate | reflexivity]. Qed.

(** *** Paths with [..] elements *)

Lemma take_append (a b : string) : strings.take (String.length a) (a +:+ b) = a.
Proof.
  induction a as [| c a IH]; cbn [String.length strings.take].
  - destruct b; reflexivity.
  - rewrite append_cons. cbn [strings.take]. rewrite IH. reflexivity.
Qed.

Lemma get_append_r (a b : string) (i : nat) :
  String.get (String.length a + i) (a +:+ b) = String.get i b.
Proof.
  induction a as [| c a IH]; [reflexivity |].
  rewrite append_cons. cbn [String.length Nat.add String.get]. exact IH.
Qed.

Lemma get_noSlash (e : string) :
  noSlash e = true ->
  forall i, (i < String.length e)%nat ->
  exists c, String.get i e = Some c /\ is_slash c = false.
Proof.
  induction e as [| x e IH]; intros Hn i Hi; cbn [String.length] in Hi;
    [lia |].
  cbn [noSlash] in Hn. apply andb_true_iff in Hn. destruct Hn as [Hx He].
  apply negb_true_iff in Hx. destruct i as [| i]; cbn [String.get].
  - exists x. split; [reflexivity | exact Hx].
  - apply IH; [exact He | lia].
Qed.

Lemma backtrack_scan (buf : string) (d w k : nat) :
  (forall i, (w < i <= w + k)%nat ->
     (d < i)%nat /\ exists c, String.get i buf = Some c /\ is_slash c = false) ->
  path.backtrack buf d (w + k) = path.backtrack buf d w.
Proof.
  induction k as [| k IH]; intros H.
  - rewrite Nat.add_0_r. reflexivity.
  - replace (w + S k)%nat with (S (w + k)) by lia. cbn [path.backtrack].
    destruct (H (S (w + k))) as [Hd (c & Hg & Hc)]; [lia |].
    rewrite Hg, Hc. apply Nat.ltb_lt in Hd. rewrite Hd. cbn [andb negb].
    apply IH. intros i Hi. apply H. lia.
Qed.

Lemma backtrack_floor (buf : string) (d w : nat) :
  (w <= d)%nat -> path.backtrack buf d w = w.
Proof.
  intros H. destruct w as [| w]; [reflexivity |]. cbn [path.backtrack].
  apply Nat.ltb_ge in H. rewrite H. reflexivity.
Qed.

Lemma backtrack_slash (buf : string) (d w : nat) :
  String.get w buf = Some slash -> path.backtrack buf d w = w.
Proof.
  intros H. destruct w as [| w]; [reflexivity |]. cbn [path.backtrack].
  rewrite H. change (is_slash slash) with true. cbn [negb].
  rewrite andb_false_r. reflexivity.
Qed.

(** The [..] case of [path.Clean] on a buffer that ends with a slash
    and an element: back to before the slash. *)
Lemma backtrack_separated (pre e : string) (d : nat) :
  noSlash e = true -> (d <= String.length pre)%nat ->
  path.backtrack (pre +:+ String slash e) d
    (String.length (pre +:+ String slash e) - 1)
  = String.length pre.
Proof.
  intros Hn Hd. rewrite length_append. cbn [String.length].
  replace (String.length pre + S (String.length e) - 1)%nat
    with (String.length pre + String.length e)%nat by lia.
  rewrite backtrack_scan.
  - apply backtrack_slash.
    rewrite <- (Nat.add_0_r (String.length pre)) at 1.
    rewrite get_append_r. reflexivity.
  - intros i Hi. split; [lia |].
    replace i with (String.length pre + S (i - String.length pre - 1))%nat
      by lia.
    rewrite get_append_r. cbn [String.get]. apply get_noSlash; [exact Hn | lia].
Qed.

Lemma plain_length (e : string) : plain e -> (0 < String.length e)%nat.
Proof. intros [He _]. destruct e; [contradiction | simpl; lia]. Qed.

(** The same on a buffer whose only element starts at the index the
    [..] case stops at. *)
Lemma backtrack_first (pre e : string) :
  plain e ->
  path.backtrack (pre +:+ e) (String.length pre)
    (String.length (pre +:+ e) - 1)
  = String.length pre.
Proof.
  intros He. pose proof (plain_length e He) as Hlen. destruct He as [_ Hn].
  rewrite length_append.
  destruct (String.length e) as [| k] eqn:Hk.
  - lia.
  - replace (String.length pre + S k - 1)%nat
      with (String.length pre + k)%nat by lia.
    rewrite backtrack_scan; [apply backtrack_floor; lia |].
    intros i Hi. split; [lia |].
    replace i with (String.length pre + (i - String.length pre))%nat by lia.
    rewrite get_append_r. apply get_noSlash; [exact Hn | lia].
Qed.

Lemma joinSegs_plain_length (l : list string) :
  Forall plain l -> l <> [] -> (0 < String.length (joinSegs l))%nat.
Proof.
  intros H Hne. destruct H as [| e l He Hl]; [contradiction |].
  pose proof (plain_length e He). destruct l as [| e' l'].
  - exact H.
  - rewrite joinSegs_cons by discriminate. rewrite length_append. lia.
Qed.

Lemma joinSegs_snoc (l : list string) (e : string) :
  joinSegs (l ++ [e])
  = match l with
    | [] => e
    | _ => joinSegs l +:+ String slash e
    end.
Proof.
  destruct l as [| x l]; [reflexivity |].
  apply (joinSegs_app (x :: l) [e]); discriminate.
Qed.

Lemma joinSegs_grow (l : list string) (e s : string) :
  joinSegs (l ++ [e]) +:+ s = joinSegs (l ++ [e +:+ s]).
Proof.
  rewrite !joinSegs_snoc. destruct l; [reflexivity |].
  rewrite append_assoc. reflexivity.
Qed.

Lemma render_grow (rooted : bool) (l : list string) (e s : string) :
  render rooted (l ++ [e]) +:+ s = render rooted (l ++ [e +:+ s]).
Proof. unfold render. rewrite append_assoc, joinSegs_grow. reflexivity. Qed.

Lemma render_length_nil (rooted : bool) :
  String.length (render rooted []) = floor rooted.
Proof. destruct rooted; reflexivity. Qed.

Lemma render_length (rooted : bool) (l : list string) :
  Forall plain l -> l <> [] ->
  (floor rooted < String.length (render rooted l))%nat.
Proof.
  intros H Hne. pose proof (joinSegs_plain_length l H Hne).
  unfold render. rewrite length_append. destruct rooted; simpl; lia.
Qed.

(** How [path.Clean] starts a new element in its buffer. *)
Lemma push_render (rooted : bool) (l : list string) (e : string) :
  Forall plain l ->
  push rooted (render rooted l) e = render rooted (l ++ [e]).
Proof.
  intros H. unfold push. destruct l as [| x l].
  - destruct rooted; reflexivity.
  - pose proof (render_length rooted (x :: l) H ltac:(discriminate)) as Hlen.
    assert (Hsep :
      (rooted && negb (String.length (render rooted (x :: l)) =? 1)%nat)
      || (negb rooted
          && negb (String.length (render rooted (x :: l)) =? 0)%nat) = true).
    { destruct rooted; cbn [floor andb negb orb] in *.
      - destruct (Nat.eqb_spec (String.length (render true (x :: l))) 1);
          [lia | reflexivity].
      - destruct (Nat.eqb_spec (String.length (render false (x :: l))) 0);
          [lia | reflexivity]. }
    rewrite Hsep. unfold render. rewrite joinSegs_snoc, !append_assoc.
    reflexivity.
Qed.

(** The [..] case of [path.Clean] takes the last element off the
    buffer. *)
Lemma backtrack_render (rooted : bool) (l : list string) (e : string) :
  Forall plain l -> plain e ->
  strings.take
    (path.backtrack (render rooted (l ++ [e])) (floor rooted)
       (String.length (render rooted (l ++ [e])) - 1))
    (render rooted (l ++ [e]))
  = render rooted l.
Proof.
  intros Hl He. destruct l as [| x l].
  - cbn [app]. unfold render at 1 2 3. cbn [joinSegs].
    rewrite <- (render_length_nil rooted).
    change ((if rooted then "/" else "") +:+ e)
      with ((if rooted then "/" else "") +:+ joinSegs [] +:+ e).
    rewrite <- append_assoc. fold (render rooted []).
    rewrite backtrack_first by exact He. apply take_append.
  - assert (Hr : render rooted ((x :: l) ++ [e])
                 = render rooted (x :: l) +:+ String slash e).
    { unfold render. rewrite joinSegs_snoc, append_assoc. reflexivity. }
    rewrite Hr. rewrite backtrack_separated.
    + apply take_append.
    + apply He.
    + pose proof (render_length rooted (x :: l) Hl ltac:(discriminate)). lia.
Qed.

Lemma noSlash_append (a b : string) :
  noSlash (a +:+ b) = noSlash a && noSlash b.
Proof.
  induction a as [| c a IH]; [reflexivity |].
  rewrite append_cons. cbn [noSlash]. rewrite IH, andb_assoc. reflexivity.
Qed.

Lemma plain_char (c : ascii) : is_slash c = false -> plain (String c "").
Proof.
  intros H. split; [discriminate |]. cbn [noSlash]. rewrite H. reflexivity.
Qed.

Lemma plain_append (a b : string) :
  plain a -> noSlash b = true -> plain (a +:+ b).
Proof.
  intros [Ha Hn] Hb. split.
  - destruct a; [contradiction | discriminate].
  - rewrite noSlash_append, Hn, Hb. reflexivity.
Qed.

Lemma nil_or_snoc {A : Type} (l : list A) :
  l = [] \/ exists l' x, l = (l' ++ [x])%list.
Proof.
  induction l as [| x l _] using rev_ind; [left; reflexivity |].
  right. exists l, x. reflexivity.
Qed.

(** When the element that starts at a character is [..]. *)
Lemma element_dotdot (c : ascii) (rest : string) :
  String.eqb (String c (hd "" (elements rest))) ".."
  = match rest with
    | String c2 rest2 => is_dot c && is_dot c2 && path.at_end_or_slash rest2
    | EmptyString => false
    end.
Proof.
  unfold is_dot, dot.
  destruct rest as [| c2 rest2]; cbn [elements hd String.eqb].
  - destruct (Ascii.eqb c "."); reflexivity.
  - destruct (is_slash c2) eqn:Hs2; cbn [hd String.eqb].
    + apply is_slash_eq in Hs2. subst c2.
      destruct (Ascii.eqb c "."); reflexivity.
    + destruct (Ascii.eqb c "."), (Ascii.eqb c2 "."); try reflexivity.
      cbn [andb]. destruct rest2 as [| c3 rest3]; [reflexivity |].
      cbn [elements path.at_end_or_slash].
      destruct (is_slash c3); reflexivity.
Qed.

(** The main loop of [path.Clean], from a buffer that holds a stack
    of elements: it ends with the buffer of the stack that [walk]
    ends with.  Inside an element, the part already copied is the last
    element of the buffer. *)
Lemma cleanLoop_walk (rooted : bool) (n : nat) :
  forall p, (String.length p <= n)%nat ->
  forall stack st', Forall plain stack ->
    (walk rooted stack (elements p) = Some st' ->
     path.cleanLoop rooted p false (render rooted stack) (floor rooted)
     = render rooted st')
    /\ (forall cur, plain cur ->
        walk rooted (stack ++ [cur +:+ hd "" (elements p)])
          (tl (elements p)) = Some st' ->
        path.cleanLoop rooted p true (render rooted (stack ++ [cur]))
          (floor rooted)
        = render rooted st').
Proof.
  induction n as [| n IH]; intros p Hlen stack st' Hst;
    (destruct p as [| c rest];
     [ split;
       [ cbn; intros [= <-]; reflexivity
       | intros cur _; cbn [elements hd tl walk path.cleanLoop];
         rewrite append_nil_r; intros [= <-]; reflexivity ]
     | cbn [String.length] in Hlen; try lia ]).
  assert (IHrest := IH rest ltac:(lia)).
  split.
  - (* at an element boundary *)
    intros Hw. cbn [path.cleanLoop]. cbn [elements] in Hw.
    destruct (is_slash c) eqn:Hs.
    { cbn [walk] in Hw. change (real "") with false in Hw. cbn [negb] in Hw.
      apply IHrest; assumption. }
    destruct (is_dot c && path.at_end_or_slash rest) eqn:Hdot.
    { (* the element [.] *)
      apply andb_true_iff in Hdot. destruct Hdot as [Hc Hend].
      apply is_dot_eq in Hc. subst c. rewrite (at_end_hd rest Hend) in Hw.
      cbn [walk] in Hw. change (real (String dot "")) with false in Hw.
      cbn [negb] in Hw. apply IHrest; [assumption |].
      rewrite (elements_cons rest), (at_end_hd rest Hend). exact Hw. }
    assert (Hreal : real (String c (hd "" (elements rest))) = true).
    { apply real_element; [exact Hs |]. intros Hc. rewrite Hc in Hdot.
      apply not_at_end_hd. exact Hdot. }
    cbn [walk] in Hw. rewrite Hreal, element_dotdot in Hw. cbn [negb] in Hw.
    assert (Hpush :
      walk rooted (stack ++ [String c (hd "" (elements rest))])
        (tl (elements rest)) = Some st' ->
      path.cleanLoop rooted rest true
        (push rooted (render rooted stack) (String c "")) (floor rooted)
      = render rooted st').
    { intros Hw'. rewrite push_render by assumption.
      apply IHrest; [assumption | apply plain_char, Hs | exact Hw']. }
    destruct rest as [| c2 rest2]; [exact (Hpush Hw) |].
    destruct (is_dot c && is_dot c2 && path.at_end_or_slash rest2) eqn:Hdd;
      [| exact (Hpush Hw)].
    (* the element [..] *)
    clear Hpush. apply andb_true_iff in Hdd. destruct Hdd as [Hdd Hend].
    apply andb_true_iff in Hdd. destruct Hdd as [Hc Hc2].
    apply is_dot_eq in Hc, Hc2. subst c c2.
    cbn [elements] in Hw. change (is_slash dot) with false in Hw.
    cbn [tl] in Hw.
    cbn [String.length] in Hlen.
    assert (IH2 := IH rest2 ltac:(lia)).
    assert (Hel : elements rest2 = "" :: tl (elements rest2))
      by (rewrite (elements_cons rest2) at 1;
          rewrite (at_end_hd rest2 Hend); reflexivity).
    destruct (nil_or_snoc stack) as [-> | (l & e & ->)].
    + rewrite render_length_nil, Nat.ltb_irrefl.
      destruct rooted; cbn [negb]; [| discriminate Hw].
      apply IH2; [constructor |]. rewrite Hel. exact Hw.
    + apply Forall_app in Hst. destruct Hst as [Hl He].
      apply Forall_inv in He.
      assert (Hlen' :
        (floor rooted <? String.length (render rooted (l ++ [e])))%nat
        = true).
      { apply Nat.ltb_lt, render_length.
        - apply Forall_app. split; [exact Hl | constructor; [exact He | constructor]].
        - intros H. apply app_eq_nil in H. destruct H as [_ H].
          discriminate H. }
      rewrite Hlen'. cbv zeta. rewrite backtrack_render by assumption.
      apply IH2; [exact Hl |]. rewrite Hel.
      destruct (l ++ [e])%list as [| y l'] eqn:Hle.
      { apply app_eq_nil in Hle. destruct Hle as [_ Hle]. discriminate Hle. }
      rewrite <- Hle, removelast_last in Hw. exact Hw.
  - (* inside an element *)
    intros cur Hcur Hw. cbn [path.cleanLoop]. cbn [elements] in Hw.
    destruct (is_slash c) eqn:Hs; cbn [hd tl] in Hw.
    + rewrite append_nil_r in Hw. apply IHrest; [| exact Hw].
      apply Forall_app. split; [exact Hst | constructor; [exact Hcur | constructor]].
    + rewrite render_grow. apply IHrest; [exact Hst | |].
      * apply plain_append; [exact Hcur |]. cbn [noSlash]. rewrite Hs.
        reflexivity.
      * rewrite append_assoc. exact Hw.
Qed.

Lemma names_plain (l : list string) : names l -> Forall plain l.
Proof.
  intros H. eapply Forall_impl; [exact H |]. intros e He. split.
  - intros ->. discriminate He.
  - apply isName_noSlash, He.
Qed.

Lemma names_removelast (l : list string) : names l -> names (removelast l).
Proof.
  intros H. destruct (nil_or_snoc l) as [-> | (l' & x & ->)]; [exact H |].
  rewrite removelast_last. apply Forall_app in H. apply H.
Qed.

Lemma names_snoc (l : list string) (e : string) :
  names l -> isName e = true -> names (l ++ [e])%list.
Proof.
  intros Hl He. apply names_app; [exact Hl |].
  constructor; [exact He | constructor].
Qed.

(** A real element other than [..] is a name. *)
Lemma real_name (e : string) :
  real e = true -> String.eqb e ".." = false -> noSlash e = true ->
  isName e = true.
Proof.
  unfold real, isName. intros Hr Hd Hn.
  apply andb_true_iff in Hr. destruct Hr as [H1 H2].
  rewrite H1, H2, Hd, Hn. reflexivity.
Qed.

Lemma walk_names (rooted : bool) (es : list string) :
  Forall (fun e => noSlash e = true) es ->
  forall stack st,
    names stack -> walk rooted stack es = Some st -> names st.
Proof.
  induction 1 as [| e es He _ IH]; intros stack st Hst Hw; cbn [walk] in Hw.
  - injection Hw as <-. exact Hst.
  - destruct (real e) eqn:Hr; cbn [negb] in Hw; [| exact (IH _ _ Hst Hw)].
    destruct (String.eqb e "..") eqn:Hd.
    + destruct stack as [| x l] eqn:Hstack.
      * destruct rooted; [exact (IH _ _ Hst Hw) | discriminate Hw].
      * apply (IH _ _ (names_removelast _ Hst) Hw).
    + apply (IH _ _ (names_snoc _ _ Hst (real_name e Hr Hd He)) Hw).
Qed.

(** What a relative path is cleaned to is also what it is cleaned to
    behind a slash. *)
Lemma walk_rooted (es : list string) :
  forall stack st,
    walk false stack es = Some st -> walk true stack es = Some st.
Proof.
  induction es as [| e es IH]; intros stack st Hw; cbn [walk] in *;
    [exact Hw |].
  destruct (negb (real e)); [exact (IH _ _ Hw) |].
  destruct (String.eqb e "..");  [| exact (IH _ _ Hw)].
  destruct stack; [discriminate Hw | exact (IH _ _ Hw)].
Qed.

Lemma walk_rooted_total (es : list string) :
  forall stack, exists st, walk true stack es = Some st.
Proof.
  induction es as [| e es IH]; intros stack; cbn [walk];
    [exists stack; reflexivity |].
  destruct (negb (real e)); [apply IH |].
  destruct (String.eqb e ".."); [| apply IH].
  destruct stack; apply IH.
Qed.

(** A relative path that does not climb above where it starts is
    cleaned the same way behind any names. *)
Lemma walk_frame (es : list string) :
  forall stack st,
    walk false stack es = Some st ->
    forall before,
      walk false (before ++ stack)%list es = Some (before ++ st)%list.
Proof.
  induction es as [| e es IH]; intros stack st Hw before; cbn [walk] in *.
  - injection Hw as <-. reflexivity.
  - destruct (negb (real e)); [exact (IH _ _ Hw before) |].
    destruct (String.eqb e "..").
    + destruct (nil_or_snoc stack) as [-> | (l & x & ->)];
        [discriminate Hw |].
      destruct (l ++ [x])%list as [| y l'] eqn:Hl.
      { apply app_eq_nil in Hl. destruct Hl as [_ Hl]. discriminate Hl. }
      rewrite <- Hl in *. rewrite removelast_last in Hw.
      rewrite app_assoc.
      destruct ((before ++ l) ++ [x])%list as [| z l''] eqn:Hl2.
      { apply app_eq_nil in Hl2. destruct Hl2 as [_ Hl2]. discriminate Hl2. }
      rewrite <- Hl2, removelast_last. exact (IH _ _ Hw before).
    + rewrite <- app_assoc. exact (IH _ _ Hw before).
Qed.

Lemma walk_names_prefix (rooted : bool) (l es : list string) :
  names l ->
  forall stack,
    walk rooted stack (l ++ es)%list = walk rooted (stack ++ l)%list es.
Proof.
  induction 1 as [| e l He _ IH]; intros stack.
  - rewrite app_nil_r. reflexivity.
  - cbn [app walk]. rewrite (isName_real e He). cbn [negb].
    pose proof (isName_notDotDot e He) as Hd. apply negb_true_iff in Hd.
    rewrite Hd, IH, <- app_assoc. reflexivity.
Qed.

(** [path.Clean] on a rooted path: the stack its elements leave,
    behind a slash. *)
Lemma Clean_rooted_walk (s : string) (st : list string) :
  walk true [] (elements s) = Some st ->
  path.Clean (String slash s) = String slash (joinSegs st).
Proof.
  intros Hw. unfold path.Clean. change (is_slash slash) with true.
  cbv iota zeta.
  destruct (cleanLoop_walk true (String.length s) s (le_n _) [] st
              (Forall_nil_2 _)) as [H _].
  change (path.cleanLoop true s false "/" 1)
    with (path.cleanLoop true s false (render true []) (floor true)).
  rewrite (H Hw). reflexivity.
Qed.

(** [path.Clean] on a path that does not climb above where it starts,
    which a rooted path never does. *)
Lemma Clean_walk (p : string) (st : list string) :
  walk false [] (elements p) = Some st ->
  path.Clean p
  = if path.IsAbs p then String slash (joinSegs st)
    else match st with
         | [] => "."
         | _ => joinSegs st
         end.
Proof.
  intros Hw. destruct p as [| c rest].
  { cbn in Hw. injection Hw as <-. reflexivity. }
  cbn [path.IsAbs]. destruct (is_slash c) eqn:Hs.
  - apply is_slash_eq in Hs. subst c. apply Clean_rooted_walk, walk_rooted.
    exact Hw.
  - unfold path.Clean. rewrite Hs. cbv zeta.
    destruct (cleanLoop_walk false (String.length (String c rest))
                (String c rest) (le_n _) [] st (Forall_nil_2 _)) as [H _].
    change (path.cleanLoop false (String c rest) false "" 0)
      with (path.cleanLoop false (String c rest) false (render false [])
              (floor false)).
    rewrite (H Hw). unfold render. rewrite append_nil_l.
    destruct st as [| e l]; [reflexivity |].
    assert (Hn : names (e :: l)).
    { apply (walk_names false (elements (String c rest))
               (elements_have_noSlash _) [] _ (Forall_nil_2 _) Hw). }
    pose proof (joinSegs_plain_length (e :: l) (names_plain _ Hn)
                  ltac:(discriminate)) as Hlen.
    destruct (Nat.eqb_spec (String.length (joinSegs (e :: l))) 0);
      [lia | reflexivity].
Qed.

(** The elements of a path that continues names. *)
Lemma elements_continue (l : list string) (q : string) :
  names l -> l <> [] -> path.at_end_or_slash q = true ->
  elements (joinSegs l +:+ q) = (l ++ tl (elements q))%list.
Proof.
  intros Hl Hne Hq. destruct q as [| c rest].
  - rewrite append_nil_r, app_nil_r. apply elements_joinSegs; assumption.
  - cbn [path.at_end_or_slash] in Hq. apply is_slash_eq in Hq. subst c.
    rewrite elements_append_slash, elements_joinSegs by assumption.
    reflexivity.
Qed.

Lemma walk_at_end (rooted : bool) (stack : list string) (q : string) :
  path.at_end_or_slash q = true ->
  walk rooted stack (elements q) = walk rooted stack (tl (elements q)).
Proof.
  intros Hq. rewrite (elements_cons q) at 1. rewrite (at_end_hd q Hq).
  reflexivity.
Qed.

Section WellFormedResolve.

Context (kp ms : list string).
Hypothesis kp_names : names kp.
Hypothesis ms_names : names ms.
Hypothesis keyPrefix_wf : KeyPrefix (config fs) = keyPrefixOf kp.
Hypothesis mountPath_wf : mountPath fs = mountPathOf ms.

(** The key [Join] builds from the key prefix and a path without
    [..] elements. *)
Lemma Join_key (t : string) :
  noDotDot t = true ->
  keyFor (kp ++ reals t) (Join [keyPrefixOf kp; t]).
Proof.
  intros Hnd. pose proof (reals_names t Hnd) as Hrs.
  unfold Join. rewrite Join_pair. destruct kp as [| k kp'] eqn:Hkp.
  - cbn [keyPrefixOf String.eqb app].
    destruct (String.eqb_spec t "") as [-> | Hne]; [left; reflexivity |].
    rewrite (Clean_noDotDot t Hnd).
    destruct (path.IsAbs t).
    + rewrite slash_append, TrimPrefix_slash_abs.
      destruct (reals t); [left; reflexivity | reflexivity].
    + destruct (reals t) as [| e l] eqn:Hr; [right; reflexivity |].
      cbn [keyFor]. apply TrimPrefix_slash_rel, joinSegs_not_abs, Hrs.
  - unfold keyPrefixOf.
    assert (Hk : String.eqb (joinSegs (k :: kp') +:+ "/") "" = false).
    { pose proof (joinSegs_not_empty (k :: kp') kp_names ltac:(discriminate)).
      destruct (joinSegs (k :: kp')); [discriminate | reflexivity]. }
    rewrite Hk. rewrite append_assoc.
    change ("/" +:+ String slash t) with (String slash (String slash t)).
    assert (Hn : names ((k :: kp') ++ reals t))
      by (apply names_app; assumption).
    rewrite Clean_noDotDot.
    + rewrite IsAbs_append
        by (apply joinSegs_not_empty; [assumption | discriminate]).
      rewrite joinSegs_not_abs by assumption.
      rewrite reals_append_slash, reals_slash, reals_joinSegs by assumption.
      cbn [app keyFor]. cbn [app] in Hn.
      apply TrimPrefix_slash_rel, joinSegs_not_abs, Hn.
    + rewrite noDotDot_append_slash, noDotDot_slash, Hnd.
      rewrite noDotDot_joinSegs by assumption. reflexivity.
Qed.

Lemma ResolvePath_key (p : string) :
  underMount (mountPath fs) p = true ->
  noDotDot p = true ->
  exists rs,
    names rs
    /\ keyFor (kp ++ rs) (ResolvePath fs p)
    /\ normalize p = String slash (joinSegs (ms ++ rs)).
Proof.
  intros Hunder Hnd.
  assert (Hnorm : normalize p = String slash (joinSegs (reals p))).
  { unfold normalize. rewrite slash_append, Clean_noDotDot by exact Hnd.
    reflexivity. }
  unfold ResolvePath. rewrite keyPrefix_wf, mountPath_wf in *.
  destruct ms as [| m ms'] eqn:Hms.
  - (* no mount path *)
    cbn [mountPathOf String.eqb negb app].
    destruct (path.IsAbs p) eqn:Habs; cbn [negb].
    + destruct p as [| c r']; [discriminate |].
      cbn [path.IsAbs] in Habs. apply is_slash_eq in Habs. subst c.
      rewrite TrimPrefix_slash_abs. exists (reals r').
      split; [apply reals_names, Hnd |].
      split; [apply Join_key, Hnd | exact Hnorm].
    + rewrite slash_append, (Clean_noDotDot (String slash p)) by exact Hnd.
      cbn [path.IsAbs]. change (is_slash slash) with true. cbv iota.
      rewrite reals_slash, slash_append, TrimPrefix_slash_abs.
      pose proof (reals_names p Hnd) as Hrs.
      exists (reals p). split; [exact Hrs |]. split; [| exact Hnorm].
      rewrite <- (reals_joinSegs (reals p) Hrs) at 1.
      apply Join_key, noDotDot_joinSegs, Hrs.
  - (* under the mount path *)
    unfold underMount, mountPathOf in Hunder. unfold mountPathOf.
    rewrite slash_append in *.
    change (String.eqb (String slash (joinSegs (m :: ms'))) "") with false
      in *.
    cbn [orb negb] in *. apply andb_true_iff in Hunder.
    destruct Hunder as [Hpre Hend].
    pose proof (HasPrefix_split _ _ Hpre) as Hp.
    assert (Htrim :
      strings.TrimPrefix p (String slash (joinSegs (m :: ms')))
      = strings.drop (String.length (String slash (joinSegs (m :: ms'))))
          p)
      by (unfold strings.TrimPrefix; rewrite Hpre; reflexivity).
    rewrite Htrim. clear Htrim.
    destruct (strings.drop _ p) as [| c r'] eqn:Hrest.
    + (* the mount path itself *)
      rewrite append_nil_r in Hp. cbn [path.IsAbs negb].
      change (path.Clean ("/" +:+ "")) with "/".
      change (strings.TrimPrefix "/" "/") with "".
      exists []. split; [constructor |]. split.
      * apply (Join_key "" eq_refl).
      * rewrite Hnorm, Hp, reals_slash, reals_joinSegs, app_nil_r
          by assumption.
        reflexivity.
    + cbn [path.at_end_or_slash] in Hend. apply is_slash_eq in Hend. subst c.
      cbn [path.IsAbs]. change (is_slash slash) with true. cbn [negb].
      rewrite TrimPrefix_slash_abs.
      assert (Hnd' : noDotDot r' = true).
      { rewrite Hp, append_cons, noDotDot_slash, noDotDot_append_slash
          in Hnd.
        apply andb_true_iff in Hnd. apply Hnd. }
      exists (reals r'). split; [apply reals_names, Hnd' |].
      split; [apply Join_key, Hnd' |].
      rewrite Hnorm, Hp, append_cons, reals_slash, reals_append_slash.
      rewrite reals_joinSegs by assumption. reflexivity.
Qed.

(** The key [Join] builds from the key prefix and a path that does
    not climb above where it starts. *)
Lemma Join_key_walk (t : string) (rs : list string) :
  walk false [] (elements t) = Some rs ->
  keyFor (kp ++ rs) (Join [keyPrefixOf kp; t]).
Proof.
  intros Hw.
  assert (Hrs : names rs)
    by (apply (walk_names false (elements t) (elements_have_noSlash _) [] _
                 (Forall_nil_2 _) Hw)).
  unfold Join. rewrite Join_pair. destruct kp as [| k kp'] eqn:Hkp.
  - cbn [keyPrefixOf String.eqb app].
    destruct (String.eqb_spec t "") as [-> | Hne].
    { cbn in Hw. injection Hw as <-. left; reflexivity. }
    rewrite (Clean_walk t rs Hw).
    destruct (path.IsAbs t).
    + rewrite TrimPrefix_slash_abs.
      destruct rs; [left; reflexivity | reflexivity].
    + destruct rs as [| e l] eqn:Hr; [right; reflexivity |].
      cbn [keyFor]. apply TrimPrefix_slash_rel, joinSegs_not_abs, Hrs.
  - unfold keyPrefixOf.
    assert (Hk : String.eqb (joinSegs (k :: kp') +:+ "/") "" = false).
    { pose proof (joinSegs_not_empty (k :: kp') kp_names ltac:(discriminate)).
      destruct (joinSegs (k :: kp')); [discriminate | reflexivity]. }
    rewrite Hk. rewrite append_assoc.
    change ("/" +:+ String slash t) with (String slash (String slash t)).
    assert (Hw' :
      walk false []
        (elements (joinSegs (k :: kp') +:+ String slash (String slash t)))
      = Some ((k :: kp') ++ rs)%list).
    { rewrite elements_append_slash, elements_joinSegs
        by (assumption || discriminate).
      rewrite walk_names_prefix by assumption.
      cbn [app elements]. change (is_slash slash) with true. cbv iota.
      cbn [walk]. change (real "") with false. cbn [negb].
      pose proof (walk_frame _ _ _ Hw (k :: kp')) as Hf.
      rewrite app_nil_r in Hf. exact Hf. }
    rewrite (Clean_walk _ _ Hw').
    rewrite IsAbs_append
      by (apply joinSegs_not_empty; [assumption | discriminate]).
    rewrite joinSegs_not_abs by assumption.
    assert (Hn : names ((k :: kp') ++ rs))
      by (apply names_app; assumption).
    cbn [app keyFor] in Hn |- *.
    apply TrimPrefix_slash_rel, joinSegs_not_abs, Hn.
Qed.

(** A virtual path under the mount path is the mount path followed by
    what [ResolvePath] is left with. *)
Lemma mount_split (p : string) :
  underMount (mountPath fs) p = true ->
  p = mountPathOf ms +:+ afterMount fs p
  /\ (ms <> [] -> path.at_end_or_slash (afterMount fs p) = true).
Proof.
  intros Hunder. unfold afterMount. rewrite mountPath_wf in *.
  destruct ms as [| m ms'] eqn:Hms.
  - split; [reflexivity | intros H; contradiction].
  - unfold underMount, mountPathOf in *. rewrite slash_append in *.
    change (String.eqb (String slash (joinSegs (m :: ms'))) "") with false
      in *.
    cbn [orb negb] in *. apply andb_true_iff in Hunder.
    destruct Hunder as [Hpre Hend].
    unfold strings.TrimPrefix. rewrite Hpre.
    split; [apply HasPrefix_split, Hpre | intros _; exact Hend].
Qed.

(** The cleaned absolute form of a path that continues the mount
    path without climbing above it. *)
Lemma normalize_mounted (q : string) (rs : list string) :
  ms <> [] ->
  path.at_end_or_slash q = true ->
  walk false [] (elements q) = Some rs ->
  normalize (mountPathOf ms +:+ q) = String slash (joinSegs (ms ++ rs)).
Proof.
  intros Hne Hq Hw. unfold normalize, mountPathOf.
  destruct ms as [| m ms'] eqn:Hms; [contradiction |].
  rewrite !slash_append, append_cons. apply Clean_rooted_walk.
  cbn [elements]. change (is_slash slash) with true. cbv iota.
  cbn [walk]. change (real "") with false. cbn [negb].
  rewrite elements_continue by (assumption || discriminate).
  rewrite walk_names_prefix by assumption. cbn [app].
  rewrite <- walk_at_end by exact Hq. apply walk_rooted.
  pose proof (walk_frame _ _ _ Hw (m :: ms')) as Hf.
  rewrite app_nil_r in Hf. exact Hf.
Qed.

(** The key of a virtual path that does not climb above the root
    once the mount path is taken off, and its cleaned absolute
    form. *)
Lemma ResolvePath_key_walk (p : string) :
  underMount (mountPath fs) p = true ->
  climbsAboveRoot (afterMount fs p) = false ->
  exists rs,
    names rs
    /\ keyFor (kp ++ rs) (ResolvePath fs p)
    /\ normalize p = String slash (joinSegs (ms ++ rs)).
Proof.
  intros Hunder Hclimb.
  destruct (mount_split p Hunder) as [Hp Hend].
  assert (HR :
    ResolvePath fs p
    = Join [keyPrefixOf kp;
            strings.TrimPrefix
              (if negb (path.IsAbs (afterMount fs p))
               then path.Clean ("/" +:+ afterMount fs p)
               else afterMount fs p) "/"]).
  { unfold ResolvePath, afterMount. rewrite keyPrefix_wf. reflexivity. }
  rewrite HR. clear HR.
  remember (afterMount fs p) as q eqn:Hq. clear Hq. subst p. clear Hunder.
  unfold climbsAboveRoot in Hclimb.
  destruct (path.IsAbs q) eqn:Habs; cbn [andb negb] in *.
  - (* rooted once the mount path is taken off *)
    destruct (walk false [] (elements q)) as [rs |] eqn:Hw;
      [| discriminate Hclimb].
    assert (Hrs : names rs)
      by (apply (walk_names false (elements q) (elements_have_noSlash _) [] _
                   (Forall_nil_2 _) Hw)).
    exists rs. split; [exact Hrs |]. split.
    + destruct q as [| c rest]; [discriminate Habs |].
      cbn [path.IsAbs] in Habs. apply is_slash_eq in Habs. subst c.
      rewrite TrimPrefix_slash_abs. apply Join_key_walk. exact Hw.
    + destruct (list_eq_nil_dec ms) as [Hms | Hms].
      * rewrite Hms. cbn [mountPathOf app]. rewrite append_nil_l.
        unfold normalize. rewrite slash_append.
        apply Clean_rooted_walk, walk_rooted, Hw.
      * apply normalize_mounted; [exact Hms | exact (Hend Hms) | exact Hw].
  - (* relative once the mount path is taken off *)
    destruct (walk_rooted_total (elements q) []) as [rs Hw].
    assert (Hrs : names rs)
      by (apply (walk_names true (elements q) (elements_have_noSlash _) [] _
                   (Forall_nil_2 _) Hw)).
    rewrite slash_append, (Clean_rooted_walk q rs Hw), TrimPrefix_slash_abs.
    exists rs. split; [exact Hrs |]. split.
    + rewrite <- (reals_joinSegs rs Hrs) at 1.
      apply Join_key, noDotDot_joinSegs, Hrs.
    + destruct (list_eq_nil_dec ms) as [Hms | Hms].
      * rewrite Hms. cbn [mountPathOf app]. rewrite append_nil_l.
        unfold normalize. rewrite slash_append.
        apply Clean_rooted_walk, Hw.
      * specialize (Hend Hms).
        destruct q as [| c rest];
          [| cbn [path.at_end_or_slash path.IsAbs] in Hend, Habs;
             congruence].
        cbn in Hw. injection Hw as <-.
        apply normalize_mounted; [exact Hms | reflexivity | reflexivity].
Qed.

Lemma roundtrip (p : string) :
  underMount (mountPath fs) p = true ->
  climbsAboveRoot (afterMount fs p) = false ->
  GetRelativePath fs (ResolvePath fs p) = normalize p.
Proof.
  intros Hunder Hclimb.
  destruct (ResolvePath_key_walk p Hunder Hclimb) as (rs & Hrs & Hkey & ->).
  apply (GetRelativePath_key kp ms kp_names ms_names keyPrefix_wf
           mountPath_wf rs _ Hrs Hkey).
Qed.

Lemma fails_closed (name : string) :
  String.eqb (KeyPrefix (config fs)) "" = false ->
  strings.HasPrefix (cleanAbs name) ("/" +:+ KeyPrefix (config fs)) = false ->
  GetRelativePath fs name = backendRoot fs.
Proof.
  intros Hkp Hpre. unfold GetRelativePath, backendRoot.
  fold (cleanAbs name). cbv zeta. rewrite Hkp, Hpre. cbn [negb].
  assert (Htrim : strings.TrimPrefix "/" ("/" +:+ KeyPrefix (config fs)) = "/").
  { unfold strings.TrimPrefix. rewrite HasPrefix_longer; [reflexivity |].
    rewrite slash_append. cbn [String.length].
    destruct (KeyPrefix (config fs)); [discriminate | simpl; lia]. }
  rewrite Htrim. change (path.Clean ("/" +:+ "/")) with "/".
  rewrite mountPath_wf. destruct ms as [| m ms'] eqn:Hms; [reflexivity |].
  unfold mountPathOf. rewrite slash_append.
  change (String.eqb (String slash (joinSegs (m :: ms'))) "") with false.
  cbn [negb]. rewrite Join_pair.
  change (String.eqb (String slash (joinSegs (m :: ms'))) "") with false.
  cbv iota. rewrite append_cons, Clean_noDotDot.
  - cbn [path.IsAbs]. change (is_slash slash) with true. cbv iota.
    rewrite reals_slash, reals_append_slash, reals_joinSegs by assumption.
    change (reals "/") with (@nil string). rewrite app_nil_r. reflexivity.
  - rewrite noDotDot_slash, noDotDot_append_slash.
    rewrite noDotDot_joinSegs by assumption. reflexivity.
Qed.

(** C1 as amended.  For a well-formed key prefix and mount path:
    every virtual path under the mount path is mapped by [ResolvePath]
    and back by [GetRelativePath] to its cleaned absolute form, unless
    what follows the mount path is rooted and has a [..] element that
    climbs above that root; relative paths and paths whose [..]
    elements stay below the root are included.  And for every key whose
    cleaned absolute form does not start with the key prefix,
    [GetRelativePath] returns the root of the backend, which is [/]
    without a mount path and the mount path otherwise. *)
Theorem GetRelativePath_ResolvePath :
  (forall p,
      underMount (mountPath fs) p = true ->
      climbsAboveRoot (afterMount fs p) = false ->
      GetRelativePath fs (ResolvePath fs p) = normalize p)
  /\ (forall name,
        String.eqb (KeyPrefix (config fs)) "" = false ->
        strings.HasPrefix (cleanAbs name) ("/" +:+ KeyPrefix (config fs))
        = false ->
        GetRelativePath fs name = backendRoot fs).
Proof. split; [exact roundtrip | exact fails_closed]. Qed.

End WellFormedResolve.

(** *** Names in a directory listing *)

Lemma TrimPrefix_inj (a b p : string) :
  strings.HasPrefix a p = true -> strings.HasPrefix b p = true ->
  strings.TrimPrefix a p = strings.TrimPrefix b p -> a = b.
Proof.
  intros Ha Hb. unfold strings.TrimPrefix. rewrite Ha, Hb. intros Heq.
  rewrite (HasPrefix_split a p Ha), (HasPrefix_split b p Hb), Heq.
  reflexivity.
Qed.

Lemma listedFile_name (prefix : string) (attrs : ObjectAttrs) :
  listedFile pkg prefix attrs = true ->
  oneLevel pkg prefix attrs ->
  fiName (entryOf pkg prefix ∅ attrs) = strings.TrimPrefix (Name attrs) prefix
  /\ forall modTimes,
       fiName (entryOf pkg prefix modTimes attrs)
       = strings.TrimPrefix (Name attrs) prefix.
Proof.
  unfold listedFile, oneLevel, listed, relativeName, entryOf.
  intros Hl Hone.
  apply andb_true_iff in Hl as [Hl Hnd].
  apply andb_true_iff in Hl as [Hl Hne].
  apply andb_true_iff in Hl as [Hlive Hp].
  rewrite Hp in *. cbn [negb] in *. rewrite Hne, Hlive in Hone.
  specialize (Hone eq_refl).
  assert (Hname : path.Base
                    (resolve pkg (Name attrs) prefix (ContentType attrs)).1
                  = strings.TrimPrefix (Name attrs) prefix).
  { rewrite (Base_plain _ Hone) by (apply negb_true_iff; exact Hne).
    revert Hnd. unfold resolve. cbn [fst snd].
    destruct (strings.HasSuffix (strings.TrimPrefix (Name attrs) prefix) "/");
      [| reflexivity].
    destruct (String.eqb (ContentType attrs) (dirMimeType pkg)); discriminate. }
  split; [| intros modTimes]; cbn [fiName NewFileInfo]; exact Hname.
Qed.

Lemma NoDup_by_kind (l : list FileInfo) :
  NoDup (dirNames l) ->
  NoDup (map fiName (fileEntries l)) ->
  NoDup (map (fun fi => (fiName fi, fiIsDir fi)) l).
Proof.
  induction l as [| fi l IH]; intros Hd Hf; [apply NoDup_nil_2 |].
  unfold dirNames, fileEntries in *. cbn [List.filter map] in *.
  assert (Hin : forall x, In x l -> fiIsDir x = fiIsDir fi ->
                          fiName x = fiName fi ->
                          In (fiName fi)
                            (map fiName
                               (List.filter
                                  (if fiIsDir fi then fiIsDir
                                   else fun y => negb (fiIsDir y)) l))).
  { intros x Hx Hk Hn. rewrite <- Hn. apply in_map.
    apply filter_In. split; [exact Hx |].
    destruct (fiIsDir fi); rewrite Hk; reflexivity. }
  apply NoDup_cons. split.
  - intros Hmem. apply list_elem_of_In, in_map_iff in Hmem
      as (x & Heq & Hx). injection Heq as Hn Hk.
    specialize (Hin x Hx Hk Hn).
    destruct (fiIsDir fi); cbn [negb map] in *.
    + apply NoDup_cons in Hd as [Hd _]. apply Hd, list_elem_of_In, Hin.
    + apply NoDup_cons in Hf as [Hf _]. apply Hf, list_elem_of_In, Hin.
  - apply IH.
    + destruct (fiIsDir fi); cbn [map] in Hd;
        [apply NoDup_cons in Hd as [_ Hd] |]; exact Hd.
    + destruct (fiIsDir fi); cbn [negb map] in Hf;
        [| apply NoDup_cons in Hf as [_ Hf]]; exact Hf.
Qed.

(** C6 as amended.  Across all the pages of a listing with the
    delimiter (every entry one level below the prefix), [ReadDir]
    never returns two directory entries with the same name: a name
    implied by a delimiter prefix and carried by an explicit directory
    marker is listed once, in either arrival order.  When the listing
    delivers every live file object once, it never returns two
    entries that are not directories with the same name either, so
    that no two entries agree in both name and kind; an entry that is
    a file and one that is a directory may share their name. *)
Theorem ReadDir_names_distinct_per_kind (dirname : string) (w w1 w2 w3 : W)
    (modTimes : gmap string Z) (pager : Pager) :
  h _ (SetAttrSelection gcsDefaultFieldsSelection) w = (None, w1) ->
  h _ (GetFolderModTimes (getStorageID fs) dirname) w1
    = ((modTimes, None), w2) ->
  h _ (ListObjects (mkQuery (getPrefix dirname) "/") defaultGCSPageSize) w2
    = (pager, w3) ->
  Forall (oneLevel pkg (getPrefix dirname)) (delivered pager) ->
  let result := (run h (ReadDir pkg fs dirname) w).1.1.1 in
  NoDup (dirNames result)
  /\ (filesOnce pkg (getPrefix dirname) (delivered pager) ->
      NoDup (map fiName (fileEntries result))
      /\ NoDup (map (fun fi => (fiName fi, fiIsDir fi)) result)).
Proof.
  intros Hsel Hmod Hlist Hone result.
  assert (Hrun : result
    = (readDirPages pkg (getPrefix dirname) modTimes pager ([], ∅)).1).
  { subst result. unfold ReadDir. cbn. rewrite Hsel. cbn. rewrite Hmod. cbn.
    rewrite Hlist. reflexivity. }
  assert (Hdirs : NoDup (dirNames result)).
  { rewrite Hrun. apply readDirPages_inv; [exact Hone |].
    split; [apply NoDup_nil_2 | intros name []]. }
  split; [exact Hdirs |]. intros [Hunder Hdistinct].
  assert (Hfiles : NoDup (map fiName (fileEntries result))).
  { rewrite Hrun, readDir_pages_files. cbn [fst fileEntries List.filter app].
    rewrite List.map_map.
    set (l := List.filter (listedFile pkg (getPrefix dirname))
                (delivered pager)) in *.
    assert (Hl : forall a, In a l ->
              listedFile pkg (getPrefix dirname) a = true
              /\ strings.HasPrefix (Name a) (getPrefix dirname) = true
              /\ fiName (entryOf pkg (getPrefix dirname) modTimes a)
                 = strings.TrimPrefix (Name a) (getPrefix dirname)).
    { intros a Ha. apply filter_In in Ha as [Ha Hf].
      rewrite Forall_forall in Hunder, Hone.
      apply list_elem_of_In in Ha.
      split; [exact Hf |]. split; [exact (Hunder a Ha Hf) |].
      apply (listedFile_name _ a Hf (Hone a Ha)). }
    clearbody l. induction l as [| a l IH]; [apply NoDup_nil_2 |].
    cbn [map] in *. apply NoDup_cons in Hdistinct as [Hnew Hdistinct].
    apply NoDup_cons. split.
    - intros Hmem. apply Hnew.
      apply list_elem_of_In, in_map_iff in Hmem as (b & Heq & Hb).
      apply list_elem_of_In, in_map_iff. exists b. split; [| exact Hb].
      destruct (Hl a (or_introl eq_refl)) as (_ & Hpa & Hna).
      destruct (Hl b (or_intror Hb)) as (_ & Hpb & Hnb).
      rewrite Hna, Hnb in Heq.
      exact (TrimPrefix_inj _ _ _ Hpb Hpa Heq).
    - apply IH; [exact Hdistinct |]. intros b Hb. apply Hl. right. exact Hb. }
  split; [exact Hfiles | apply NoDup_by_kind; assumption].
Qed.



(** *** The file count of a successful rename *)

Lemma copiesDone_app (tr1 tr2 : list entry) :
  copiesDone (tr1 ++ tr2) = (copiesDone tr1 + copiesDone tr2)%nat.
Proof.
  induction tr1 as [| x tr1 IH]; [reflexivity |].
  destruct x as [R e r]. destruct e; cbn [app copiesDone]; try exact IH.
  destruct r; cbn; rewrite IH; reflexivity.
Qed.

Lemma hasContents_no_copy (name : string) (w : W) :
  copiesDone (run h (hasContents pkg name) w).2 = O.
Proof.
  unfold hasContents. simpl. repeat (first [answer | split_match]); reflexivity.
Qed.

Lemma mkdirInternal_no_copy (name : string) (w : W) :
  copiesDone (run h (mkdirInternal pkg fs name) w).2 = O.
Proof.
  unfold mkdirInternal, Create. simpl.
  repeat (first [answer | split_match]); reflexivity.
Qed.

Lemma ReadDir_no_copy (name : string) (w : W) :
  copiesDone (run h (ReadDir pkg fs name) w).2 = O.
Proof.
  unfold ReadDir. simpl. repeat (first [answer | split_match]); reflexivity.
Qed.

Lemma Remove_no_copy (name : string) (isDir : bool) (w : W) :
  copiesDone (run h (Remove pkg fs name isDir) w).2 = O.
Proof.
  unfold Remove, hasContents, headObject. destruct isDir; simpl;
    repeat (first [answer | split_match]); reflexivity.
Qed.

Lemma wrap64_add_r (a b : Z) : wrap64 (a + wrap64 b) = wrap64 (a + b).
Proof. rewrite Z.add_comm, wrap64_add_l, Z.add_comm. reflexivity. Qed.

Lemma countsCopies_bind {A : Type} (p : prog A)
    (f : A -> prog (option (Z * Z * option error))) (before : Z) (w : W) :
  copiesDone (run h p w).2 = O ->
  (forall a w1, countsCopies before (run h (f a) w1)) ->
  countsCopies before (run h (bind p f) w).
Proof.
  intros Hp Hf. rewrite run_bind.
  destruct (run h p w) as [[a w1] tr1]. cbn in Hp.
  specialize (Hf a w1). destruct (run h (f a) w1) as [[r w2] tr2].
  unfold countsCopies in *. cbn in *. rewrite copiesDone_app, Hp. exact Hf.
Qed.

Lemma removeSource_countsCopies (source : string) (fi : FileInfo)
    (before size : Z) (w : W) :
  countsCopies before
    (run h (removeSource pkg fs source fi (wrap64 before) size) w).
Proof.
  unfold removeSource. rewrite run_bind.
  pose proof (Remove_no_copy source (fiIsDir fi) w) as Hr.
  destruct (run h (Remove pkg fs source (fiIsDir fi)) w) as [[err w1] tr1].
  cbn in Hr. unfold countsCopies. cbn. rewrite app_nil_r, Hr, Z.add_0_r.
  destruct (if IsNotExist err then None else err); reflexivity.
Qed.


Lemma renameEntries_countsCopies
    (rename : string -> string -> FileInfo ->
              prog (option (Z * Z * option error)))
    (source target : string) (entries : list FileInfo) :
  (forall src tgt info w, countsCopies 0 (run h (rename src tgt info) w)) ->
  forall before size w,
    countsCopies before
      (run h (renameEntries rename source target entries
                (wrap64 before) size) w).
Proof.
  intros Hchild. induction entries as [| info entries IH];
    intros before size w.
  - unfold countsCopies. cbn. rewrite Z.add_0_r. reflexivity.
  - cbn [renameEntries]. rewrite run_bind.
    specialize (Hchild (Join [source; fiName info])
                  (Join [target; fiName info]) info w).
    destruct (run h (rename _ _ info) w) as [[r w1] tr1].
    destruct r as [[[files sz] [err |]] |]; [exact I | | exact I].
    unfold countsCopies in Hchild. cbn in Hchild. subst files.
    cbv zeta iota beta. unfold add64 at 1.
    rewrite wrap64_add_l, wrap64_add_r. rewrite Z.add_0_l.
    specialize (IH (before + Z.of_nat (copiesDone tr1))%Z (add64 size sz) w1).
    destruct (run h (renameEntries _ _ _ _ _ _) w1) as [[r w2] tr2].
    unfold countsCopies in *. cbn in *.
    destruct r as [[[n s'] [err |]] |]; try exact I.
    rewrite IH, copiesDone_app, Nat2Z.inj_add. f_equal. lia.
Qed.

Lemma renameInternal_countsCopies (fuel : nat) :
  forall source target fi w,
    countsCopies 0 (run h (renameInternal pkg fs fuel source target fi) w).
Proof.
  induction fuel as [| fuel IH]; intros source target fi w; [exact I |].
  cbn [renameInternal]. destruct (fiIsDir fi) eqn:Hdir.
  - (* a directory *)
    apply countsCopies_bind.
    { destruct (renameMode pkg =? 0)%Z; [| reflexivity].
      rewrite run_bind. pose proof (hasContents_no_copy source w) as Hc.
      destruct (run h (hasContents pkg source) w) as [[r w1] tr1].
      cbn in Hc |- *. destruct r as [[|] | e]; cbn; rewrite app_nil_r;
        exact Hc. }
    intros [err |] w1; [exact I |].
    apply countsCopies_bind; [apply mkdirInternal_no_copy |].
    intros [err |] w2; [exact I |].
    destruct (renameMode pkg =? 1)%Z;
      [| apply (removeSource_countsCopies source fi 0 0)].
    apply countsCopies_bind; [apply ReadDir_no_copy |].
    intros [entries [err |]] w3; cbn [snd fst]; [exact I |].
    rewrite run_bind.
    pose proof (renameEntries_countsCopies (renameInternal pkg fs fuel)
                  source target entries IH 0%Z 0%Z w3) as Hloop.
    change (wrap64 0) with 0%Z in Hloop.
    destruct (run h (renameEntries _ _ _ _ _ _) w3) as [[r w4] trC].
    unfold countsCopies in Hloop. cbn in Hloop.
    destruct r as [[[n s'] [err |]] |]; [exact I | | exact I].
    subst n. rewrite Z.add_0_l.
    pose proof (removeSource_countsCopies source fi
                  (Z.of_nat (copiesDone trC)) s' w4) as Hrm.
    destruct (run h (removeSource _ _ _ _ _ _) w4) as [[r w5] trD].
    unfold countsCopies in *. cbn in *.
    destruct r as [[[n s''] [err |]] |]; try exact I.
    rewrite Hrm, copiesDone_app, Nat2Z.inj_add. f_equal; lia.
  - (* a regular file *)
    unfold copyFileInternal, headObject. cbn [bind trigger run].
    destruct (h _ (ObjAttrs target) w) as [r w1].
    destruct (h _ (CopierRun _ _ _ _ _ _) w1) as [[err |] w2]; [exact I |].
    cbn [bind run].
    destruct (h _ HasMetadater w2) as [b w3].
    assert (Hrm : forall w4,
      countsCopies 1 (run h (removeSource pkg fs source fi (add64 0 1)
                               (add64 0 (fiSize fi))) w4)).
    { intros w4. apply (removeSource_countsCopies source fi 1). }
    destruct b; cbn [bind trigger run].
    + destruct (h _ (SetModificationTime _ _ _) w3) as [setErr w4].
      specialize (Hrm w4).
      destruct (run h (removeSource _ _ _ _ _ _) w4) as [[r' w5] trD].
      unfold countsCopies in *. cbn in *.
      destruct r' as [[[n s'] [err |]] |]; try exact I.
      rewrite Hrm. f_equal; lia.
    + specialize (Hrm w3).
      destruct (run h (removeSource _ _ _ _ _ _) w3) as [[r' w5] trD].
      unfold countsCopies in *. cbn in *.
      destruct r' as [[[n s'] [err |]] |]; try exact I.
      rewrite Hrm. f_equal; lia.
Qed.


(** C5 as amended.  In recursive mode, once the target marker is created
    and the source is listed, [renameInternal] renames the listed
    children in order, each once and into the target.  If all succeed it
    removes the source and returns the sums of the counters the children
    returned; if one fails it returns the sums of the counters of the
    children before it (the failing child's own counters are not added)
    with that child's error, and calls nothing more.  Whenever the call
    returns without error, the file count is the number of copies
    made. *)
Theorem renameInternal_recursive (fuel : nat) (source target : string)
    (fi : FileInfo) (w w1 w2 w3 : W) (trM trR trC : list entry)
    (entries : list FileInfo) (outs : list (Z * Z * option error)) :
  renameMode pkg = 1%Z ->
  fiIsDir fi = true ->
  run h (mkdirInternal pkg fs target) w = (None, w1, trM) ->
  run h (ReadDir pkg fs source) w1 = ((entries, None), w2, trR) ->
  ChildrenRenamed h (renameInternal pkg fs fuel) source target entries w2
    outs w3 trC ->
  match firstError outs with
  | Some err =>
      run h (renameInternal pkg fs (S fuel) source target fi) w
      = (Some ((addUp outs (0, 0)%Z).1, (addUp outs (0, 0)%Z).2, Some err),
         w3, (trM ++ trR ++ trC)%list)
  | None =>
      forall rmErr w4 trD,
        run h (Remove pkg fs source true) w3 = (rmErr, w4, trD) ->
        run h (renameInternal pkg fs (S fuel) source target fi) w
        = (Some ((addUp outs (0, 0)%Z).1, (addUp outs (0, 0)%Z).2,
                 if IsNotExist rmErr then None else rmErr),
           w4, (trM ++ trR ++ trC ++ trD)%list)
  end
  /\ (forall numFiles filesSize w' tr,
        run h (renameInternal pkg fs (S fuel) source target fi) w
        = (Some (numFiles, filesSize, None), w', tr) ->
        numFiles = wrap64 (Z.of_nat (copiesDone tr))).
Proof.
  intros Hmode Hdir Hmk Hrd Hch. split.
  - exact (renameInternal_recursive_run fuel source target fi w w1 w2 w3
             trM trR trC entries outs Hmode Hdir Hmk Hrd Hch).
  - intros numFiles filesSize w' tr Hrun.
    pose proof (renameInternal_countsCopies (S fuel) source target fi w) as H.
    rewrite Hrun in H. exact H.
Qed.


(** *** Fuel *)

(** More fuel does not change a result. *)
Lemma sameOrMore_refl {A : Type} (p : prog (option A)) : sameOrMore h p p.
Proof. intros w r w' tr H. exact H. Qed.

Lemma sameOrMore_bind_l {A B : Type} (p : prog B)
    (f g : B -> prog (option A)) :
  (forall b, sameOrMore h (f b) (g b)) ->
  sameOrMore h (bind p f) (bind p g).
Proof.
  intros Hfg w r w' tr. rewrite !run_bind.
  destruct (run h p w) as [[b w1] tr1].
  destruct (run h (f b) w1) as [[x w2] tr2] eqn:Hf.
  intros Heq. injection Heq as -> -> <-.
  rewrite (Hfg b w1 r w' tr2 Hf). reflexivity.
Qed.

Lemma sameOrMore_bind_r {A B : Type} (p q : prog (option B))
    (k : option B -> prog (option A)) :
  sameOrMore h p q ->
  k None = Ret None ->
  sameOrMore h (bind p k) (bind q k).
Proof.
  intros Hpq Hk w r w' tr. rewrite !run_bind.
  destruct (run h p w) as [[x w1] tr1] eqn:Hp.
  destruct x as [b |].
  - rewrite (Hpq w b w1 tr1 Hp). intros H. exact H.
  - rewrite Hk. cbn. discriminate.
Qed.

Lemma sameOrMore_if {A : Type} (b : bool) (p1 p2 q1 q2 : prog (option A)) :
  sameOrMore h p1 q1 -> sameOrMore h p2 q2 ->
  sameOrMore h (if b then p1 else p2) (if b then q1 else q2).
Proof. destruct b; intros H1 H2; assumption. Qed.

Lemma renameEntries_fuel
    (rename1 rename2 : string -> string -> FileInfo ->
                       prog (option (Z * Z * option error)))
    (source target : string) (entries : list FileInfo) :
  (forall src tgt info, sameOrMore h (rename1 src tgt info)
                          (rename2 src tgt info)) ->
  forall numFiles filesSize,
    sameOrMore h
      (renameEntries rename1 source target entries numFiles filesSize)
      (renameEntries rename2 source target entries numFiles filesSize).
Proof.
  intros Hre. induction entries as [| info entries IH];
    intros numFiles filesSize; [apply sameOrMore_refl |].
  cbn [renameEntries]. intros w r w' tr. rewrite !run_bind.
  destruct (run h (rename1 _ _ info) w) as [[x w1] tr1] eqn:H1.
  destruct x as [[[files size] err] |]; [| cbn; discriminate].
  rewrite (Hre _ _ _ w _ w1 tr1 H1). cbv zeta iota beta.
  destruct err as [err |]; [intros H; exact H |].
  destruct (run h (renameEntries rename1 _ _ _ _ _) w1)
    as [[y w2] tr2] eqn:H2.
  intros Heq. injection Heq as -> -> <-.
  rewrite (IH _ _ w1 r w' tr2 H2). reflexivity.
Qed.

Lemma renameInternal_fuel_S (fuel : nat) :
  forall source target fi,
    sameOrMore h (renameInternal pkg fs fuel source target fi)
      (renameInternal pkg fs (S fuel) source target fi).
Proof.
  induction fuel as [| fuel IH]; intros source target fi.
  - intros w r w' tr H. discriminate H.
  - change (sameOrMore h
              (renameInternal pkg fs (S fuel) source target fi)
              (renameInternal pkg fs (S (S fuel)) source target fi)).
    cbn [renameInternal]. destruct (fiIsDir fi); [| apply sameOrMore_refl].
    apply sameOrMore_bind_l. intros [err |]; [apply sameOrMore_refl |].
    apply sameOrMore_bind_l. intros [err |]; [apply sameOrMore_refl |].
    apply sameOrMore_if; [| apply sameOrMore_refl].
    apply sameOrMore_bind_l. intros [entries [err |]]; cbn [snd fst];
      [apply sameOrMore_refl |].
    apply sameOrMore_bind_r; [| reflexivity].
    apply renameEntries_fuel. exact IH.
Qed.

(** Once [renameInternal] returns with some fuel, it returns the same
    with any larger fuel. *)
Lemma renameInternal_fuel (fuel more : nat) (source target : string)
    (fi : FileInfo) :
  sameOrMore h (renameInternal pkg fs fuel source target fi)
    (renameInternal pkg fs (more + fuel) source target fi).
Proof.
  induction more as [| more IH]; [apply sameOrMore_refl |].
  intros w r w' tr H. apply renameInternal_fuel_S, IH, H.
Qed.


(** *** Counters without progress *)

Lemma copiesDone_app_zero (tr1 tr2 : list entry) :
  copiesDone (tr1 ++ tr2) = O -> copiesDone tr1 = O /\ copiesDone tr2 = O.
Proof. rewrite copiesDone_app. lia. Qed.

Lemma noProgress_bind {A : Type} (p : prog A)
    (f : A -> prog (option (Z * Z * option error))) (w : W) :
  (forall a w1, noProgress (run h (f a) w1)) ->
  noProgress (run h (bind p f) w).
Proof.
  intros Hf. rewrite run_bind.
  destruct (run h p w) as [[a w1] tr1].
  specialize (Hf a w1). destruct (run h (f a) w1) as [[r w2] tr2].
  unfold noProgress in *. cbn in *.
  destruct r as [[[n s] err] |]; [| exact I].
  intros Hz. apply copiesDone_app_zero in Hz. apply Hf, Hz.
Qed.

Lemma removeSource_counters (source : string) (fi : FileInfo)
    (numFiles filesSize : Z) (w : W) :
  exists err,
    (run h (removeSource pkg fs source fi numFiles filesSize) w).1.1
    = Some (numFiles, filesSize, err).
Proof.
  unfold removeSource. rewrite run_bind.
  destruct (run h (Remove pkg fs source (fiIsDir fi)) w) as [[err w1] tr1].
  cbn. eexists. reflexivity.
Qed.

Lemma removeSource_noProgress (source : string) (fi : FileInfo) (w : W) :
  noProgress (run h (removeSource pkg fs source fi 0 0) w).
Proof.
  destruct (removeSource_counters source fi 0 0 w) as [err H].
  unfold noProgress. rewrite H. intros _. reflexivity.
Qed.

Lemma renameEntries_noProgress
    (rename : string -> string -> FileInfo ->
              prog (option (Z * Z * option error)))
    (source target : string) (entries : list FileInfo) :
  (forall src tgt info w, noProgress (run h (rename src tgt info) w)) ->
  forall w,
    noProgress (run h (renameEntries rename source target entries 0 0) w).
Proof.
  intros Hchild. induction entries as [| info entries IH]; intros w.
  - unfold noProgress. cbn. intros _. reflexivity.
  - cbn [renameEntries]. rewrite run_bind.
    specialize (Hchild (Join [source; fiName info])
                  (Join [target; fiName info]) info w).
    destruct (run h (rename _ _ info) w) as [[r w1] tr1].
    destruct r as [[[files sz] [err |]] |]; [| | exact I].
    + unfold noProgress. cbn. intros _. reflexivity.
    + cbv zeta iota beta.
      destruct (run h (renameEntries rename source target entries
                         (add64 0 files) (add64 0 sz)) w1)
        as [[r w2] tr2] eqn:Hrest.
      unfold noProgress in *. cbn in *.
      destruct r as [[[n s] err] |]; [| exact I].
      intros Hz. apply copiesDone_app_zero in Hz. destruct Hz as [Hz1 Hz2].
      specialize (Hchild Hz1). injection Hchild as -> ->.
      change (add64 0 0) with 0%Z in Hrest.
      specialize (IH w1). rewrite Hrest in IH. apply IH, Hz2.
Qed.

(** Whatever way [renameInternal] ends, if no copy has succeeded its
    counters are zero. *)
Lemma renameInternal_noProgress (fuel : nat) :
  forall source target fi w,
    noProgress (run h (renameInternal pkg fs fuel source target fi) w).
Proof.
  induction fuel as [| fuel IH]; intros source target fi w; [exact I |].
  cbn [renameInternal]. destruct (fiIsDir fi) eqn:Hdir.
  - apply noProgress_bind. intros [err |] w1; [intros _; reflexivity |].
    apply noProgress_bind. intros [err |] w2; [intros _; reflexivity |].
    destruct (renameMode pkg =? 1)%Z; [| apply removeSource_noProgress].
    apply noProgress_bind.
    intros [entries [err |]] w3; cbn [snd fst]; [intros _; reflexivity |].
    rewrite run_bind.
    pose proof (renameEntries_noProgress (renameInternal pkg fs fuel)
                  source target entries IH w3) as Hloop.
    destruct (run h (renameEntries _ _ _ _ _ _) w3) as [[r w4] trC].
    unfold noProgress in Hloop. cbn in Hloop.
    destruct r as [[[n s] [err |]] |]; [| | exact I].
    + unfold noProgress. cbn. rewrite app_nil_r. exact Hloop.
    + cbv zeta iota beta.
      destruct (run h (removeSource pkg fs source fi n s) w4)
        as [[r w5] trD] eqn:Hrm.
      unfold noProgress. cbn.
      destruct r as [[[n' s'] err] |]; [| exact I].
      intros Hz. apply copiesDone_app_zero in Hz. destruct Hz as [Hz1 _].
      specialize (Hloop Hz1). injection Hloop as -> ->.
      destruct (removeSource_counters source fi 0 0 w4) as [err' H0].
      rewrite Hrm in H0. cbn in H0. congruence.
  - unfold copyFileInternal, headObject. cbn [bind trigger run].
    destruct (h _ (ObjAttrs target) w) as [r w1].
    destruct (h _ (CopierRun _ _ _ _ _ _) w1) as [[err |] w2].
    + intros _. reflexivity.
    + destruct (run h _ w2) as [[r' w3] tr3].
      unfold noProgress. cbn. destruct r' as [[[n s] err] |]; [| exact I].
      discriminate.
Qed.


(** C10 as amended.  [Rename] of a path onto itself returns the
    counters [(-1, -1)] and a nil error without any call, whatever the
    environment.  Every other run of [Rename] in which no copy
    succeeded either failed to stat the source, and then returns
    [(-1, -1)] too, with the error of the stat, or returns the
    counters [(0, 0)]; so among these runs the sentinel with a nil
    error is returned for equal paths only.  The runs of
    [renameInternal] in which no copy succeeded all return
    [(0, 0)]. *)
Theorem Rename_same_path_sentinel (fuel : nat) (source : string) (w : W) :
  Rename pkg fs fuel source source = Ret (Some (-1, -1, None)%Z)
  /\ run h (Rename pkg fs fuel source source) w
     = (Some (-1, -1, None)%Z, w, [])
  /\ (forall target w0 numFiles filesSize err w' tr,
        run h (Rename pkg fs fuel source target) w0
        = (Some (numFiles, filesSize, err), w', tr) ->
        copiesDone tr = O ->
        ((source = target
          /\ (numFiles, filesSize, err) = (-1, -1, None)%Z /\ tr = [])
         \/ (source <> target
             /\ (numFiles, filesSize) = (-1, -1)%Z
             /\ exists e,
                  err = Some e
                  /\ run h (getObjectStat pkg fs source) w0 = (Err e, w', tr))
         \/ (source <> target
             /\ (numFiles, filesSize) = (0, 0)%Z
             /\ exists fi w1 tr0,
                  run h (getObjectStat pkg fs source) w0 = (Ok fi, w1, tr0)))
        /\ ((numFiles, filesSize, err) = (-1, -1, None)%Z ->
            source = target))
  /\ (forall target fi w0 numFiles filesSize err w' tr,
        run h (renameInternal pkg fs fuel source target fi) w0
        = (Some (numFiles, filesSize, err), w', tr) ->
        copiesDone tr = O ->
        (numFiles, filesSize) = (0, 0)%Z
        /\ (numFiles, filesSize) <> (-1, -1)%Z).
Proof.
  assert (HR : Rename pkg fs fuel source source = Ret (Some (-1, -1, None)%Z)).
  { unfold Rename. rewrite String.eqb_refl. reflexivity. }
  split; [exact HR |]. split; [rewrite HR; reflexivity |]. split.
  - intros target w0 numFiles filesSize err w' tr Hrun Hz.
    assert (Hcases :
      (source = target
       /\ (numFiles, filesSize, err) = (-1, -1, None)%Z /\ tr = [])
      \/ (source <> target
          /\ (numFiles, filesSize) = (-1, -1)%Z
          /\ exists e,
               err = Some e
               /\ run h (getObjectStat pkg fs source) w0 = (Err e, w', tr))
      \/ (source <> target
          /\ (numFiles, filesSize) = (0, 0)%Z
          /\ exists fi w1 tr0,
               run h (getObjectStat pkg fs source) w0 = (Ok fi, w1, tr0))).
    { unfold Rename in Hrun.
      destruct (String.eqb_spec source target) as [Heq | Hne].
      - left. cbn in Hrun. injection Hrun as <- <- <- <- <-. auto.
      - right. rewrite run_bind in Hrun.
        destruct (run h (getObjectStat pkg fs source) w0)
          as [[r w1] tr0] eqn:Hstat.
        destruct r as [fi | e].
        + right. split; [exact Hne |].
          pose proof (renameInternal_noProgress fuel source target fi w1)
            as Hnp.
          destruct (run h (renameInternal pkg fs fuel source target fi) w1)
            as [[res w2] tr1].
          injection Hrun as -> <- <-.
          apply copiesDone_app_zero in Hz as [_ Hz1].
          split; [exact (Hnp Hz1) | eauto].
        + left. cbn in Hrun. rewrite app_nil_r in Hrun.
          injection Hrun as <- <- <- <- <-.
          split; [exact Hne |]. split; [reflexivity |].
          exists e. split; reflexivity. }
    split; [exact Hcases |].
    intros Hsentinel. injection Hsentinel as -> -> ->.
    destruct Hcases as [[Heq _] | [(_ & _ & e & He & _) | (_ & H0 & _)]];
      [exact Heq | discriminate He | discriminate H0].
  - intros target fi w0 numFiles filesSize err w' tr Hrun Hz.
    pose proof (renameInternal_noProgress fuel source target fi w0) as H.
    rewrite Hrun in H. specialize (H Hz). split; [exact H |].
    rewrite H. discriminate.
Qed.

End Theorems.

(** ** Concrete runs of the theorems *)

Lemma GetRelativePath_ResolvePath_witness :
  GetRelativePath fsMounted (ResolvePath fsMounted "/v/a/../b//./c.txt")
  = "/v/b/c.txt"
  /\ GetRelativePath fsPlain (ResolvePath fsPlain "../a") = "/a"
  /\ GetRelativePath fsMounted "other/x" = "/v".
Proof.
  assert (Hkp : names ["pfx"]) by (repeat constructor).
  assert (Hms : names ["v"]) by (repeat constructor).
  destruct (GetRelativePath_ResolvePath fsMounted ["pfx"] ["v"] Hkp Hms
              eq_refl eq_refl) as [H1 H2].
  destruct (GetRelativePath_ResolvePath fsPlain [] [] (Forall_nil_2 _)
              (Forall_nil_2 _) eq_refl eq_refl) as [H3 _].
  split; [| split].
  - rewrite (H1 "/v/a/../b//./c.txt" eq_refl eq_refl). reflexivity.
  - rewrite (H3 "../a" eq_refl eq_refl). reflexivity.
  - rewrite (H2 "other/x" eq_refl eq_refl). reflexivity.
Defined.

(** C1, counterexample.  Without key prefix and mount path, the rooted
    path [/../a] climbs above the root: it resolves to the key [../a],
    which comes back as [/../a] and not as the cleaned [/a].  With the
    key prefix [pfx/] and the mount path [/v], the path [/v/../a]
    climbs above the root once the mount path is taken off: it
    resolves to the key [a], which comes back as [/v] and not as the
    cleaned [/a].  And with the mount path [/v] a key outside the key
    prefix comes back as [/v], not as [/]. *)
Lemma roundtrip_fails_on_dotdot :
  underMount (mountPath fsPlain) "/../a" = true
  /\ climbsAboveRoot (afterMount fsPlain "/../a") = true
  /\ ResolvePath fsPlain "/../a" = "../a"
  /\ GetRelativePath fsPlain (ResolvePath fsPlain "/../a") = "/../a"
  /\ normalize "/../a" = "/a"
  /\ GetRelativePath fsPlain (ResolvePath fsPlain "/../a")
     <> normalize "/../a"
  /\ underMount (mountPath fsMounted) "/v/../a" = true
  /\ climbsAboveRoot (afterMount fsMounted "/v/../a") = true
  /\ ResolvePath fsMounted "/v/../a" = "a"
  /\ GetRelativePath fsMounted (ResolvePath fsMounted "/v/../a") = "/v"
  /\ normalize "/v/../a" = "/a"
  /\ strings.HasPrefix (cleanAbs "x") ("/" +:+ KeyPrefix (config fsMounted))
     = false
  /\ GetRelativePath fsMounted "x" = "/v"
  /\ GetRelativePath fsMounted "x" <> "/".
Proof. vm_compute. repeat split; discriminate. Qed.

Lemma Stat_virtual_directory_witness :
  exists fi w' tr,
    run MemStore.handle (Stat (examplePkg 0) fsPlain "a/c") scenario
    = (Ok fi, w', tr)
    /\ fiIsDir fi = true /\ fiSize fi = 0%Z.
Proof.
  apply (Stat_virtual_directory MemStore.handle (examplePkg 0) fsPlain "a/c"
           ErrObjectNotExist scenario scenario scenario scenario
           (LastPage [plainObject "a/c/d.txt" 5]) [plainObject "a/c/d.txt" 5]
           None (plainObject "a/c/d.txt" 5)).
  - reflexivity.
  - reflexivity.
  - reflexivity.
  - reflexivity.
  - reflexivity.
  - left. reflexivity.
  - split; discriminate.
Defined.

(** C2, counterexample.  Neither [d] nor [d/] is an object and the
    object [d/x] lies under [d/], but the first page of two entries
    under [d/] holds [d//] and [d///], whose names relative to the
    prefix, without one trailing slash, are empty and a slash: the
    bounded listing reports no contents and [Stat] answers not-found. *)
Lemma Stat_misses_virtual_directory :
  MemStore.find "d" (MemStore.objects slashKeysStore) = None
  /\ MemStore.find "d/" (MemStore.objects slashKeysStore) = None
  /\ (exists o,
        MemStore.find "d/x" (MemStore.objects slashKeysStore) = Some o
        /\ strings.HasPrefix (Name o) "d/" = true /\ Name o <> "d/")
  /\ (run MemStore.handle (hasContents (examplePkg 0) "d")
        slashKeysStore).1.1 = Ok false
  /\ (run MemStore.handle (Stat (examplePkg 0) fsPlain "d")
        slashKeysStore).1.1 = Err ErrObjectNotExist.
Proof.
  split; [reflexivity |]. split; [reflexivity |]. split.
  - exists (plainObject "d/x" 1).
    split; [reflexivity |]. split; [reflexivity | discriminate].
  - split; vm_compute; reflexivity.
Qed.

Lemma ReadDir_names_distinct_per_kind_witness :
  let result :=
    (run MemStore.handle (ReadDir (examplePkg 0) fsPlain "a")
       fileAndDirStore).1.1.1 in
  NoDup (dirNames result)
  /\ NoDup (map fiName (fileEntries result))
  /\ NoDup (map (fun fi => (fiName fi, fiIsDir fi)) result).
Proof.
  assert (Hone : Forall (oneLevel (examplePkg 0) (getPrefix "a"))
                   [plainObject "a/x" 3; MemStore.prefixEntry "a/x/"])
    by (repeat constructor).
  destruct (ReadDir_names_distinct_per_kind MemStore.handle (examplePkg 0)
              fsPlain "a" fileAndDirStore fileAndDirStore fileAndDirStore
              fileAndDirStore ∅
              (LastPage [plainObject "a/x" 3; MemStore.prefixEntry "a/x/"])
              eq_refl eq_refl eq_refl Hone) as [Hd Hf].
  split; [exact Hd |]. apply Hf. split.
  - repeat (constructor; [intros H; vm_compute in H |- *; congruence |]).
    constructor.
  - vm_compute. apply NoDup_singleton.
Defined.

Lemma Rename_nonempty_directory_fails_witness :
  (run MemStore.handle (Rename (examplePkg 0) fsPlain 1 "a" "z") scenario).1.1
  = Some (0, 0, Some (nonEmptyDirectory "a"))%Z
  /\ (run MemStore.handle (Rename (examplePkg 0) fsPlain 1 "a" "z")
        scenario).1.2 = scenario.
Proof.
  destruct (Rename_nonempty_directory_fails MemStore.handle (examplePkg 0)
              fsPlain 0 "a" "z" (mkFileInfo "a" true 0 unixEpoch)
              scenario scenario
              (run MemStore.handle (hasContents (examplePkg 0) "a")
                 scenario).2) as (_ & _ & H).
  - reflexivity.
  - reflexivity.
  - vm_compute. reflexivity.
  - destruct (H scenario
                (run MemStore.handle
                   (getObjectStat (examplePkg 0) fsPlain "a") scenario).2)
      as [Hrun _].
    + discriminate.
    + vm_compute. reflexivity.
    + rewrite Hrun. split; reflexivity.
Defined.

Lemma renameInternal_file_witness :
  fiIsDir (mkFileInfo "b.txt" false 10 unixEpoch) = false
  /\ exists res w' tr,
       run MemStore.handle
         (renameInternal (examplePkg 0) fsPlain 1 "a/b.txt" "a/e.txt"
            (mkFileInfo "b.txt" false 10 unixEpoch)) scenario
       = (Some res, w', tr).
Proof.
  split; [reflexivity |].
  destruct (renameInternal_file MemStore.handle (examplePkg 0) fsPlain 0
              "a/b.txt" "a/e.txt" (mkFileInfo "b.txt" false 10 unixEpoch)
              scenario eq_refl)
    as (_ & _ & r & copyErr & res & w' & tr & Hrun & _).
  exists res, w', tr. exact Hrun.
Defined.

(** C5, counterexample.  With credentials that may not delete, the
    recursive rename of the directory [a], whose only child is the file
    [a/f] of 5 bytes, copies the file to [b/f] and then fails to delete
    it: the child returns its counters (1, 5) with the error, and the
    loop over the children returns (0, 0) with that error, although one
    file has been copied. *)
Lemma Rename_recursive_drops_counts :
  let '(r, s, tr) :=
    run MemStore.handle (Rename (examplePkg 1) fsPlain 3 "a" "b")
      noDeleteStore in
  r = Some (0, 0, Some (GoogleAPIError 403))%Z
  /\ copiesDone tr = 1%nat
  /\ namesOf s = [("a/f", 5); ("b/", 0); ("b/f", 5)]%Z
  /\ (run MemStore.handle
        (renameInternal (examplePkg 1) fsPlain 1 "a/f" "b/f"
           (mkFileInfo "f" false 5 unixEpoch))
        (MemStore.mkStore [plainObject "a/f" 5; plainObject "b/" 0]
           false false None 3)).1.1
     = Some (1, 5, Some (GoogleAPIError 403))%Z.
Proof. vm_compute. repeat split; reflexivity. Qed.

(** C6, counterexample.  When the object [a/x] and objects under [a/x/]
    both exist, the listing of [a] has the file [x] and the directory
    [x].  What the theorem asks of the listing is needed as well: a
    listing that ignored the delimiter would deliver [a/x/z] and
    [a/y/z], two files with the name [z], and a listing that delivered
    the file [a/c/d.txt] twice would have it reported twice. *)
Lemma ReadDir_file_and_directory_share_name :
  (let result :=
     (run MemStore.handle (ReadDir (examplePkg 0) fsPlain "a")
        fileAndDirStore).1.1.1 in
   map (fun fi => (fiName fi, fiIsDir fi)) result
   = [("x", false); ("x", true)]
   /\ ~ NoDup (map fiName result))
  /\ map (fun fi => (fiName fi, fiIsDir fi))
       (run ignoresDelimiter (ReadDir (examplePkg 0) fsPlain "a")
          twoLevelsStore).1.1.1
     = [("z", false); ("z", false)]
  /\ map (fun fi => (fiName fi, fiIsDir fi))
       (run listsTwice (ReadDir (examplePkg 0) fsPlain "a/c")
          scenario).1.1.1
     = [("d.txt", false); ("d.txt", false)].
Proof.
  vm_compute. split; [split; [reflexivity |] | split; reflexivity].
  intros H. apply NoDup_cons in H. destruct H as [H _]. apply H. left.
Qed.

Lemma Open_gzip_offset_fails_witness :
  exists err w' tr,
    run MemStore.handle (Open fsPlain "app.gz" 10) gzipStore
    = (Some err, w', tr)
    /\ tr = [Ev (PipeInDir (localTempDir fsPlain)) None;
             Ev (NewRangeReader "app.gz" 10 (-1)) (Ok (mkReader "gzip"));
             Ev ReaderClose tt; Ev PipeReaderClose tt;
             Ev PipeWriterClose tt; Ev CancelFn tt]
    /\ (forall n r, In (Ev (GoDownload n) r) tr -> False).
Proof.
  apply (Open_gzip_offset_fails MemStore.handle fsPlain "app.gz" 10
           gzipStore gzipStore gzipStore (mkReader "gzip")).
  - reflexivity.
  - reflexivity.
  - reflexivity.
  - reflexivity.
Defined.

Lemma GetDirSize_counts_witness :
  (run MemStore.handle (GetDirSize (examplePkg 0) "a") scenario).1.1
  = (2, 15, None)%Z.
Proof.
  destruct (GetDirSize_counts MemStore.handle (examplePkg 0) "a"
              scenario scenario scenario
              (LastPage [plainObject "a/b.txt" 10; plainObject "a/c/d.txt" 5])
              eq_refl eq_refl) as (_ & _ & H).
  rewrite H. reflexivity.
Defined.



Lemma Rename_same_path_sentinel_witness :
  run MemStore.handle (Rename (examplePkg 0) fsPlain 1 "a" "a") scenario
  = (Some (-1, -1, None)%Z, scenario, [])
  /\ ("a" <> "z"
      /\ (run MemStore.handle (Rename (examplePkg 0) fsPlain 1 "a" "z")
            scenario).1.1
         = Some (0, 0, Some (nonEmptyDirectory "a"))%Z)
  /\ (0, 0)%Z <> (-1, -1)%Z.
Proof.
  destruct (Rename_same_path_sentinel MemStore.handle (examplePkg 0) fsPlain
              1 "a" scenario) as (_ & H2 & H3 & H4).
  split; [exact H2 |]. split.
  - destruct (H3 "z" scenario 0%Z 0%Z (Some (nonEmptyDirectory "a")) scenario
                (run MemStore.handle (Rename (examplePkg 0) fsPlain 1 "a" "z")
                   scenario).2
                ltac:(vm_compute; reflexivity) ltac:(vm_compute; reflexivity))
      as [[[Heq _] | [(Hne & Hc & _) | (Hne & _)]] _].
    + discriminate Heq.
    + discriminate Hc.
    + split; [exact Hne | reflexivity].
  - apply (H4 "z" (mkFileInfo "a" true 0 unixEpoch) scenario 0%Z 0%Z
             (Some (nonEmptyDirectory "a")) scenario
             (run MemStore.handle (hasContents (examplePkg 0) "a")
                scenario).2).
    + vm_compute. reflexivity.
    + vm_compute. reflexivity.
Defined.

(** C10, counterexample.  [Rename] of a source that does not exist to
    another path makes no progress (its calls are the read-only ones
    of the stat; nothing is copied) and returns the counters
    [(-1, -1)], not [(0, 0)], with the not-found error. *)
Lemma Rename_failed_stat_returns_sentinel :
  let '(r, s, tr) :=
    run MemStore.handle (Rename (examplePkg 0) fsPlain 1 "zz" "yy") scenario in
  "zz" <> "yy"
  /\ r = Some (-1, -1, Some ErrObjectNotExist)%Z
  /\ r <> Some (0, 0, Some ErrObjectNotExist)%Z
  /\ s = scenario
  /\ copiesDone tr = O
  /\ forallb (fun x => negb (isMutation x)) tr = true.
Proof. vm_compute. repeat split; try reflexivity; discriminate. Qed.

Lemma renameInternal_recursive_witness :
  (run MemStore.handle
     (renameInternal (examplePkg 1) fsPlain 2 "a/c" "a/cc" dirAC) scenario).1.1
  = Some (1, 5, None)%Z
  /\ copiesDone
       (run MemStore.handle
          (renameInternal (examplePkg 1) fsPlain 2 "a/c" "a/cc" dirAC)
          scenario).2 = 1%nat.
Proof.
  assert (Hch : ChildrenRenamed MemStore.handle
                  (renameInternal (examplePkg 1) fsPlain 1) "a/c" "a/cc"
                  [childD] stepReadDir.1.2 [(1, 5, None)%Z] stepChild.1.2
                  (stepChild.2 ++ [])).
  { apply (children_next MemStore.handle _ "a/c" "a/cc" childD []
             stepReadDir.1.2 stepChild.1.2 stepChild.1.2 1 5 stepChild.2 [] []).
    - vm_compute. reflexivity.
    - apply children_done. }
  destruct (renameInternal_recursive MemStore.handle (examplePkg 1) fsPlain 1
              "a/c" "a/cc" dirAC scenario stepMkdir.1.2 stepReadDir.1.2
              stepChild.1.2 stepMkdir.2 stepReadDir.2 (stepChild.2 ++ [])
              [childD] [(1, 5, None)%Z] eq_refl eq_refl
              ltac:(vm_compute; reflexivity) ltac:(vm_compute; reflexivity)
              Hch) as [Hrun Hcount].
  cbn [firstError] in Hrun.
  specialize (Hrun stepRemove.1.1 stepRemove.1.2 stepRemove.2
                ltac:(vm_compute; reflexivity)).
  split.
  - rewrite Hrun. reflexivity.
  - rewrite Hrun. vm_compute. reflexivity.
Defined.

(** * Properties of the remaining methods *)

(** ** Strings *)

Lemma HasSuffix_slash_cons (c : ascii) (s : string) :
  s <> "" -> strings.HasSuffix (String c s) "/" = strings.HasSuffix s "/".
Proof.
  intros Hs. destruct s as [| c' s']; [contradiction |].
  unfold strings.HasSuffix. cbn [String.length Nat.leb Nat.sub].
  rewrite Nat.sub_0_r. reflexivity.
Qed.

Lemma HasSuffix_slash_app (a b : string) :
  b <> "" -> strings.HasSuffix (a +:+ b) "/" = strings.HasSuffix b "/".
Proof.
  intros Hb. induction a as [| c a IH]; [reflexivity |].
  rewrite append_cons, HasSuffix_slash_cons; [exact IH |].
  destruct a; [exact Hb | discriminate].
Qed.

Lemma HasSuffix_append_slash (s : string) :
  strings.HasSuffix (s +:+ "/") "/" = true.
Proof.
  destruct s as [| c s]; [reflexivity |].
  apply (HasSuffix_slash_app (String c s) "/"). discriminate.
Qed.

Lemma HasSuffix_slash_nonempty (s : string) :
  strings.HasSuffix s "/" = true -> s <> "".
Proof. intros H ->. discriminate H. Qed.

Lemma noSlash_HasSuffix (e : string) :
  noSlash e = true -> strings.HasSuffix e "/" = false.
Proof.
  induction e as [| c e IH]; [reflexivity |].
  cbn [noSlash]. intros [Hc He]%andb_true_iff.
  destruct e as [| c' e'].
  - unfold strings.HasSuffix. cbn.
    unfold is_slash, slash in Hc.
    destruct (Ascii.eqb_spec c "/"%char) as [-> | Hne]; [discriminate Hc |].
    destruct (String.eqb_spec (String c "") "/") as [Heq | _];
      [injection Heq as Heq; contradiction | reflexivity].
  - rewrite HasSuffix_slash_cons by discriminate. exact (IH He).
Qed.

Lemma HasPrefix_refl (p : string) : strings.HasPrefix p p = true.
Proof.
  pose proof (HasPrefix_append p "") as H. rewrite append_nil_r in H. exact H.
Qed.

Lemma TrimPrefix_self (p : string) : strings.TrimPrefix p p = "".
Proof.
  pose proof (TrimPrefix_append p "") as H. rewrite append_nil_r in H. exact H.
Qed.

Lemma TrimSuffix_append_slash (s : string) :
  strings.TrimSuffix (s +:+ "/") "/" = s.
Proof.
  unfold strings.TrimSuffix. rewrite HasSuffix_append_slash.
  rewrite length_append. cbn [String.length].
  replace (String.length s + 1 - 1)%nat with (String.length s) by lia.
  apply take_append.
Qed.

Lemma joinSegs_no_trailing_slash (l : list string) :
  names l -> strings.HasSuffix (joinSegs l) "/" = false.
Proof.
  induction l as [| e l IH]; intros Hn; [reflexivity |].
  pose proof (Forall_inv Hn) as He. pose proof (Forall_inv_tail Hn) as Hl.
  destruct l as [| e' l'].
  - apply noSlash_HasSuffix, isName_noSlash, He.
  - rewrite joinSegs_cons by discriminate.
    rewrite HasSuffix_slash_app.
    + rewrite HasSuffix_slash_cons; [exact (IH Hl) |].
      intros Heq.
      pose proof (joinSegs_not_empty (e' :: l') Hl ltac:(discriminate)) as Hne.
      rewrite Heq in Hne. discriminate Hne.
    + discriminate.
Qed.

(** ** getPrefix *)

(** X1.  [getPrefix] is empty exactly for the three names of the root;
    every other prefix ends in a slash; and a directory named with a
    trailing slash has the prefix of the directory named without. *)
Theorem getPrefix_spec (name : string) :
  (getPrefix name = "" <-> name = "" \/ name = "." \/ name = "/")
  /\ (getPrefix name <> "" -> strings.HasSuffix (getPrefix name) "/" = true)
  /\ (strings.HasSuffix name "/" = false -> name <> "." ->
      getPrefix (name +:+ "/") = getPrefix name).
Proof.
  assert (Hnonroot :
    forall n, String.eqb n "" = false -> String.eqb n "." = false ->
              String.eqb n "/" = false ->
              getPrefix n
              = if strings.HasSuffix (strings.TrimPrefix n "/") "/"
                then strings.TrimPrefix n "/"
                else strings.TrimPrefix n "/" +:+ "/").
  { intros n H1 H2 H3. unfold getPrefix. rewrite H1, H2, H3. cbn [negb andb].
    destruct (strings.HasSuffix (strings.TrimPrefix n "/") "/"); reflexivity. }
  assert (Hends :
    forall n, String.eqb n "" = false -> String.eqb n "." = false ->
              String.eqb n "/" = false ->
              strings.HasSuffix (getPrefix n) "/" = true).
  { intros n H1 H2 H3. rewrite (Hnonroot n H1 H2 H3).
    destruct (strings.HasSuffix (strings.TrimPrefix n "/") "/") eqn:E;
      [exact E | apply HasSuffix_append_slash]. }
  split; [| split].
  - split.
    + intros Hp.
      destruct (String.eqb_spec name "") as [-> | H1]; [auto |].
      destruct (String.eqb_spec name ".") as [-> | H2]; [auto |].
      destruct (String.eqb_spec name "/") as [-> | H3]; [auto |].
      exfalso.
      assert (He : strings.HasSuffix (getPrefix name) "/" = true).
      { apply Hends; apply String.eqb_neq; assumption. }
      rewrite Hp in He. discriminate He.
    + intros [-> | [-> | ->]]; reflexivity.
  - intros Hne.
    destruct (String.eqb_spec name "") as [-> | H1]; [contradiction |].
    destruct (String.eqb_spec name ".") as [-> | H2]; [contradiction |].
    destruct (String.eqb_spec name "/") as [-> | H3]; [contradiction |].
    apply Hends; apply String.eqb_neq; assumption.
  - intros Hsuf Hdot.
    destruct name as [| c rest]; [reflexivity |].
    assert (H1 : String.eqb (String c rest) "" = false) by reflexivity.
    assert (H2 : String.eqb (String c rest) "." = false)
      by (apply String.eqb_neq; exact Hdot).
    assert (H3 : String.eqb (String c rest) "/" = false).
    { apply String.eqb_neq. intros Heq. rewrite Heq in Hsuf.
      discriminate Hsuf. }
    assert (H1' : String.eqb (String c rest +:+ "/") "" = false)
      by reflexivity.
    assert (H2' : String.eqb (String c rest +:+ "/") "." = false).
    { rewrite append_cons. destruct rest; cbn;
        destruct (Ascii.eqb c "."); reflexivity. }
    assert (H3' : String.eqb (String c rest +:+ "/") "/" = false).
    { rewrite append_cons. destruct rest; cbn;
        destruct (Ascii.eqb c "/"); reflexivity. }
    rewrite (Hnonroot _ H1' H2' H3'), (Hnonroot _ H1 H2 H3).
    destruct (is_slash c) eqn:Hc.
    + apply is_slash_eq in Hc. subst c.
      assert (Hrest : rest <> "").
      { intros ->. discriminate Hsuf. }
      rewrite append_cons.
      change (strings.TrimPrefix (String slash (rest +:+ "/")) "/")
        with (strings.TrimPrefix ("/" +:+ (rest +:+ "/")) "/").
      change (strings.TrimPrefix (String slash rest) "/")
        with (strings.TrimPrefix ("/" +:+ rest) "/").
      rewrite !TrimPrefix_append.
      rewrite HasSuffix_append_slash.
      rewrite HasSuffix_slash_cons in Hsuf by exact Hrest.
      rewrite Hsuf. reflexivity.
    + assert (Ht : forall s, strings.TrimPrefix (String c s) "/" = String c s).
      { intros s. apply TrimPrefix_slash_rel. exact Hc. }
      rewrite append_cons, !Ht, <- append_cons.
      rewrite HasSuffix_append_slash, Hsuf. reflexivity.
Qed.

(** ** Keys of the children of a directory *)

Section ChildKeys.

Context (pkg : VfsPkg).

Lemma getPrefix_names (ds : list string) :
  names ds -> getPrefix (joinSegs ds) = keyPrefixOf ds.
Proof.
  intros Hn. destruct ds as [| d ds']; [reflexivity |].
  set (l := d :: ds') in *.
  assert (Hl : l <> []) by discriminate.
  unfold getPrefix, keyPrefixOf. fold l.
  rewrite (joinSegs_not_empty l Hn Hl), (joinSegs_not_dot l Hn Hl).
  assert (H3 : String.eqb (joinSegs l) "/" = false).
  { apply String.eqb_neq. intros Heq.
    pose proof (joinSegs_not_abs l Hn) as Ha. rewrite Heq in Ha.
    discriminate Ha. }
  rewrite H3. cbn [negb andb].
  rewrite (TrimPrefix_slash_rel _ (joinSegs_not_abs l Hn)).
  rewrite (joinSegs_no_trailing_slash l Hn). reflexivity.
Qed.

Lemma child_key (ds : list string) (c : string) :
  names ds -> isName c = true ->
  joinSegs (ds ++ [c]) = keyPrefixOf ds +:+ c.
Proof.
  intros Hn Hc. destruct ds as [| d ds']; [reflexivity |].
  rewrite joinSegs_app by discriminate.
  unfold keyPrefixOf. rewrite append_assoc. reflexivity.
Qed.

Lemma Join_child (ds : list string) (c : string) :
  names ds -> isName c = true ->
  Join [joinSegs ds; c] = joinSegs (ds ++ [c]).
Proof.
  intros Hn Hc.
  assert (Hall : names (ds ++ [c])).
  { apply names_app; [exact Hn | repeat constructor; exact Hc]. }
  assert (Hne : (ds ++ [c])%list <> []) by (destruct ds; discriminate).
  unfold Join. rewrite Join_pair.
  destruct ds as [| d ds'].
  - cbn [joinSegs String.eqb app].
    assert (Hce : String.eqb c "" = false).
    { apply (joinSegs_not_empty [c]); [repeat constructor; exact Hc |
                                        discriminate]. }
    rewrite Hce.
    pose proof (Clean_names_rel [c] Hall Hne) as HC. cbn [joinSegs] in HC.
    rewrite HC.
    apply TrimPrefix_slash_rel. apply (joinSegs_not_abs [c] Hall).
  - rewrite (joinSegs_not_empty (d :: ds') Hn) by discriminate.
    change c with (joinSegs [c]) at 1.
    rewrite <- joinSegs_app by discriminate.
    rewrite (Clean_names_rel _ Hall Hne).
    apply TrimPrefix_slash_rel. apply (joinSegs_not_abs _ Hall).
Qed.

(** X2.  For a directory whose key is made of names and a child name
    [c]: a listing under the directory's prefix resolves the child's
    key to [c], and the key of the child's marker to [c] as a
    directory; joining the directory and the resolved name gives the
    child's key back. *)
Theorem child_key_roundtrip (ds : list string) (c ct : string) :
  names ds -> isName c = true ->
  let dir := joinSegs ds in
  let key := joinSegs (ds ++ [c]) in
  (resolve pkg key (getPrefix dir) ct).1 = c
  /\ resolve pkg (key +:+ "/") (getPrefix dir) ct = (c, true)
  /\ Join [dir; (resolve pkg key (getPrefix dir) ct).1] = key
  /\ Join [dir; (resolve pkg (key +:+ "/") (getPrefix dir) ct).1] = key.
Proof.
  intros Hn Hc dir key. subst dir key.
  rewrite (getPrefix_names ds Hn), (child_key ds c Hn Hc).
  assert (Hsuf : strings.HasSuffix c "/" = false)
    by (apply noSlash_HasSuffix, isName_noSlash, Hc).
  assert (H1 : resolve pkg (keyPrefixOf ds +:+ c) (keyPrefixOf ds) ct
               = (c, if String.eqb ct (dirMimeType pkg) then true else false)).
  { unfold resolve. rewrite TrimPrefix_append, Hsuf. reflexivity. }
  assert (H2 : resolve pkg ((keyPrefixOf ds +:+ c) +:+ "/") (keyPrefixOf ds) ct
               = (c, true)).
  { unfold resolve. rewrite append_assoc, TrimPrefix_append.
    rewrite HasSuffix_append_slash, TrimSuffix_append_slash.
    destruct (String.eqb ct (dirMimeType pkg)); reflexivity. }
  rewrite H1, H2. cbn [fst snd].
  rewrite <- (child_key ds c Hn Hc), (Join_child ds c Hn Hc).
  repeat split; reflexivity.
Qed.

End ChildKeys.

(** ** Paths *)

Lemma backtrack_ge (buf : string) (d w : nat) :
  (d <= w)%nat -> (d <= path.backtrack buf d w)%nat.
Proof.
  induction w as [| w IH]; intros Hle; cbn [path.backtrack]; [exact Hle |].
  destruct ((d <? S w)%nat
            && negb match String.get (S w) buf with
                    | Some c => is_slash c
                    | None => false
                    end) eqn:E; [| exact Hle].
  apply IH. apply andb_true_iff in E as [E _].
  apply Nat.ltb_lt in E. lia.
Qed.

Lemma IsAbs_take (n : nat) (s : string) :
  (1 <= n)%nat -> path.IsAbs s = true -> path.IsAbs (strings.take n s) = true.
Proof.
  intros Hn Hs. destruct n as [| n]; [lia |].
  destruct s as [| c s]; [discriminate Hs | exact Hs].
Qed.

Lemma IsAbs_app_l (a b : string) :
  path.IsAbs a = true -> path.IsAbs (a +:+ b) = true.
Proof. destruct a; [discriminate | intros H; exact H]. Qed.

Lemma cleanLoop_abs (n : nat) :
  forall p inElem out,
    (String.length p <= n)%nat ->
    path.IsAbs out = true ->
    path.IsAbs (path.cleanLoop true p inElem out 1) = true.
Proof.
  induction n as [| n IH]; intros p inElem out Hlen Habs.
  - destruct p; [exact Habs | cbn in Hlen; lia].
  - destruct p as [| c rest]; [exact Habs |].
    cbn [String.length] in Hlen. cbn [path.cleanLoop].
    assert (Hpush : forall x, path.IsAbs
              ((if (true && negb (String.length out =? 1)%nat)
                   || (negb true && negb (String.length out =? 0)%nat)
                then out +:+ "/" else out) +:+ x) = true).
    { intros x. apply IsAbs_app_l.
      destruct ((true && negb (String.length out =? 1)%nat)
                || (negb true && negb (String.length out =? 0)%nat));
        [apply IsAbs_app_l |]; exact Habs. }
    destruct inElem.
    + destruct (is_slash c); apply IH; try lia;
        [exact Habs | apply IsAbs_app_l; exact Habs].
    + destruct (is_slash c); [apply IH; [lia | exact Habs] |].
      destruct (is_dot c && path.at_end_or_slash rest);
        [apply IH; [lia | exact Habs] |].
      destruct rest as [| c2 rest2]; [apply IH; [lia | apply Hpush] |].
      cbn [String.length] in Hlen.
      destruct (is_dot c && is_dot c2 && path.at_end_or_slash rest2).
      * destruct (1 <? String.length out)%nat eqn:E.
        -- apply IH; [lia |]. apply IsAbs_take; [| exact Habs].
           apply backtrack_ge. apply Nat.ltb_lt in E. lia.
        -- cbn [negb]. apply IH; [lia | exact Habs].
      * apply IH; [cbn [String.length]; lia | apply Hpush].
Qed.

Lemma Clean_abs (p : string) :
  path.IsAbs p = true -> path.IsAbs (path.Clean p) = true.
Proof.
  destruct p as [| c rest]; [discriminate |]. cbn [path.IsAbs]. intros Hc.
  unfold path.Clean. rewrite Hc.
  pose proof (cleanLoop_abs (String.length rest) rest false "/"
                (Nat.le_refl _) eq_refl) as Habs.
  destruct (path.cleanLoop true rest false "/" 1) as [| c' out];
    [discriminate Habs | exact Habs].
Qed.

Section Paths.

Context (fs : GCSFs).

(** X4.  When the mount path is empty or absolute, [GetRelativePath]
    returns an absolute path for every name, also for names that do
    not lie under the key prefix. *)
Theorem GetRelativePath_absolute (name : string) :
  mountPath fs = "" \/ path.IsAbs (mountPath fs) = true ->
  path.IsAbs (GetRelativePath fs name) = true.
Proof.
  intros Hmount. unfold GetRelativePath.
  set (rel0 := if String.eqb (path.Clean name) "." then ""
               else path.Clean name).
  set (rel1 := if negb (path.IsAbs rel0) then "/" +:+ rel0 else rel0).
  assert (H1 : path.IsAbs rel1 = true).
  { subst rel1. destruct (path.IsAbs rel0) eqn:E; [exact E | reflexivity]. }
  set (rel2 :=
         if negb (String.eqb (KeyPrefix (config fs)) "") then
           path.Clean
             ("/" +:+ strings.TrimPrefix
                        (if negb (strings.HasPrefix rel1
                                    ("/" +:+ KeyPrefix (config fs)))
                         then "/" else rel1)
                        ("/" +:+ KeyPrefix (config fs)))
         else rel1).
  assert (H2 : path.IsAbs rel2 = true).
  { subst rel2. destruct (negb (String.eqb (KeyPrefix (config fs)) ""));
      [apply Clean_abs; reflexivity | exact H1]. }
  destruct (String.eqb_spec (mountPath fs) "") as [Hm | Hm]; cbn [negb];
    [exact H2 |].
  destruct Hmount as [Hmount | Hmount]; [contradiction |].
  rewrite Join_pair.
  apply String.eqb_neq in Hm. rewrite Hm.
  apply Clean_abs. rewrite IsAbs_append by exact Hm. exact Hmount.
Qed.

Section WellFormedKeys.

Context (kp ms : list string).
Hypothesis kp_names : names kp.
Hypothesis ms_names : names ms.
Hypothesis keyPrefix_wf : KeyPrefix (config fs) = keyPrefixOf kp.
Hypothesis mountPath_wf : mountPath fs = mountPathOf ms.

(** X3.  For a well-formed configuration and a virtual path under the
    mount path that has no [..] element, the key [ResolvePath] returns
    lies under the key prefix (the key of the root is the prefix
    without its final slash) and does not start with a slash. *)
Theorem ResolvePath_under_key_prefix (p : string) :
  underMount (mountPath fs) p = true ->
  noDotDot p = true ->
  strings.HasPrefix (ResolvePath fs p +:+ "/") (KeyPrefix (config fs)) = true
  /\ path.IsAbs (ResolvePath fs p) = false.
Proof.
  intros Hu Hd.
  destruct (ResolvePath_key fs kp ms kp_names ms_names keyPrefix_wf
              mountPath_wf p Hu Hd) as (rs & Hrs & Hkey & _).
  rewrite keyPrefix_wf.
  assert (Hall : names (kp ++ rs)) by (apply names_app; assumption).
  unfold keyFor in Hkey.
  destruct (kp ++ rs)%list as [| x l] eqn:El.
  - apply app_eq_nil in El as [-> ->].
    destruct Hkey as [-> | ->]; split; reflexivity.
  - rewrite Hkey, <- El. split; [| apply joinSegs_not_abs; rewrite El; exact Hall].
    destruct kp as [| k kp']; [reflexivity |].
    change (keyPrefixOf (k :: kp')) with (joinSegs (k :: kp') +:+ "/").
    destruct rs as [| r rs'].
    + rewrite app_nil_r. apply HasPrefix_refl.
    + rewrite joinSegs_app by discriminate.
      change (String slash (joinSegs (r :: rs')))
        with ("/" +:+ joinSegs (r :: rs')).
      rewrite <- append_assoc, append_assoc. apply HasPrefix_append.
Qed.

End WellFormedKeys.

End Paths.

(** ** Classes of errors *)

(** X5.  No error is classified in two ways: [IsNotExist],
    [IsPermission] and [IsNotSupported] exclude one another, and the
    operations the backend refuses ([Symlink], [Readlink], [Chown],
    [Chmod], [Truncate]) return an error that [IsNotSupported]
    recognises. *)
Theorem error_classes_disjoint (err : option error) :
  IsNotExist err && IsPermission err = false
  /\ IsNotExist err && IsNotSupported err = false
  /\ IsPermission err && IsNotSupported err = false
  /\ (forall source target, IsNotSupported (Symlink source target) = true)
  /\ (forall name, exists e,
        Readlink name = Err e /\ IsNotSupported (Some e) = true)
  /\ (forall name uid gid, IsNotSupported (Chown name uid gid) = true)
  /\ (forall name mode, IsNotSupported (Chmod name mode) = true)
  /\ (forall name size, IsNotSupported (Truncate name size) = true).
Proof.
  repeat split; try reflexivity.
  - destruct err as [[| | code | | |] |]; try reflexivity.
    unfold IsNotExist, IsPermission.
    destruct (Z.eqb_spec code 404) as [-> | _]; reflexivity.
  - destruct err as [[| | code | | |] |]; try reflexivity.
    unfold IsNotExist, IsNotSupported. apply andb_false_r.
  - destruct err as [[| | code | | |] |]; try reflexivity.
    unfold IsPermission, IsNotSupported. apply andb_false_r.
  - intros name. exists ErrVfsUnsupported. split; reflexivity.
Qed.

(** ** The methods *)

Section Methods.

Context {W : Type} (h : handler W) (pkg : VfsPkg) (fs : GCSFs).

Ltac answer :=
  match goal with
  | |- context [h ?R ?e ?w] =>
      let r := fresh "r" in
      let w' := fresh "w" in
      let E := fresh "E" in
      destruct (h R e w) as [r w'] eqn:E; cbn
  end.

Ltac split_match :=
  match goal with
  | |- context [match ?x with _ => _ end] =>
      lazymatch x with
      | context [run] => fail
      | context [h] => fail
      | _ => destruct x eqn:?; cbn
      end
  end.

Ltac run_all := cbn; repeat (first [answer | split_match]).

(** *** Stat and Lstat *)

(** X7.  For the names of the root (the empty name, a slash, a dot)
    and for the directory the key prefix names, [Stat] succeeds with a
    directory of size 0, and its only call is the one to the metadata
    overlay: the bucket is neither headed nor listed. *)
Theorem Stat_root (name : string) (w : W) :
  name = "" \/ name = "/" \/ name = "."
  \/ KeyPrefix (config fs) = name +:+ "/" ->
  exists fi w' t,
    run h (Stat pkg fs name) w
    = (Ok fi, w', [Ev (OverlayModTime (getStorageID fs) name) t])
    /\ fiIsDir fi = true /\ fiSize fi = 0%Z.
Proof.
  intros Hroot.
  assert (Hrun : exists fi w' t,
    run h (updateFileInfoModTime pkg (getStorageID fs) name
             (NewFileInfo name true 0 unixEpoch false)) w
    = (Ok fi, w', [Ev (OverlayModTime (getStorageID fs) name) t])
    /\ fiIsDir fi = true /\ fiSize fi = 0%Z).
  { unfold updateFileInfoModTime. cbn.
    destruct (h _ (OverlayModTime (getStorageID fs) name) w) as [t w'].
    eexists _, w', t. split; [reflexivity |]. destruct t; auto. }
  unfold Stat.
  destruct Hroot as [-> | [-> | [-> | Hkp]]]; try exact Hrun.
  destruct (String.eqb name "" || String.eqb name "/" || String.eqb name ".");
    [exact Hrun |].
  rewrite Hkp, String.eqb_refl. exact Hrun.
Qed.

Lemma getObjectStat_info (name : string) (w : W) :
  match (run h (getObjectStat pkg fs name) w).1.1 with
  | Ok fi =>
      (forall attrs, (h _ (ObjAttrs name) w).1 <> Ok attrs) ->
      fiIsDir fi = true
  | Err _ => True
  end.
Proof.
  unfold getObjectStat, headObject, hasContents, updateFileInfoModTime.
  cbn. destruct (h _ (ObjAttrs name) w) as [r w1] eqn:E. cbn.
  destruct r as [attrs | err]; cbn.
  - answer. intros Hne. exfalso. apply (Hne attrs). reflexivity.
  - repeat (first [answer | split_match]); auto; intros; reflexivity.
Qed.

(** X8.  Whatever [Stat] (or [Lstat], which calls it) reports for a
    name whose head did not find an object is a directory: the root,
    the directory of the key prefix, a virtual directory, or a marker
    with a trailing slash. *)
Theorem Stat_without_object_is_directory (name : string) (w w' : W)
    (fi : FileInfo) (tr : list entry) :
  run h (Lstat pkg fs name) w = (Ok fi, w', tr) ->
  (forall attrs, (h _ (ObjAttrs name) w).1 <> Ok attrs) ->
  fiIsDir fi = true.
Proof.
  unfold Lstat, Stat. intros Hrun Hhead. revert Hrun.
  assert (Hroot :
    run h (updateFileInfoModTime pkg (getStorageID fs) name
             (NewFileInfo name true 0 unixEpoch false)) w
    = (Ok fi, w', tr) ->
    fiIsDir fi = true).
  { intros Hrun.
    destruct (updateFileInfoModTime_run h pkg (getStorageID fs) name
                (NewFileInfo name true 0 unixEpoch false) w)
      as (fi0 & w0 & tr0 & Hrun0 & _ & Hd & _).
    rewrite Hrun0 in Hrun. injection Hrun as -> _ _. exact Hd. }
  destruct (String.eqb name "" || String.eqb name "/" || String.eqb name ".");
    [exact Hroot |].
  destruct (String.eqb (KeyPrefix (config fs)) (name +:+ "/"));
    [exact Hroot |].
  intros Hrun. pose proof (getObjectStat_info name w) as Hinfo.
  rewrite Hrun in Hinfo. cbn in Hinfo. exact (Hinfo Hhead).
Qed.

(** *** Operations that only read *)

Lemma Stat_readOnly (name : string) (w : W) :
  readOnly (run h (Stat pkg fs name) w).2.
Proof.
  unfold Stat.
  destruct (String.eqb name "" || String.eqb name "/" || String.eqb name ".");
    [| destruct (String.eqb (KeyPrefix (config fs)) (name +:+ "/"))];
    first [apply updateFileInfoModTime_readOnly | apply getObjectStat_readOnly].
Qed.

Lemma walkObjects_readOnly (prefix : string) (objects : list ObjectAttrs) :
  forall w, readOnly (run h (walkObjects pkg prefix objects) w).2.
Proof.
  induction objects as [| attrs objects IH]; intros w; cbn [walkObjects].
  - constructor.
  - destruct (negb (IsZero (Deleted attrs))); [apply IH |].
    destruct (resolve pkg (Name attrs) prefix (ContentType attrs))
      as [name isDir].
    destruct (String.eqb name ""); [apply IH |].
    cbn [bind trigger run].
    destruct (h _ _ w) as [r w1]. destruct r as [e |]; cbn.
    + repeat constructor.
    + specialize (IH w1).
      destruct (run h (walkObjects pkg prefix objects) w1) as [[a w2] tr].
      constructor; [reflexivity | exact IH].
Qed.

Lemma walkPages_readOnly (root prefix : string) (pager : Pager) :
  forall w, readOnly (run h (walkPages pkg root prefix pager) w).2.
Proof.
  induction pager as [objects | objects next IH | err]; intros w;
    cbn [walkPages].
  - apply walkObjects_readOnly.
  - rewrite run_bind.
    pose proof (walkObjects_readOnly prefix objects w) as H1.
    destruct (run h (walkObjects pkg prefix objects) w) as [[r w1] tr1].
    destruct r as [e |]; cbn.
    + rewrite app_nil_r. exact H1.
    + specialize (IH w1).
      destruct (run h (walkPages pkg root prefix next) w1) as [[r w2] tr2].
      apply readOnly_app; assumption.
  - cbn. destruct (h _ _ w) as [r w1]. repeat constructor.
Qed.

(** X9.  The operations that read the bucket make no call that changes
    it: no upload is started or completed, nothing is copied and
    nothing is deleted by [Stat], [Lstat], [GetMimeType],
    [hasContents], [ReadDir], [getFileNamesInPrefix], [GetDirSize],
    [ScanRootDirContents], [Walk], [Open] and [Chtimes]. *)
Theorem read_operations_change_nothing (name : string) (w : W) :
  readOnly (run h (Stat pkg fs name) w).2
  /\ readOnly (run h (Lstat pkg fs name) w).2
  /\ readOnly (run h (GetMimeType name) w).2
  /\ readOnly (run h (hasContents pkg name) w).2
  /\ readOnly (run h (ReadDir pkg fs name) w).2
  /\ readOnly (run h (getFileNamesInPrefix pkg name) w).2
  /\ readOnly (run h (GetDirSize pkg name) w).2
  /\ readOnly (run h (ScanRootDirContents pkg fs) w).2
  /\ readOnly (run h (Walk pkg name) w).2
  /\ (forall offset, readOnly (run h (Open fs name offset) w).2)
  /\ (forall atime mtime isUploading,
        readOnly (run h (Chtimes pkg fs name atime mtime isUploading) w).2).
Proof.
  repeat split.
  - apply Stat_readOnly.
  - apply Stat_readOnly.
  - unfold GetMimeType, headObject, readOnly. run_all; repeat constructor.
  - apply hasContents_readOnly.
  - unfold ReadDir, readOnly. run_all; repeat constructor.
  - unfold getFileNamesInPrefix, readOnly. run_all; repeat constructor.
  - unfold GetDirSize, readOnly. run_all; repeat constructor.
  - unfold ScanRootDirContents, GetDirSize, readOnly.
    run_all; repeat constructor.
  - unfold Walk. cbn [bind trigger run].
    destruct (h _ _ w) as [r w1]. destruct r as [e |]; cbn [bind trigger run].
    + destruct (h _ _ w1) as [r w2]. repeat constructor.
    + destruct (h _ (ListObjects _ _) w1) as [pager w2].
      rewrite run_bind.
      pose proof (walkPages_readOnly name (getPrefix name) pager w2) as H1.
      destruct (run h (walkPages pkg name (getPrefix name) pager) w2)
        as [[r w3] tr].
      destruct r as [e |]; cbn [bind trigger run].
      * rewrite app_nil_r. repeat constructor. exact H1.
      * destruct (h _ _ w3) as [r w4].
        constructor; [reflexivity |]. constructor; [reflexivity |].
        apply readOnly_app; [exact H1 | repeat constructor].
  - intros offset. unfold Open, readOnly. run_all; repeat constructor.
  - intros atime mtime isUploading. unfold Chtimes.
    cbn [bind trigger run].
    destruct (h _ HasMetadater w) as [b w1].
    destruct b; cbn [negb]; [| repeat constructor].
    destruct isUploading; cbn [negb].
    + unfold readOnly. run_all; repeat constructor.
    + rewrite !run_bind.
      pose proof (Stat_readOnly name w1) as H1.
      destruct (run h (Stat pkg fs name) w1) as [[r w2] tr].
      cbn in H1.
      destruct r as [info | e]; [destruct (fiIsDir info) |]; cbn;
        try (rewrite !app_nil_r; constructor; [reflexivity | exact H1]).
      destruct (h _ _ w2) as [r w3]. cbn. rewrite ?app_nil_r.
      constructor; [reflexivity |].
      apply readOnly_app; [exact H1 | repeat constructor].
Qed.

(** *** Chtimes *)

(** X6.  [Chtimes] fails as unsupported when there is no metadata
    plugin, and, unless an upload is in progress, when [Stat] reports
    a directory; an error of [Stat] is returned as it is.  In these
    cases no modification time is set.  During an upload the name is
    not stat'ed at all.  Otherwise the one modification time set is
    [mtime] (never [atime]), and its answer is the result. *)
Theorem Chtimes_spec (name : string) (atime mtime : Time) (w w1 : W)
    (b : bool) :
  h _ HasMetadater w = (b, w1) ->
  let setTime :=
    SetModificationTime (getStorageID fs) (ensureAbsPath pkg name)
      (GetTimeAsMsSinceEpoch pkg mtime) in
  (b = false ->
   forall isUploading,
     run h (Chtimes pkg fs name atime mtime isUploading) w
     = (Some ErrVfsUnsupported, w1, [Ev HasMetadater false]))
  /\ (b = true ->
      forall r w2,
        h _ setTime w1 = (r, w2) ->
        run h (Chtimes pkg fs name atime mtime true) w
        = (r, w2, [Ev HasMetadater true; Ev setTime r]))
  /\ (b = true ->
      forall st w2 tr,
        run h (Stat pkg fs name) w1 = (st, w2, tr) ->
        match st with
        | Err e =>
            run h (Chtimes pkg fs name atime mtime false) w
            = (Some e, w2, Ev HasMetadater true :: tr)
        | Ok info =>
            if fiIsDir info then
              run h (Chtimes pkg fs name atime mtime false) w
              = (Some ErrVfsUnsupported, w2, Ev HasMetadater true :: tr)
            else
              forall r w3,
                h _ setTime w2 = (r, w3) ->
                run h (Chtimes pkg fs name atime mtime false) w
                = (r, w3, (Ev HasMetadater true :: tr ++ [Ev setTime r])%list)
        end).
Proof.
  intros Hmeta setTime. subst setTime. split; [| split].
  - intros -> isUploading. unfold Chtimes. cbn [bind trigger run].
    rewrite Hmeta. reflexivity.
  - intros -> r w2 Hset. unfold Chtimes. cbn [bind trigger run].
    rewrite Hmeta. cbn. rewrite Hset. reflexivity.
  - intros -> st w2 tr Hstat. unfold Chtimes. cbn [bind trigger run].
    rewrite Hmeta. cbn [negb]. rewrite !run_bind, Hstat.
    destruct st as [info | e]; [destruct (fiIsDir info) |]; cbn.
    + rewrite !app_nil_r. reflexivity.
    + intros r w3 Hset. rewrite Hset. rewrite !app_nil_r. reflexivity.
    + rewrite !app_nil_r. reflexivity.
Qed.

(** *** Mkdir *)

Lemma markerKey_eq (name : string) :
  (if negb (strings.HasSuffix name "/") then name +:+ "/" else name)
  = markerKey name.
Proof. unfold markerKey. destruct (strings.HasSuffix name "/"); reflexivity. Qed.

Lemma markerKey_suffix (name : string) :
  strings.HasSuffix (markerKey name) "/" = true.
Proof.
  unfold markerKey. destruct (strings.HasSuffix name "/") eqn:E;
    [exact E | apply HasSuffix_append_slash].
Qed.

(** X10.  [Mkdir] creates a marker only when [Stat] reports that the
    name does not exist.  When [Stat] succeeds, [Mkdir] returns nil
    without creating anything; when [Stat] fails in another way, that
    error is returned; in both cases the calls made are the read-only
    ones of [Stat]. *)
Theorem Mkdir_creates_only_when_missing (name : string) (w w1 : W)
    (r : Result FileInfo) (tr : list entry) :
  run h (Stat pkg fs name) w = (r, w1, tr) ->
  let err := match r with Ok _ => None | Err e => Some e end in
  (IsNotExist err = false ->
   run h (Mkdir pkg fs name) w = (err, w1, tr) /\ readOnly tr)
  /\ (IsNotExist err = true ->
      run h (Mkdir pkg fs name) w
      = ((run h (mkdirInternal pkg fs name) w1).1.1,
         (run h (mkdirInternal pkg fs name) w1).1.2,
         (tr ++ (run h (mkdirInternal pkg fs name) w1).2)%list)).
Proof.
  intros Hstat err. subst err. split.
  - intros Hne. split.
    + unfold Mkdir. rewrite run_bind, Hstat. cbv zeta iota beta.
      rewrite Hne. cbn. rewrite app_nil_r. reflexivity.
    + pose proof (Stat_readOnly name w) as H1. rewrite Hstat in H1. exact H1.
  - intros Hne. unfold Mkdir. rewrite run_bind, Hstat. cbv zeta iota beta.
    rewrite Hne. cbn [negb].
    destruct (run h (mkdirInternal pkg fs name) w1) as [[e w2] tr2].
    reflexivity.
Qed.

(** X11.  Once the pipe exists, [mkdirInternal] uploads exactly one
    object: the marker, whose key is the name with one trailing slash,
    under the condition that it does not exist yet and with the
    directory content type; the result is the answer of closing the
    upload.  A name given with the trailing slash makes the same
    calls. *)
Theorem mkdirInternal_marker (name : string) (w w1 : W) :
  h _ (PipeInDir (localTempDir fs)) w = (None, w1) ->
  (exists cfg closeErr w',
     run h (mkdirInternal pkg fs name) w
     = (closeErr, w',
        [Ev (PipeInDir (localTempDir fs)) None;
         Ev (GoUpload (markerKey name) (Some (mkConditions 0 true)) cfg) tt;
         Ev UploadClose closeErr])
     /\ WContentType cfg = dirMimeType pkg)
  /\ strings.HasSuffix (markerKey name) "/" = true
  /\ mkdirInternal pkg fs (markerKey name) = mkdirInternal pkg fs name.
Proof.
  intros Hpipe. split; [| split].
  - unfold mkdirInternal, Create. rewrite markerKey_eq.
    cbn. rewrite Hpipe. cbn.
    destruct (h _ (GoUpload _ _ _) w1) as [[] w2]. cbn.
    destruct (h _ UploadClose w2) as [closeErr w3].
    eexists _, closeErr, w3. split; reflexivity.
  - apply markerKey_suffix.
  - unfold mkdirInternal. rewrite !markerKey_eq.
    unfold markerKey at 1. rewrite markerKey_suffix. reflexivity.
Qed.

(** *** Remove *)

(** X12.  [Remove] of a directory whose bounded listing reports
    contents, or cannot be made, fails without deleting anything: with
    the non-empty-directory error in the first case, with the error of
    the listing in the second.  The calls made are the read-only ones
    of the check. *)
Theorem Remove_nonempty_directory (name : string) (w w1 : W)
    (r : Result bool) (tr : list entry) :
  run h (hasContents pkg name) w = (r, w1, tr) ->
  r <> Ok false ->
  exists err,
    run h (Remove pkg fs name true) w = (Some err, w1, tr)
    /\ readOnly tr
    /\ (r = Ok true ->
        err = Errorf "cannot remove non empty directory: %q" [ArgString name])
    /\ (forall e, r = Err e -> err = e).
Proof.
  intros Hc Hr.
  assert (Hro : readOnly tr).
  { pose proof (hasContents_readOnly h pkg name w) as H1.
    rewrite Hc in H1. exact H1. }
  unfold Remove. rewrite !run_bind, Hc.
  destruct r as [[|] | e]; [| contradiction |]; cbn; rewrite !app_nil_r.
  - eexists. split; [reflexivity |]. split; [exact Hro |].
    split; [reflexivity | discriminate].
  - eexists. split; [reflexivity |]. split; [exact Hro |].
    split; [discriminate |]. intros e0 [= ->]. reflexivity.
Qed.

(** X13.  [Remove] of a file heads the object, deletes it once under
    the generation the head reported (unconditionally if the head
    failed), and returns the answer of that delete.  The metadata of
    the file is removed only when there is a plugin and the delete
    succeeded, and the answer of that removal does not change the
    result. *)
Theorem Remove_file (name : string) (w : W) :
  exists r delErr b trMeta w',
    run h (Remove pkg fs name false) w
    = (delErr, w',
       Ev (ObjAttrs name) r
       :: Ev (ObjDelete name (deleteConditionFor r)) delErr
       :: Ev HasMetadater b :: trMeta)
    /\ match b, delErr with
       | true, None =>
           exists m,
             trMeta = [Ev (RemoveMetadata (getStorageID fs)
                             (ensureAbsPath pkg name)) m]
       | _, _ => trMeta = []
       end.
Proof.
  unfold Remove, headObject. cbn.
  destruct (h _ (ObjAttrs name) w) as [r w1]. cbn.
  change (match r with
          | Ok attrs => Some (mkConditions (Generation attrs) false)
          | Err _ => None
          end) with (deleteConditionFor r).
  destruct (h _ (ObjDelete name (deleteConditionFor r)) w1) as [delErr w2].
  cbn.
  destruct (h _ HasMetadater w2) as [b w3]. cbn.
  destruct b, delErr as [e |]; cbn.
  - eexists r, (Some e), true, [], w3. split; reflexivity.
  - destruct (h _ (RemoveMetadata _ _) w3) as [m w4]. cbn.
    eexists r, None, true, _, w4. split; [reflexivity |].
    exists m. reflexivity.
  - eexists r, (Some e), false, [], w3. split; reflexivity.
  - eexists r, None, false, [], w3. split; reflexivity.
Qed.

(** X14.  [Remove] of a directory whose bounded listing reports no
    contents deletes the marker (the name with one trailing slash)
    under the generation its head reported.  Only if that delete
    answers not-found, the object named without the trailing slash is
    deleted instead, unconditionally, and its answer is the result.
    No metadata is removed for a directory. *)
Theorem Remove_empty_directory (name : string) (w w1 : W)
    (tr : list entry) :
  run h (hasContents pkg name) w = (Ok false, w1, tr) ->
  exists r delErr res b fallback w',
    run h (Remove pkg fs name true) w
    = (res, w',
       (tr ++ Ev (ObjAttrs (markerKey name)) r
           :: Ev (ObjDelete (markerKey name) (deleteConditionFor r)) delErr
           :: fallback ++ [Ev HasMetadater b])%list)
    /\ if IsNotExist delErr
       then fallback
            = [Ev (ObjDelete (strings.TrimSuffix (markerKey name) "/") None)
                 res]
       else fallback = [] /\ res = delErr.
Proof.
  intros Hc. unfold Remove, headObject. rewrite !run_bind, Hc.
  cbn. rewrite markerKey_eq.
  destruct (h _ (ObjAttrs (markerKey name)) w1) as [r w2]. cbn.
  change (match r with
          | Ok attrs => Some (mkConditions (Generation attrs) false)
          | Err _ => None
          end) with (deleteConditionFor r).
  destruct (h _ (ObjDelete (markerKey name) (deleteConditionFor r)) w2)
    as [delErr w3]. cbn.
  destruct (IsNotExist delErr) eqn:Hne; cbn.
  - destruct (h _ (ObjDelete (strings.TrimSuffix (markerKey name) "/") None)
                w3) as [res w4]. cbn.
    destruct (h _ HasMetadater w4) as [b w5]. cbn.
    rewrite andb_false_r. cbn. rewrite !app_nil_r.
    eexists r, delErr, res, b,
      [Ev (ObjDelete (strings.TrimSuffix (markerKey name) "/") None) res],
      w5.
    rewrite Hne. split; reflexivity.
  - destruct (h _ HasMetadater w3) as [b w4]. cbn.
    rewrite andb_false_r. cbn. rewrite !app_nil_r.
    eexists r, delErr, delErr, b, [], w4. rewrite Hne.
    split; [reflexivity | split; reflexivity].
Qed.

(** *** Create *)

(** X15.  [Create] fails only when the pipe cannot be created, and then
    calls nothing else.  Otherwise it starts exactly one upload, to
    the requested name, and returns nil: with the flag -1 (a
    directory) without a head, under the condition that the object
    does not exist and with the directory content type; with any
    other flag after one head of the name, under the condition
    derived from its answer and with the content type of the
    extension.  Storage class and ACL are those of the
    configuration. *)
Theorem Create_starts_one_upload (name : string) (flag : Z) (w w1 : W)
    (pipeErr : option error) :
  h _ (PipeInDir (localTempDir fs)) w = (pipeErr, w1) ->
  match pipeErr with
  | Some e =>
      run h (Create pkg fs name flag) w
      = (Some e, w1, [Ev (PipeInDir (localTempDir fs)) (Some e)])
  | None =>
      exists trHead cond cfg w',
        run h (Create pkg fs name flag) w
        = (None, w',
           (Ev (PipeInDir (localTempDir fs)) None
            :: trHead ++ [Ev (GoUpload name cond cfg) tt])%list)
        /\ WStorageClass cfg = StorageClass (config fs)
        /\ PredefinedACL cfg = ACL (config fs)
        /\ (flag = (-1)%Z ->
            trHead = [] /\ cond = Some (mkConditions 0 true)
            /\ WContentType cfg = dirMimeType pkg)
        /\ (flag <> (-1)%Z ->
            exists r,
              trHead = [Ev (ObjAttrs name) r] /\ cond = preconditionFor r
              /\ WContentType cfg = TypeByExtension pkg (path.Ext name))
  end.
Proof.
  intros Hpipe. unfold Create, headObject. cbn [bind trigger run].
  rewrite Hpipe. destruct pipeErr as [e |]; [reflexivity |].
  destruct (Z.eqb_spec flag (-1)) as [Hflag | Hflag]; cbn.
  - destruct (h _ (GoUpload _ _ _) w1) as [[] w2]. cbn.
    eexists [], _, _, w2. split; [reflexivity |].
    repeat split; try reflexivity. intros Hne. contradiction.
  - destruct (h _ (ObjAttrs name) w1) as [r w2]. cbn.
    destruct (h _ (GoUpload _ _ _) w2) as [[] w3]. cbn.
    eexists [Ev (ObjAttrs name) r], _, _, w3. split; [reflexivity |].
    repeat split; try reflexivity; try contradiction.
    intros _. exists r. repeat split; reflexivity.
Qed.

(** *** Open *)

(** X16.  Once the pipe exists, [Open] either succeeds, and then it has
    opened the reader and started exactly one download and closed
    nothing; or it fails, and then both ends of the pipe have been
    closed and the context cancelled as its last calls and no
    download has been started.  It succeeds whenever the reader can
    be opened and the offset is not positive or the content is not
    gzip-encoded. *)
Theorem Open_releases_on_failure (name : string) (offset : Z) (w w1 : W) :
  h _ (PipeInDir (localTempDir fs)) w = (None, w1) ->
  match (run h (Open fs name offset) w).1.1 with
  | None =>
      exists objectReader,
        (run h (Open fs name offset) w).2
        = [Ev (PipeInDir (localTempDir fs)) None;
           Ev (NewRangeReader name offset (-1)) (Ok objectReader);
           Ev (GoDownload name) tt]
  | Some e =>
      (exists tr0,
         (run h (Open fs name offset) w).2
         = (tr0 ++ [Ev PipeReaderClose tt; Ev PipeWriterClose tt;
                    Ev CancelFn tt])%list)
      /\ (forall n r,
            ~ In (Ev (GoDownload n) r) (run h (Open fs name offset) w).2)
  end
  /\ (forall objectReader w2,
        h _ (NewRangeReader name offset (-1)) w1 = (Ok objectReader, w2) ->
        (offset <= 0)%Z \/ ReaderContentEncoding objectReader <> "gzip" ->
        (run h (Open fs name offset) w).1.1 = None).
Proof.
  intros Hpipe.
  destruct (h _ (NewRangeReader name offset (-1)) w1) as [r w2] eqn:Hr.
  destruct r as [objectReader | e].
  - destruct ((0 <? offset)%Z
              && String.eqb (ReaderContentEncoding objectReader) "gzip")
      eqn:Hgz.
    + destruct (h _ ReaderClose w2) as [[] w3] eqn:E3.
      destruct (h _ PipeReaderClose w3) as [[] w4] eqn:E4.
      destruct (h _ PipeWriterClose w4) as [[] w5] eqn:E5.
      destruct (h _ CancelFn w5) as [[] w6] eqn:E6.
      assert (Hrun : run h (Open fs name offset) w
        = (Some (Errorf
             "range request is not possible for gzip content encoding, requested offset %v"
             [ArgInt offset]), w6,
           ([Ev (PipeInDir (localTempDir fs)) None;
             Ev (NewRangeReader name offset (-1)) (Ok objectReader);
             Ev ReaderClose tt]
            ++ [Ev PipeReaderClose tt; Ev PipeWriterClose tt;
                Ev CancelFn tt])%list)).
      { unfold Open. cbn. rewrite Hpipe. cbn. rewrite Hr. cbn.
        rewrite Hgz. cbn. rewrite E3. cbn. rewrite E4. cbn. rewrite E5.
        cbn. rewrite E6. reflexivity. }
      rewrite Hrun. cbn [fst snd]. split.
      * split; [eexists; reflexivity |].
        intros n r0 Hin. cbn in Hin.
        repeat (destruct Hin as [Hin | Hin]; [discriminate Hin |]).
        exact Hin.
      * intros objectReader' w2' [= <- <-] Hok. exfalso.
        apply andb_true_iff in Hgz as [Hpos Hg].
        apply Z.ltb_lt in Hpos. apply String.eqb_eq in Hg.
        destruct Hok as [Hle | Hng]; [lia | contradiction].
    + destruct (h _ (GoDownload name) w2) as [[] w3] eqn:E3.
      assert (Hrun : run h (Open fs name offset) w
        = (None, w3,
           [Ev (PipeInDir (localTempDir fs)) None;
            Ev (NewRangeReader name offset (-1)) (Ok objectReader);
            Ev (GoDownload name) tt])).
      { unfold Open. cbn. rewrite Hpipe. cbn. rewrite Hr. cbn.
        rewrite Hgz. cbn. rewrite E3. reflexivity. }
      rewrite Hrun. cbn [fst snd].
      split; [exists objectReader; reflexivity | reflexivity].
  - destruct (h _ PipeReaderClose w2) as [[] w4] eqn:E4.
    destruct (h _ PipeWriterClose w4) as [[] w5] eqn:E5.
    destruct (h _ CancelFn w5) as [[] w6] eqn:E6.
    assert (Hrun : run h (Open fs name offset) w
      = (Some e, w6,
         ([Ev (PipeInDir (localTempDir fs)) None;
           Ev (NewRangeReader name offset (-1)) (Err e)]
          ++ [Ev PipeReaderClose tt; Ev PipeWriterClose tt;
              Ev CancelFn tt])%list)).
    { unfold Open. cbn. rewrite Hpipe. cbn. rewrite Hr. cbn.
      rewrite E4. cbn. rewrite E5. cbn. rewrite E6. reflexivity. }
    rewrite Hrun. cbn [fst snd]. split.
    + split; [eexists; reflexivity |].
      intros n r0 Hin. cbn in Hin.
      repeat (destruct Hin as [Hin | Hin]; [discriminate Hin |]).
      exact Hin.
    + intros objectReader w2' Heq. discriminate Heq.
Qed.

(** *** Rename *)

(** X17.  When the source cannot be stat'ed, [Rename] to another path
    returns the sentinel counters (-1, -1) with the error of the stat,
    and has made only the read-only calls of the stat: no marker is
    created and nothing is copied or deleted. *)
Theorem Rename_missing_source (fuel : nat) (source target : string)
    (w w1 : W) (e : error) (tr : list entry) :
  source <> target ->
  run h (getObjectStat pkg fs source) w = (Err e, w1, tr) ->
  run h (Rename pkg fs fuel source target) w
  = (Some (-1, -1, Some e)%Z, w1, tr)
  /\ readOnly tr.
Proof.
  intros Hne Hstat. split.
  - unfold Rename. apply String.eqb_neq in Hne. rewrite Hne.
    rewrite run_bind, Hstat. cbn. rewrite app_nil_r. reflexivity.
  - pose proof (getObjectStat_readOnly h pkg fs source w) as H1.
    rewrite Hstat in H1. exact H1.
Qed.

(** *** hasContents *)

(** X23.  [hasContents] looks at the first page of a listing of at most
    two objects under the prefix of the name, and answers true exactly
    when that page holds an object other than the marker of the
    directory itself; the object whose key is the prefix, and the one
    whose key is the prefix followed by a slash, do not count. *)
Theorem hasContents_spec (name : string) (w w1 w2 : W) (pager : Pager)
    (objects : list ObjectAttrs) (next : option Pager) :
  h _ (SetAttrSelection gcsDefaultFieldsSelection) w = (None, w1) ->
  h _ (ListObjects (mkQuery (getPrefix name) "") 2) w1 = (pager, w2) ->
  NextPage pager = Ok (objects, next) ->
  (exists b,
     run h (hasContents pkg name) w
     = (Ok b, w2,
        [Ev (SetAttrSelection gcsDefaultFieldsSelection) None;
         Ev (ListObjects (mkQuery (getPrefix name) "") 2) pager])
     /\ (b = true <->
         exists attrs,
           In attrs objects /\ realEntry pkg (getPrefix name) attrs))
  /\ (forall attrs,
        Name attrs = getPrefix name
        \/ Name attrs = getPrefix name +:+ "/" ->
        ~ realEntry pkg (getPrefix name) attrs).
Proof.
  intros Hsel Hlist Hpage. split.
  - exists (hasContentsLoop pkg (getPrefix name) objects). split.
    + unfold hasContents. cbn. rewrite Hsel. cbn. rewrite Hlist. cbn.
      rewrite Hpage. reflexivity.
    + apply hasContentsLoop_true.
  - intros attrs Hname [Hne _]. apply Hne.
    unfold resolve. destruct Hname as [-> | ->].
    + rewrite TrimPrefix_self. reflexivity.
    + rewrite TrimPrefix_append. reflexivity.
Qed.

(** *** ScanRootDirContents *)

Lemma getPrefix_keyPrefixOf (kp : list string) :
  names kp -> getPrefix (keyPrefixOf kp) = keyPrefixOf kp.
Proof.
  intros Hn. destruct kp as [| k kp']; [reflexivity |].
  set (l := k :: kp') in *.
  change (keyPrefixOf l) with (joinSegs l +:+ "/").
  pose proof (joinSegs_not_empty l Hn ltac:(discriminate)) as Hne.
  pose proof (joinSegs_not_abs l Hn) as Hna.
  destruct (joinSegs l) as [| c rest] eqn:EJ; [discriminate Hne |].
  cbn [path.IsAbs] in Hna.
  assert (H1 : String.eqb (String c rest +:+ "/") "" = false) by reflexivity.
  assert (H2 : String.eqb (String c rest +:+ "/") "." = false).
  { rewrite append_cons. destruct rest; cbn;
      destruct (Ascii.eqb c "."); reflexivity. }
  assert (H3 : String.eqb (String c rest +:+ "/") "/" = false).
  { rewrite append_cons. destruct rest; cbn;
      destruct (Ascii.eqb c "/"); reflexivity. }
  unfold getPrefix. rewrite H1, H2, H3. cbn [negb andb].
  rewrite TrimPrefix_slash_rel by (rewrite append_cons; exact Hna).
  rewrite HasSuffix_append_slash. reflexivity.
Qed.

(** X18.  With a well-formed key prefix, [ScanRootDirContents] lists
    the objects under exactly the key prefix (the whole bucket when it
    is empty) and returns, in Go's integers, the number and the total
    size of the listed objects that are live and are not zero-length
    directory markers, together with the error the listing ended in,
    if any; the counts are exact when they fit 63 bits. *)
Theorem ScanRootDirContents_counts (kp : list string) (w w1 w2 : W)
    (pager : Pager) :
  names kp ->
  KeyPrefix (config fs) = keyPrefixOf kp ->
  h _ (SetAttrSelection gcsDefaultFieldsSelection) w = (None, w1) ->
  h _ (ListObjects (mkQuery (KeyPrefix (config fs)) "") defaultGCSPageSize) w1
    = (pager, w2) ->
  let files := List.filter (counted pkg) (delivered pager) in
  run h (ScanRootDirContents pkg fs) w
  = ((wrap64 (Z.of_nat (length files)), wrap64 (sumSizes files),
      pagerError pager), w2,
     [Ev (SetAttrSelection gcsDefaultFieldsSelection) None;
      Ev (ListObjects (mkQuery (KeyPrefix (config fs)) "")
            defaultGCSPageSize) pager])
  /\ ((Z.of_nat (length files) < 2 ^ 63)%Z ->
      (- 2 ^ 63 <= sumSizes files < 2 ^ 63)%Z ->
      (run h (ScanRootDirContents pkg fs) w).1.1
      = (Z.of_nat (length files), sumSizes files, pagerError pager)).
Proof.
  intros Hn Hkp Hsel Hlist files.
  assert (Hrun : run h (ScanRootDirContents pkg fs) w
    = ((wrap64 (Z.of_nat (length files)), wrap64 (sumSizes files),
        pagerError pager), w2,
       [Ev (SetAttrSelection gcsDefaultFieldsSelection) None;
        Ev (ListObjects (mkQuery (KeyPrefix (config fs)) "")
              defaultGCSPageSize) pager])).
  { unfold ScanRootDirContents, GetDirSize.
    rewrite Hkp, (getPrefix_keyPrefixOf kp Hn), <- Hkp.
    cbn. rewrite Hsel. cbn. rewrite Hlist. cbn.
    change (0%Z, 0%Z) with (wrap64 0, wrap64 0).
    rewrite dirSizePages_spec. reflexivity. }
  split; [exact Hrun |].
  intros Hcount Hsize. rewrite Hrun. cbn [fst snd].
  rewrite !wrap64_small by lia. reflexivity.
Qed.

(** *** ReadDir *)

Lemma readDirObject_step (prefix : string) (modTimes : gmap string Z)
    (st : list FileInfo * gmap string bool) (attrs : ObjectAttrs) :
  (readDirObject pkg prefix modTimes st attrs).1 = st.1
  \/ (listed pkg prefix attrs = true
      /\ (readDirObject pkg prefix modTimes st attrs).1
         = (st.1 ++ [entryOf pkg prefix modTimes attrs])%list).
Proof.
  destruct st as [result prefixes].
  unfold readDirObject, listed, entryOf.
  destruct (negb (String.eqb (Prefix attrs) "")).
  - destruct (String.eqb _ ""); [left; reflexivity |].
    destruct (prefixes !! _); [left; reflexivity |].
    right. split; reflexivity.
  - destruct (resolve pkg (Name attrs) prefix (ContentType attrs))
      as [name isDir]. cbn [fst snd].
    destruct (String.eqb name ""); [left; reflexivity |].
    destruct (IsZero (Deleted attrs)); [| left; reflexivity].
    cbn [negb].
    destruct (if isDir then prefixes !! name else None);
      [left; reflexivity |].
    right. split; reflexivity.
Qed.

Lemma readDir_fold_sublist (prefix : string) (modTimes : gmap string Z)
    (objects : list ObjectAttrs) :
  forall st, exists l,
    (fold_left (readDirObject pkg prefix modTimes) objects st).1
    = (st.1 ++ l)%list
    /\ sublist l (map (entryOf pkg prefix modTimes)
                    (List.filter (listed pkg prefix) objects)).
Proof.
  induction objects as [| a objects IH]; intros st; cbn [fold_left].
  - exists []. rewrite app_nil_r. split; [reflexivity | constructor].
  - destruct (IH (readDirObject pkg prefix modTimes st a)) as (l & Hl & Hs).
    cbn [List.filter].
    destruct (readDirObject_step prefix modTimes st a) as [He | [Hli He]].
    + exists l. rewrite Hl, He. split; [reflexivity |].
      destruct (listed pkg prefix a); [apply sublist_cons |]; exact Hs.
    + exists (entryOf pkg prefix modTimes a :: l).
      rewrite Hl, He, <- app_assoc. split; [reflexivity |].
      rewrite Hli. cbn [map]. apply sublist_skip. exact Hs.
Qed.

Lemma readDir_pages_sublist (prefix : string) (modTimes : gmap string Z)
    (pager : Pager) :
  forall st, exists l,
    readDirPages pkg prefix modTimes pager st
    = ((st.1 ++ l)%list, pagerError pager)
    /\ sublist l (map (entryOf pkg prefix modTimes)
                    (List.filter (listed pkg prefix) (delivered pager))).
Proof.
  induction pager as [objects | objects next IH | err]; intros st;
    cbn [readDirPages delivered pagerError].
  - destruct (readDir_fold_sublist prefix modTimes objects st)
      as (l & Hl & Hs).
    exists l. rewrite Hl. split; [reflexivity | exact Hs].
  - destruct (readDir_fold_sublist prefix modTimes objects st)
      as (l1 & Hl1 & Hs1).
    destruct (IH (fold_left (readDirObject pkg prefix modTimes) objects st))
      as (l2 & Hl2 & Hs2).
    exists (l1 ++ l2)%list. rewrite Hl2, Hl1, <- app_assoc.
    split; [reflexivity |].
    rewrite List.filter_app, map_app. apply sublist_app; assumption.
  - exists []. rewrite app_nil_r. split; [reflexivity | constructor].
Qed.

(** X19.  Once the listing has started, what [ReadDir] returns is made
    of entries of the listing, in the order of the listing and each
    used at most once: synthetic prefix entries and live objects whose
    name relative to the prefix is not empty, reported as [entryOf]
    describes.  The error is the one the listing ended in, if any;
    the entries of the pages delivered before it are returned with
    it. *)
Theorem ReadDir_reports_listed_entries (dirname : string) (w w1 w2 w3 : W)
    (modTimes : gmap string Z) (pager : Pager) :
  h _ (SetAttrSelection gcsDefaultFieldsSelection) w = (None, w1) ->
  h _ (GetFolderModTimes (getStorageID fs) dirname) w1
    = ((modTimes, None), w2) ->
  h _ (ListObjects (mkQuery (getPrefix dirname) "/") defaultGCSPageSize) w2
    = (pager, w3) ->
  exists result,
    (run h (ReadDir pkg fs dirname) w).1 = ((result, pagerError pager), w3)
    /\ sublist result
         (map (entryOf pkg (getPrefix dirname) modTimes)
            (List.filter (listed pkg (getPrefix dirname)) (delivered pager)))
    /\ Forall (fun fi => fiName fi <> "") result.
Proof.
  intros Hsel Hmod Hlist.
  destruct (readDir_pages_sublist (getPrefix dirname) modTimes pager ([], ∅))
    as (result & Hrun & Hsub).
  cbn [fst app] in Hrun.
  exists result. split; [| split].
  - unfold ReadDir. cbn. rewrite Hsel. cbn. rewrite Hmod. cbn.
    rewrite Hlist. cbn. rewrite Hrun. reflexivity.
  - exact Hsub.
  - assert (Hall : Forall (fun fi => fiName fi <> "")
              (map (entryOf pkg (getPrefix dirname) modTimes)
                 (List.filter (listed pkg (getPrefix dirname))
                    (delivered pager)))).
    { apply Forall_forall. intros fi Hin.
      apply list_elem_of_In, in_map_iff in Hin as (attrs & <- & Hin).
      unfold entryOf.
      destruct (negb (String.eqb (Prefix attrs) "")); cbn [fiName NewFileInfo];
        apply Base_not_empty. }
    apply Forall_forall. intros fi Hin.
    rewrite Forall_forall in Hall. apply Hall.
    eapply elem_of_sublist; eassumption.
Qed.





(** *** getFileNamesInPrefix *)

Lemma fileNamesObject_lookup (prefix : string) (m : gmap string bool)
    (attrs : ObjectAttrs) (name : string) :
  fileNamesObject pkg prefix m attrs !! name
  = if listedFile pkg prefix attrs
       && String.eqb
            (resolve pkg (Name attrs) prefix (ContentType attrs)).1 name
    then Some true else m !! name.
Proof.
  unfold fileNamesObject, listedFile.
  destruct (IsZero (Deleted attrs)); cbn [negb andb]; [| reflexivity].
  destruct (String.eqb (Prefix attrs) ""); cbn [andb]; [| reflexivity].
  destruct (resolve pkg (Name attrs) prefix (ContentType attrs))
    as [n isDir]. cbn [fst snd].
  destruct (String.eqb n ""); cbn [negb andb]; [reflexivity |].
  destruct isDir; cbn [negb andb]; [reflexivity |].
  destruct (String.eqb_spec n name) as [-> | Hne].
  - apply lookup_insert_eq.
  - apply lookup_insert_ne. exact Hne.
Qed.

Lemma fileNames_fold_lookup (prefix : string) (objects : list ObjectAttrs)
    (name : string) :
  forall m,
    fold_left (fileNamesObject pkg prefix) objects m !! name
    = if existsb (fun attrs =>
                    listedFile pkg prefix attrs
                    && String.eqb
                         (resolve pkg (Name attrs) prefix
                            (ContentType attrs)).1 name) objects
      then Some true else m !! name.
Proof.
  induction objects as [| a objects IH]; intros m; cbn [fold_left existsb];
    [reflexivity |].
  rewrite IH, fileNamesObject_lookup.
  destruct (existsb _ objects); [rewrite orb_true_r; reflexivity |].
  rewrite orb_false_r. reflexivity.
Qed.

Lemma fileNames_pages_lookup (prefix : string) (pager : Pager)
    (name : string) :
  forall m,
    fileNamesPages pkg prefix pager m
    = ((fileNamesPages pkg prefix pager m).1, pagerError pager)
    /\ (fileNamesPages pkg prefix pager m).1 !! name
       = if existsb (fun attrs =>
                       listedFile pkg prefix attrs
                       && String.eqb
                            (resolve pkg (Name attrs) prefix
                               (ContentType attrs)).1 name) (delivered pager)
         then Some true else m !! name.
Proof.
  induction pager as [objects | objects next IH | err]; intros m;
    cbn [fileNamesPages delivered pagerError fst].
  - split; [reflexivity | apply fileNames_fold_lookup].
  - destruct (IH (fold_left (fileNamesObject pkg prefix) objects m))
      as [H1 H2].
    split; [exact H1 |].
    rewrite H2, fileNames_fold_lookup, existsb_app.
    destruct (existsb _ (delivered next)); [rewrite orb_true_r; reflexivity |].
    rewrite orb_false_r. reflexivity.
  - split; reflexivity.
Qed.

(** X21.  Once the listing has started, the map
    [getFileNamesInPrefix] returns holds exactly the names of the live
    objects of the pages delivered that are not synthetic prefix
    entries and resolve, under the prefix (the argument without its
    leading slash; empty for ["/"]), to a non-empty name and not to a
    directory; every value is true.  The error is the one the listing
    ended in, if any. *)
Theorem getFileNamesInPrefix_spec (fsPrefix : string) (w w1 w2 : W)
    (pager : Pager) :
  h _ (SetAttrSelection gcsDefaultFieldsSelection) w = (None, w1) ->
  h _ (ListObjects (mkQuery (fileNamesPrefix fsPrefix) "/")
         defaultGCSPageSize) w1 = (pager, w2) ->
  exists fileNames,
    (run h (getFileNamesInPrefix pkg fsPrefix) w).1
    = ((fileNames, pagerError pager), w2)
    /\ forall name b,
         fileNames !! name = Some b
         <-> b = true
             /\ exists attrs,
                  In attrs (delivered pager)
                  /\ listedFile pkg (fileNamesPrefix fsPrefix) attrs = true
                  /\ (resolve pkg (Name attrs) (fileNamesPrefix fsPrefix)
                        (ContentType attrs)).1 = name.
Proof.
  intros Hsel Hlist.
  exists (fileNamesPages pkg (fileNamesPrefix fsPrefix) pager ∅).1.
  split.
  - unfold getFileNamesInPrefix.
    replace (if negb (String.eqb fsPrefix "/")
             then strings.TrimPrefix fsPrefix "/" else "")
      with (fileNamesPrefix fsPrefix)
      by (unfold fileNamesPrefix; destruct (String.eqb fsPrefix "/");
          reflexivity).
    cbn. rewrite Hsel. cbn. rewrite Hlist. cbn.
    rewrite (proj1 (fileNames_pages_lookup (fileNamesPrefix fsPrefix) pager
                      "" ∅)) at 1. reflexivity.
  - intros name b.
    rewrite (proj2 (fileNames_pages_lookup (fileNamesPrefix fsPrefix) pager
                      name ∅)).
    rewrite lookup_empty.
    destruct (existsb _ (delivered pager)) eqn:E.
    + apply existsb_exists in E as (attrs & Hin & [Hl Hn]%andb_true_iff).
      apply String.eqb_eq in Hn.
      split.
      * intros [= <-]. split; [reflexivity |]. exists attrs. auto.
      * intros [-> _]. reflexivity.
    + split; [discriminate |].
      intros [_ (attrs & Hin & Hl & Hn)]. exfalso.
      assert (Ht : existsb
                (fun attrs =>
                   listedFile pkg (fileNamesPrefix fsPrefix) attrs
                   && String.eqb
                        (resolve pkg (Name attrs) (fileNamesPrefix fsPrefix)
                           (ContentType attrs)).1 name) (delivered pager)
              = true).
      { apply existsb_exists. exists attrs. split; [exact Hin |].
        rewrite Hl, Hn, String.eqb_refl. reflexivity. }
      rewrite Ht in E. discriminate E.
Qed.

Lemma fileNames_key (prefix : string) (pager : Pager) (key : string) :
  is_Some ((fileNamesPages pkg prefix pager ∅).1 !! key)
  <-> exists attrs,
        In attrs (delivered pager)
        /\ listedFile pkg prefix attrs = true
        /\ (resolve pkg (Name attrs) prefix (ContentType attrs)).1 = key.
Proof.
  rewrite (proj2 (fileNames_pages_lookup prefix pager key ∅)), lookup_empty.
  destruct (existsb _ (delivered pager)) eqn:E.
  - split; [intros _ | intros _; eexists; reflexivity].
    apply existsb_exists in E as (attrs & Hin & [Hl Hn]%andb_true_iff).
    apply String.eqb_eq in Hn. exists attrs. auto.
  - split; [intros [x Hx]; discriminate Hx |].
    intros (attrs & Hin & Hl & Hn). exfalso.
    assert (Ht : existsb
              (fun attrs =>
                 listedFile pkg prefix attrs
                 && String.eqb
                      (resolve pkg (Name attrs) prefix (ContentType attrs)).1
                      key) (delivered pager) = true).
    { apply existsb_exists. exists attrs. split; [exact Hin |].
      rewrite Hl, Hn, String.eqb_refl. reflexivity. }
    rewrite Ht in E. discriminate E.
Qed.

Lemma fileEntry_name (prefix : string) (modTimes : gmap string Z)
    (attrs : ObjectAttrs) :
  listedFile pkg prefix attrs = true ->
  fiName (entryOf pkg prefix modTimes attrs)
  = path.Base (resolve pkg (Name attrs) prefix (ContentType attrs)).1.
Proof.
  unfold listedFile, entryOf. intros Hl.
  destruct (String.eqb (Prefix attrs) "");
    [reflexivity | rewrite andb_false_r in Hl; discriminate Hl].
Qed.

(** X22.  [getFileNamesInPrefix] and [ReadDir] agree on the files of a
    directory: when both are given the same listing under the same
    prefix, the names of the entries of the second that are not
    directories are exactly the last elements of the keys of the map
    of the first; and for a listing with the delimiter, whose entries
    are one level below the prefix, they are exactly the keys. *)
Theorem file_names_agree (dirname fsPrefix : string) (pager : Pager)
    (modTimes : gmap string Z) (wa wa1 wa2 wa3 wb wb1 wb2 : W) :
  fileNamesPrefix fsPrefix = getPrefix dirname ->
  h _ (SetAttrSelection gcsDefaultFieldsSelection) wa = (None, wa1) ->
  h _ (GetFolderModTimes (getStorageID fs) dirname) wa1
    = ((modTimes, None), wa2) ->
  h _ (ListObjects (mkQuery (getPrefix dirname) "/") defaultGCSPageSize) wa2
    = (pager, wa3) ->
  h _ (SetAttrSelection gcsDefaultFieldsSelection) wb = (None, wb1) ->
  h _ (ListObjects (mkQuery (getPrefix dirname) "/") defaultGCSPageSize) wb1
    = (pager, wb2) ->
  let fileNames := (run h (getFileNamesInPrefix pkg fsPrefix) wb).1.1.1 in
  let files := fileEntries (run h (ReadDir pkg fs dirname) wa).1.1.1 in
  (forall name,
     In name (map fiName files)
     <-> exists key, is_Some (fileNames !! key) /\ path.Base key = name)
  /\ (Forall (oneLevel pkg (getPrefix dirname)) (delivered pager) ->
      forall name,
        is_Some (fileNames !! name) <-> In name (map fiName files)).
Proof.
  intros Hprefix Hsa Hma Hla Hsb Hlb fileNames files.
  assert (Hfiles : files
    = map (entryOf pkg (getPrefix dirname) modTimes)
        (List.filter (listedFile pkg (getPrefix dirname)) (delivered pager))).
  { subst files. unfold ReadDir. cbn. rewrite Hsa. cbn. rewrite Hma. cbn.
    rewrite Hla. cbn. rewrite readDir_pages_files. reflexivity. }
  assert (Hmap : fileNames
    = (fileNamesPages pkg (getPrefix dirname) pager ∅).1).
  { subst fileNames. unfold getFileNamesInPrefix.
    replace (if negb (String.eqb fsPrefix "/")
             then strings.TrimPrefix fsPrefix "/" else "")
      with (getPrefix dirname)
      by (rewrite <- Hprefix; unfold fileNamesPrefix;
          destruct (String.eqb fsPrefix "/"); reflexivity).
    cbn. rewrite Hsb. cbn. rewrite Hlb. reflexivity. }
  assert (Hgen : forall name,
    In name (map fiName files)
    <-> exists key, is_Some (fileNames !! key) /\ path.Base key = name).
  { intros name. rewrite Hfiles, Hmap, List.map_map. split.
    - intros Hin. apply in_map_iff in Hin as (attrs & Hn & Hin).
      apply filter_In in Hin as [Hin Hl].
      rewrite (fileEntry_name _ _ _ Hl) in Hn.
      eexists. split; [| exact Hn].
      apply fileNames_key. exists attrs. auto.
    - intros (key & Hs & Hb).
      apply fileNames_key in Hs as (attrs & Hin & Hl & Hk).
      apply in_map_iff. exists attrs. split.
      + rewrite (fileEntry_name _ _ _ Hl), Hk. exact Hb.
      + apply filter_In. split; assumption. }
  split; [exact Hgen |].
  intros Hone name.
  assert (Hplain : forall key, is_Some (fileNames !! key) ->
                               path.Base key = key).
  { intros key Hs. rewrite Hmap in Hs.
    apply fileNames_key in Hs as (attrs & Hin & Hl & Hk).
    rewrite Forall_forall in Hone.
    pose proof (Hone attrs (proj2 (list_elem_of_In _ _) Hin)) as Ho.
    unfold oneLevel, listed, relativeName in Ho.
    unfold listedFile in Hl.
    apply andb_true_iff in Hl as [Hl Hnd].
    apply andb_true_iff in Hl as [Hl Hne].
    apply andb_true_iff in Hl as [Hlive Hp].
    rewrite Hp in Ho. cbn [negb] in Ho. rewrite Hne, Hlive in Ho.
    rewrite Hk in Ho, Hne.
    apply Base_plain; [exact (Ho eq_refl) | apply negb_true_iff; exact Hne]. }
  rewrite Hgen. split.
  - intros Hs. exists name. split; [exact Hs | apply Hplain, Hs].
  - intros (key & Hs & Hb). rewrite (Hplain key Hs) in Hb. subst key. exact Hs.
Qed.

(** *** Stat of objects and of missing names *)

Lemma Stat_not_root (name : string) :
  name <> "" -> name <> "/" -> name <> "." ->
  KeyPrefix (config fs) <> name +:+ "/" ->
  Stat pkg fs name = getObjectStat pkg fs name.
Proof.
  intros H1 H2 H3 H4. unfold Stat.
  apply String.eqb_neq in H1, H2, H3, H4.
  rewrite H1, H2, H3, H4. reflexivity.
Qed.

(** X24.  For a name that is not the root and whose head finds an
    object, [Stat] makes no listing: it reports the size of the
    object, a directory exactly when the content type is the
    directory type or the key ends in a slash, and the time of the
    object unless the metadata overlay has one. *)
Theorem Stat_object (name : string) (attrs : ObjectAttrs) (w w1 : W) :
  name <> "" -> name <> "/" -> name <> "." ->
  KeyPrefix (config fs) <> name +:+ "/" ->
  h _ (ObjAttrs name) w = (Ok attrs, w1) ->
  exists fi t w',
    run h (Stat pkg fs name) w
    = (Ok fi, w',
       [Ev (ObjAttrs name) (Ok attrs);
        Ev (OverlayModTime (getStorageID fs) name) t])
    /\ fiSize fi = Size attrs
    /\ fiIsDir fi
       = (String.eqb (ContentType attrs) (dirMimeType pkg)
          || strings.HasSuffix (Name attrs) "/")
    /\ fiModTime fi
       = match t with
         | Some ms => GetTimeFromMsecSinceEpoch pkg ms
         | None => Updated attrs
         end.
Proof.
  intros H1 H2 H3 H4 Hhead. rewrite (Stat_not_root name H1 H2 H3 H4).
  unfold getObjectStat, headObject, updateFileInfoModTime. cbn.
  rewrite Hhead. cbn.
  destruct (h _ (OverlayModTime (getStorageID fs) name) w1) as [t w2].
  eexists _, t, w2.
  split; [reflexivity |]. destruct t; repeat split; reflexivity.
Qed.

(** X25.  For a name that is not the root and whose head fails,
    [Stat] returns an error other than not-found at once, without
    listing.  After not-found, an error of the bounded listing is
    returned; and when the listing reports no contents, the result is
    that of the head of the name followed by a slash: its error, or a
    directory with the size of that marker. *)
Theorem Stat_after_failed_head (name : string) (e : error) (w w1 : W) :
  name <> "" -> name <> "/" -> name <> "." ->
  KeyPrefix (config fs) <> name +:+ "/" ->
  h _ (ObjAttrs name) w = (Err e, w1) ->
  (IsNotExist (Some e) = false ->
   run h (Stat pkg fs name) w = (Err e, w1, [Ev (ObjAttrs name) (Err e)]))
  /\ (IsNotExist (Some e) = true ->
      forall r w2 tr,
        run h (hasContents pkg name) w1 = (r, w2, tr) ->
        match r with
        | Err e1 =>
            run h (Stat pkg fs name) w
            = (Err e1, w2, Ev (ObjAttrs name) (Err e) :: tr)
        | Ok true => True
        | Ok false =>
            forall m w3,
              h _ (ObjAttrs (name +:+ "/")) w2 = (m, w3) ->
              match m with
              | Err e2 =>
                  run h (Stat pkg fs name) w
                  = (Err e2, w3,
                     (Ev (ObjAttrs name) (Err e)
                      :: tr ++ [Ev (ObjAttrs (name +:+ "/")) (Err e2)])%list)
              | Ok marker =>
                  exists fi t w',
                    run h (Stat pkg fs name) w
                    = (Ok fi, w',
                       (Ev (ObjAttrs name) (Err e)
                        :: tr
                        ++ [Ev (ObjAttrs (name +:+ "/")) (Ok marker);
                            Ev (OverlayModTime (getStorageID fs) name) t])
                         %list)
                    /\ fiIsDir fi = true /\ fiSize fi = Size marker
              end
        end).
Proof.
  intros H1 H2 H3 H4 Hhead. rewrite (Stat_not_root name H1 H2 H3 H4).
  split.
  - intros Hne. unfold getObjectStat, headObject. cbn.
    rewrite Hhead. cbn. rewrite Hne. reflexivity.
  - intros Hne r w2 tr Hc.
    unfold getObjectStat, headObject. cbn [bind trigger run].
    rewrite Hhead. cbn [bind]. rewrite Hne. cbn [negb].
    rewrite run_bind, Hc.
    destruct r as [[|] | e1]; [exact I | | cbn; rewrite app_nil_r; reflexivity].
    intros m w3 Hm. cbn [bind trigger run]. rewrite Hm.
    destruct m as [marker | e2]; [| cbn; reflexivity].
    unfold updateFileInfoModTime. cbn.
    destruct (h _ (OverlayModTime (getStorageID fs) name) w3) as [t w4].
    eexists _, t, w4. split; [reflexivity |]. destruct t; auto.
Qed.

End Methods.

(** ** Concrete runs of the properties *)

Lemma getPrefix_spec_witness :
  getPrefix "a/b/" = getPrefix "a/b"
  /\ strings.HasSuffix (getPrefix "a/b") "/" = true
  /\ getPrefix "/" = "".
Proof.
  destruct (getPrefix_spec "a/b") as (_ & H2 & H3).
  destruct (getPrefix_spec "/") as (H1 & _ & _).
  split; [| split].
  - apply H3; [reflexivity | discriminate].
  - apply H2. intros H. vm_compute in H. discriminate H.
  - apply H1. right. right. reflexivity.
Defined.

Lemma child_key_roundtrip_witness :
  Join ["a/c"; (resolve (examplePkg 1) "a/c/d.txt" (getPrefix "a/c")
                  "text/plain").1] = "a/c/d.txt"
  /\ resolve (examplePkg 1) "a/c/d.txt/" (getPrefix "a/c") "" = ("d.txt", true).
Proof.
  assert (Hn : names ["a"; "c"]) by (repeat constructor).
  split.
  - exact (proj1 (proj2 (proj2
             (child_key_roundtrip (examplePkg 1) ["a"; "c"] "d.txt"
                "text/plain" Hn eq_refl)))).
  - exact (proj1 (proj2
             (child_key_roundtrip (examplePkg 1) ["a"; "c"] "d.txt" ""
                Hn eq_refl))).
Defined.

Lemma ResolvePath_under_key_prefix_witness :
  strings.HasPrefix (ResolvePath fsMounted "/v/a/b" +:+ "/") "pfx/" = true
  /\ path.IsAbs (ResolvePath fsMounted "/v/a/b") = false.
Proof.
  assert (Hkp : names ["pfx"]) by (repeat constructor).
  assert (Hms : names ["v"]) by (repeat constructor).
  exact (ResolvePath_under_key_prefix fsMounted ["pfx"] ["v"] Hkp Hms
           eq_refl eq_refl "/v/a/b" eq_refl eq_refl).
Defined.

Lemma GetRelativePath_absolute_witness :
  path.IsAbs (GetRelativePath fsMounted "../x") = true.
Proof.
  apply (GetRelativePath_absolute fsMounted "../x"). right. reflexivity.
Defined.

Lemma Chtimes_spec_witness :
  (run MemStore.handle
     (Chtimes (examplePkg 0) fsPlain "a" unixEpoch unixEpoch false)
     overlayStore).1.1 = Some ErrVfsUnsupported
  /\ (run MemStore.handle
        (Chtimes (examplePkg 0) fsPlain "a" unixEpoch unixEpoch true)
        overlayStore).1.1 = None
  /\ (run MemStore.handle
        (Chtimes (examplePkg 0) fsPlain "a" unixEpoch unixEpoch true)
        scenario).1.1 = Some ErrVfsUnsupported.
Proof.
  destruct (Chtimes_spec MemStore.handle (examplePkg 0) fsPlain "a"
              unixEpoch unixEpoch overlayStore overlayStore true eq_refl)
    as (_ & Hup & Hstat).
  destruct (Chtimes_spec MemStore.handle (examplePkg 0) fsPlain "a"
              unixEpoch unixEpoch scenario scenario false eq_refl)
    as (Hno & _ & _).
  split; [| split].
  - pose proof (Hstat eq_refl (Ok (mkFileInfo "a" true 0 unixEpoch))
                  overlayStore
                  (run MemStore.handle (Stat (examplePkg 0) fsPlain "a")
                     overlayStore).2
                  ltac:(vm_compute; reflexivity)) as H.
    cbn [fiIsDir] in H. rewrite H. reflexivity.
  - rewrite (Hup eq_refl None overlayStore eq_refl). reflexivity.
  - rewrite (Hno eq_refl true). reflexivity.
Defined.

Lemma Stat_root_witness :
  exists fi w' t,
    run MemStore.handle (Stat (examplePkg 0) fsMounted "pfx") scenario
    = (Ok fi, w', [Ev (OverlayModTime (getStorageID fsMounted) "pfx") t])
    /\ fiIsDir fi = true /\ fiSize fi = 0%Z.
Proof.
  apply (Stat_root MemStore.handle (examplePkg 0) fsMounted "pfx" scenario).
  right. right. right. reflexivity.
Defined.

Lemma Stat_without_object_is_directory_witness :
  exists fi w' tr,
    run MemStore.handle (Lstat (examplePkg 0) fsPlain "a/c") scenario
    = (Ok fi, w', tr)
    /\ fiIsDir fi = true.
Proof.
  exists (mkFileInfo "c" true 0 unixEpoch), scenario,
    (run MemStore.handle (Lstat (examplePkg 0) fsPlain "a/c") scenario).2.
  assert (Hrun : run MemStore.handle (Lstat (examplePkg 0) fsPlain "a/c")
                   scenario
                 = (Ok (mkFileInfo "c" true 0 unixEpoch), scenario,
                    (run MemStore.handle (Lstat (examplePkg 0) fsPlain "a/c")
                       scenario).2))
    by (vm_compute; reflexivity).
  split; [exact Hrun |].
  apply (Stat_without_object_is_directory MemStore.handle (examplePkg 0)
           fsPlain "a/c" scenario scenario _ _ Hrun).
  intros attrs. discriminate.
Defined.

Lemma Mkdir_creates_only_when_missing_witness :
  (run MemStore.handle (Mkdir (examplePkg 0) fsPlain "a") scenario).1
  = (None, scenario)
  /\ namesOf (run MemStore.handle (Mkdir (examplePkg 0) fsPlain "z")
                scenario).1.2
     = [("a/b.txt", 10); ("a/c/d.txt", 5); ("z/", 0)]%Z.
Proof.
  destruct (Mkdir_creates_only_when_missing MemStore.handle (examplePkg 0)
              fsPlain "a" scenario scenario
              (Ok (mkFileInfo "a" true 0 unixEpoch))
              (run MemStore.handle (Stat (examplePkg 0) fsPlain "a")
                 scenario).2 ltac:(vm_compute; reflexivity))
    as [Hexists _].
  destruct (Mkdir_creates_only_when_missing MemStore.handle (examplePkg 0)
              fsPlain "z" scenario scenario (Err ErrObjectNotExist)
              (run MemStore.handle (Stat (examplePkg 0) fsPlain "z")
                 scenario).2 ltac:(vm_compute; reflexivity))
    as [_ Hmissing].
  split.
  - destruct (Hexists eq_refl) as [Hrun _]. rewrite Hrun. reflexivity.
  - rewrite (Hmissing eq_refl). vm_compute. reflexivity.
Defined.

Lemma mkdirInternal_marker_witness :
  (exists cfg closeErr w',
     run MemStore.handle (mkdirInternal (examplePkg 0) fsPlain "z") scenario
     = (closeErr, w',
        [Ev (PipeInDir (localTempDir fsPlain)) None;
         Ev (GoUpload (markerKey "z") (Some (mkConditions 0 true)) cfg) tt;
         Ev UploadClose closeErr])
     /\ WContentType cfg = dirMimeType (examplePkg 0))
  /\ strings.HasSuffix (markerKey "z") "/" = true
  /\ mkdirInternal (examplePkg 0) fsPlain (markerKey "z")
     = mkdirInternal (examplePkg 0) fsPlain "z".
Proof.
  exact (mkdirInternal_marker MemStore.handle (examplePkg 0) fsPlain "z"
           scenario scenario eq_refl).
Defined.

Lemma Remove_nonempty_directory_witness :
  (run MemStore.handle (Remove (examplePkg 0) fsPlain "a" true) scenario).1
  = (Some (Errorf "cannot remove non empty directory: %q" [ArgString "a"]),
     scenario).
Proof.
  destruct (Remove_nonempty_directory MemStore.handle (examplePkg 0) fsPlain
              "a" scenario scenario (Ok true)
              (run MemStore.handle (hasContents (examplePkg 0) "a")
                 scenario).2 ltac:(vm_compute; reflexivity)
              ltac:(discriminate))
    as (err & Hrun & _ & Herr & _).
  rewrite Hrun, (Herr eq_refl). reflexivity.
Defined.

Lemma Remove_empty_directory_witness :
  exists r delErr res b fallback w',
    run MemStore.handle (Remove (examplePkg 0) fsPlain "d" true)
      legacyMarkerStore
    = (res, w',
       ((run MemStore.handle (hasContents (examplePkg 0) "d")
           legacyMarkerStore).2
        ++ Ev (ObjAttrs (markerKey "d")) r
           :: Ev (ObjDelete (markerKey "d") (deleteConditionFor r)) delErr
           :: fallback ++ [Ev HasMetadater b])%list)
    /\ if IsNotExist delErr
       then fallback
            = [Ev (ObjDelete (strings.TrimSuffix (markerKey "d") "/") None)
                 res]
       else fallback = [] /\ res = delErr.
Proof.
  apply (Remove_empty_directory MemStore.handle (examplePkg 0) fsPlain "d"
           legacyMarkerStore legacyMarkerStore).
  vm_compute. reflexivity.
Defined.

Lemma Create_starts_one_upload_witness :
  exists trHead cond cfg w',
    run MemStore.handle (Create (examplePkg 0) fsPlain "a/b.txt" 0) scenario
    = (None, w',
       (Ev (PipeInDir (localTempDir fsPlain)) None
        :: trHead ++ [Ev (GoUpload "a/b.txt" cond cfg) tt])%list)
    /\ WStorageClass cfg = StorageClass (config fsPlain)
    /\ PredefinedACL cfg = ACL (config fsPlain)
    /\ (0%Z = (-1)%Z ->
        trHead = [] /\ cond = Some (mkConditions 0 true)
        /\ WContentType cfg = dirMimeType (examplePkg 0))
    /\ (0%Z <> (-1)%Z ->
        exists r,
          trHead = [Ev (ObjAttrs "a/b.txt") r] /\ cond = preconditionFor r
          /\ WContentType cfg
             = TypeByExtension (examplePkg 0) (path.Ext "a/b.txt")).
Proof.
  exact (Create_starts_one_upload MemStore.handle (examplePkg 0) fsPlain
           "a/b.txt" 0 scenario scenario None eq_refl).
Defined.

Lemma Open_releases_on_failure_witness :
  (run MemStore.handle (Open fsPlain "missing" 0) scenario).1.1
  = Some ErrObjectNotExist
  /\ (forall n r,
        ~ In (Ev (GoDownload n) r)
            (run MemStore.handle (Open fsPlain "missing" 0) scenario).2)
  /\ (run MemStore.handle (Open fsPlain "app.gz" 0) gzipStore).1.1 = None.
Proof.
  pose proof (Open_releases_on_failure MemStore.handle fsPlain "missing" 0
                scenario scenario eq_refl) as [H1 _].
  pose proof (Open_releases_on_failure MemStore.handle fsPlain "app.gz" 0
                gzipStore gzipStore eq_refl) as [_ H2].
  split; [reflexivity |]. split.
  - change ((run MemStore.handle (Open fsPlain "missing" 0) scenario).1.1)
      with (Some ErrObjectNotExist) in H1.
    exact (proj2 H1).
  - apply (H2 (mkReader "gzip") gzipStore eq_refl). left. lia.
Defined.

Lemma Rename_missing_source_witness :
  (run MemStore.handle (Rename (examplePkg 0) fsPlain 1 "zz" "yy") scenario).1
  = (Some (-1, -1, Some ErrObjectNotExist)%Z, scenario).
Proof.
  destruct (Rename_missing_source MemStore.handle (examplePkg 0) fsPlain 1
              "zz" "yy" scenario scenario ErrObjectNotExist
              (run MemStore.handle (getObjectStat (examplePkg 0) fsPlain "zz")
                 scenario).2 ltac:(discriminate)
              ltac:(vm_compute; reflexivity)) as [Hrun _].
  rewrite Hrun. reflexivity.
Defined.

Lemma ScanRootDirContents_counts_witness :
  (run MemStore.handle (ScanRootDirContents (examplePkg 0) fsUnderA)
     scenario).1.1
  = (2, 15, None)%Z.
Proof.
  assert (Hkp : names ["a"]) by (repeat constructor).
  destruct (ScanRootDirContents_counts MemStore.handle (examplePkg 0) fsUnderA
              ["a"] scenario scenario scenario
              (LastPage [plainObject "a/b.txt" 10; plainObject "a/c/d.txt" 5])
              Hkp eq_refl eq_refl eq_refl) as [_ Hexact].
  rewrite Hexact; [reflexivity | vm_compute; reflexivity |
                   split; vm_compute; [discriminate | reflexivity]].
Defined.

Lemma ReadDir_reports_listed_entries_witness :
  exists result,
    (run MemStore.handle (ReadDir (examplePkg 0) fsPlain "a") scenario).1
    = ((result, None), scenario)
    /\ sublist result
         (map (entryOf (examplePkg 0) (getPrefix "a") ∅)
            (List.filter (listed (examplePkg 0) (getPrefix "a"))
               [plainObject "a/b.txt" 10; MemStore.prefixEntry "a/c/"]))
    /\ Forall (fun fi => fiName fi <> "") result.
Proof.
  exact (ReadDir_reports_listed_entries MemStore.handle (examplePkg 0) fsPlain
           "a" scenario scenario scenario scenario ∅
           (LastPage [plainObject "a/b.txt" 10; MemStore.prefixEntry "a/c/"])
           eq_refl eq_refl eq_refl).
Defined.


Lemma getFileNamesInPrefix_spec_witness :
  exists fileNames,
    (run MemStore.handle (getFileNamesInPrefix (examplePkg 0) "/a/")
       scenario).1
    = ((fileNames, None), scenario)
    /\ fileNames !! "b.txt" = Some true
    /\ fileNames !! "c" = None.
Proof.
  destruct (getFileNamesInPrefix_spec MemStore.handle (examplePkg 0) "/a/"
              scenario scenario scenario
              (LastPage [plainObject "a/b.txt" 10; MemStore.prefixEntry "a/c/"])
              eq_refl eq_refl) as (fileNames & Hrun & Hspec).
  exists fileNames. split; [exact Hrun |]. split.
  - apply Hspec. split; [reflexivity |].
    exists (plainObject "a/b.txt" 10).
    split; [left; reflexivity | split; reflexivity].
  - destruct (fileNames !! "c") as [b |] eqn:E; [| reflexivity].
    exfalso. apply Hspec in E as [_ (attrs & Hin & Hl & Hn)].
    destruct Hin as [<- | [<- | []]]; vm_compute in Hn; discriminate Hn.
Defined.

Lemma file_names_agree_witness :
  is_Some ((run MemStore.handle (getFileNamesInPrefix (examplePkg 0) "a/")
              scenario).1.1.1 !! "b.txt")
  <-> In "b.txt"
        (map fiName
           (fileEntries
              (run MemStore.handle (ReadDir (examplePkg 0) fsPlain "a")
                 scenario).1.1.1)).
Proof.
  apply (proj2
           (file_names_agree MemStore.handle (examplePkg 0) fsPlain "a" "a/"
              (LastPage [plainObject "a/b.txt" 10;
                         MemStore.prefixEntry "a/c/"])
              ∅ scenario scenario scenario scenario scenario scenario
              scenario eq_refl eq_refl eq_refl eq_refl eq_refl eq_refl)).
  repeat constructor.
Defined.

Lemma hasContents_spec_witness :
  exists b,
    run MemStore.handle (hasContents (examplePkg 0) "a") scenario
    = (Ok b, scenario,
       [Ev (SetAttrSelection gcsDefaultFieldsSelection) None;
        Ev (ListObjects (mkQuery (getPrefix "a") "") 2)
          (LastPage [plainObject "a/b.txt" 10; plainObject "a/c/d.txt" 5])])
    /\ (b = true <->
        exists attrs,
          In attrs [plainObject "a/b.txt" 10; plainObject "a/c/d.txt" 5]
          /\ realEntry (examplePkg 0) (getPrefix "a") attrs).
Proof.
  exact (proj1 (hasContents_spec MemStore.handle (examplePkg 0) "a"
                  scenario scenario scenario
                  (LastPage [plainObject "a/b.txt" 10;
                             plainObject "a/c/d.txt" 5])
                  [plainObject "a/b.txt" 10; plainObject "a/c/d.txt" 5] None
                  eq_refl eq_refl eq_refl)).
Defined.

Lemma Stat_object_witness :
  exists fi t w',
    run MemStore.handle (Stat (examplePkg 0) fsPlain "a/b.txt") scenario
    = (Ok fi, w',
       [Ev (ObjAttrs "a/b.txt") (Ok (plainObject "a/b.txt" 10));
        Ev (OverlayModTime (getStorageID fsPlain) "a/b.txt") t])
    /\ fiSize fi = 10%Z
    /\ fiIsDir fi = false
    /\ fiModTime fi
       = match t with
         | Some ms => GetTimeFromMsecSinceEpoch (examplePkg 0) ms
         | None => mkTime 1700000000 0
         end.
Proof.
  apply (Stat_object MemStore.handle (examplePkg 0) fsPlain "a/b.txt"
           (plainObject "a/b.txt" 10) scenario scenario);
    first [discriminate | reflexivity].
Defined.

Lemma Stat_after_failed_head_witness :
  (run MemStore.handle (Stat (examplePkg 0) fsPlain "zz") scenario).1.1
  = Err ErrObjectNotExist
  /\ exists fi t w',
       (run MemStore.handle (Stat (examplePkg 0) fsPlain "d") markerStore).1
       = (Ok fi, w')
       /\ In (Ev (OverlayModTime (getStorageID fsPlain) "d") t)
            (run MemStore.handle (Stat (examplePkg 0) fsPlain "d")
               markerStore).2
       /\ fiIsDir fi = true /\ fiSize fi = 0%Z.
Proof.
  destruct (Stat_after_failed_head MemStore.handle (examplePkg 0) fsPlain
              "zz" ErrObjectNotExist scenario scenario
              ltac:(discriminate) ltac:(discriminate) ltac:(discriminate)
              ltac:(discriminate) eq_refl) as [_ Hmissing].
  destruct (Stat_after_failed_head MemStore.handle (examplePkg 0) fsPlain
              "d" ErrObjectNotExist markerStore markerStore
              ltac:(discriminate) ltac:(discriminate) ltac:(discriminate)
              ltac:(discriminate) eq_refl) as [_ Hmarker].
  split.
  - pose proof (Hmissing eq_refl (Ok false) scenario
                  (run MemStore.handle (hasContents (examplePkg 0) "zz")
                     scenario).2 ltac:(vm_compute; reflexivity)
                  (Err ErrObjectNotExist) scenario eq_refl) as Hrun.
    cbv beta iota in Hrun. rewrite Hrun. reflexivity.
  - pose proof (Hmarker eq_refl (Ok false) markerStore
                  (run MemStore.handle (hasContents (examplePkg 0) "d")
                     markerStore).2 ltac:(vm_compute; reflexivity)
                  (Ok (mkAttrs "d/" "" 0 zeroTime (mkTime 1700000000 0)
                         "inode/directory" "" 1)) markerStore eq_refl)
      as Hrun.
    cbv beta iota in Hrun.
    destruct Hrun as (fi & t & w' & Hrun & Hd & Hs).
    exists fi, t, w'. rewrite Hrun. cbn [fst snd].
    split; [reflexivity |]. split; [| auto].
    right. apply in_or_app. right. right. left. reflexivity.
Defined.
